(** * Credential and contribution ledger of the paper-sharing backend

    A shallow embedding of the Express route handlers of the repository
    (the auth routes with the OTP endpoints, the auth routes of the
    Supabase port, the papers routes) and of the client-side
    [updateLevel], with the properties the specification states about
    them.

    The relational store and the blob store are external collaborators;
    they are modelled as an explicit state (tables are lists of rows, in
    table order) with the constraints of [server/db_schema.sql]. Every
    call to them can fail: a handler receives, next to the request, an
    environment record with what the outside world decides (random
    numbers, clock, generated identifiers, and one fault flag per store
    call). *)

From Stdlib Require Import ZArith List String Ascii Bool Lia Permutation Sorted.
Import ListNotations.

Open Scope string_scope.
Open Scope Z_scope.

(** ** JavaScript values that cross the wire *)

Module Js.

(** A JSON value, as passed to [res.json]. *)
#[local] Unset Elimination Schemes.
Inductive json : Type :=
| JNull
| JNum (n : Z)
| JStr (s : string)
| JArr (items : list json)
| JObj (fields : list (string * json)).
#[local] Set Elimination Schemes.

(** Property lookup on a JSON object; [None] is JavaScript's [undefined]. *)
Fixpoint get_field (k : string) (fields : list (string * json)) : option json :=
  match fields with
  | [] => None
  | (k', v) :: rest => if String.eqb k k' then Some v else get_field k rest
  end.

Definition prop (k : string) (j : json) : option json :=
  match j with
  | JObj fields => get_field k fields
  | _ => None
  end.


(** A nullable text column on the wire. *)
Definition jstr_opt (o : option string) : json :=
  match o with Some s => JStr s | None => JNull end.

Definition jnum_opt (o : option Z) : json :=
  match o with Some n => JNum n | None => JNull end.

(** What a handler sends: [res.json(v)] or [res.send(text)], with the
    status set by [res.status] (200 when it is not called). *)
Inductive body : Type :=
| Json (j : json)
| Text (s : string).

Record response : Type := mkResponse { status : Z; payload : body }.

Definition res_json (j : json) : response := mkResponse 200 (Json j).
Definition res_status_json (code : Z) (j : json) : response := mkResponse code (Json j).
Definition res_status_send (code : Z) (s : string) : response := mkResponse code (Text s).

Definition msg (s : string) : json := JObj [("msg", JStr s)].

(** The character of one decimal digit. *)
Definition digit_char (d : Z) : ascii := ascii_of_nat (48 + Z.to_nat d).

(** Decimal digits of a non-negative integer, most significant first,
    accumulated in front of [acc]. *)
Fixpoint digits_acc (fuel : nat) (n : Z) (acc : string) : string :=
  match fuel with
  | O => acc
  | S fuel' =>
      let acc' := String (digit_char (n mod 10)) acc in
      if n / 10 =? 0 then acc' else digits_acc fuel' (n / 10) acc'
  end.

(** [Number.prototype.toString] on an integer-valued number (below
    1e21, where JavaScript prints plain decimal digits). A number with
    binary logarithm [k] has at most [k + 1] decimal digits. *)
Definition number_toString (n : Z) : string :=
  if n <? 0
  then String "-" (digits_acc (S (Z.to_nat (Z.log2 (- n)))) (- n) EmptyString)
  else digits_acc (S (Z.to_nat (Z.log2 n))) n EmptyString.

(** [x || 0] on a nullable number: [null] and [0] both give [0]. *)
Definition or_zero (x : option Z) : Z :=
  match x with
  | Some n => n
  | None => 0
  end.

Definition is_digit (c : ascii) : bool :=
  let n := nat_of_ascii c in (48 <=? n)%nat && (n <=? 57)%nat.

Fixpoint all_digits (s : string) : bool :=
  match s with
  | EmptyString => true
  | String c s' => is_digit c && all_digits s'
  end.

(** A string of exactly six decimal digits. *)
Definition six_digit_string (s : string) : bool :=
  (String.length s =? 6)%nat && all_digits s.

End Js.

(** ** Double-precision arithmetic

    The numbers of the handlers are IEEE 754 doubles. A double that is a
    whole multiple of a fixed power of two is written as the integer
    that counts these units; the operations below are exact on the
    integers and then round to the nearest double, ties to even, as
    every operation on doubles does. Rounding keeps 53 significant bits
    and does not depend on the unit. Magnitudes stay far from the ends
    of the exponent range, so neither overflow nor subnormal numbers
    arise. *)

Module Double.

(** The nearest double to [x >= 0]: with more than 53 bits, the [s]
    bits below the 53 leading ones are rounded away, a tie going to the
    even neighbour. *)
Definition nearest (x : Z) : Z :=
  let s := Z.log2 x - 52 in
  if s <=? 0 then x
  else
    let q := x / 2 ^ s in
    let r := x mod 2 ^ s in
    let half := 2 ^ (s - 1) in
    if (half <? r) || ((r =? half) && Z.odd q)
    then (q + 1) * 2 ^ s
    else q * 2 ^ s.

(** The nearest double to any [x]; rounding is symmetric in the sign. *)
Definition round (x : Z) : Z := Z.sgn x * nearest (Z.abs x).

(** The doubles counted in units of [2^-53]: the values of
    [Math.random()] and everything computed from them here. *)
Definition of_int (n : Z) : Z := n * 2 ^ 53.

(** [x * k] for a double [x] in units of [2^-53] and an integer [k]. *)
Definition mul_int (x k : Z) : Z := round (x * k).

(** [x + y] for doubles in the same unit. *)
Definition add (x y : Z) : Z := round (x + y).

(** [Math.floor(x)] for a double in units of [2^-53]. *)
Definition floor (x : Z) : Z := x / 2 ^ 53.

(** The doubles among the integers: at most 53 significant bits. *)
Definition representable (y : Z) : Prop :=
  exists k t, 0 <= k < 2 ^ 53 /\ 0 <= t /\ y = k * 2 ^ t.

End Double.

(** ** The OTP code of [router.post('/send-otp')] *)

Module Otp.
Import Js.

(** [Math.random()] returns a double in [0, 1) with 53 random bits: the
    value [m / 2^53] for a mantissa [0 <= m < 2^53]. *)
Definition random_mantissa (m : Z) : Prop := 0 <= m < 2 ^ 53.

(** [Math.floor(100000 + Math.random() * 900000)] in double arithmetic:
    the product is rounded, then the sum, then the floor is taken. *)
Definition otp_number (m : Z) : Z :=
  Double.floor (Double.add (Double.of_int 100000) (Double.mul_int m 900000)).

(** [const otp = Math.floor(100000 + Math.random() * 900000).toString()] *)
Definition generate_otp (m : Z) : string := number_toString (otp_number m).

(** A mantissa whose code is the number [n]: the least one whose exact
    product reaches [n - 100000]. *)
Definition mantissa_for (n : Z) : Z :=
  ((n - 100000) * 2 ^ 53 + 899999) / 900000.

End Otp.

(** ** The backing store: tables, constraints and the queries the routes issue *)

Module Store.

Definition uuid : Type := string.

(** A row of [users] ([server/db_schema.sql]). [points], [level] and
    [profile_pic] have defaults but no [not null]: they are nullable. *)
Record user_row : Type := mkUser {
  u_id : uuid;
  u_first_name : string;
  u_last_name : string;
  u_email : string;
  u_phone : string;
  u_password : string;
  u_points : option Z;
  u_level : option string;
  u_profile_pic : option string;
  u_created_at : Z
}.

(** A row of [papers]. *)
Record paper_row : Type := mkPaper {
  p_id : uuid;
  p_subject : string;
  p_course_code : string;
  p_exam_year : string;
  p_exam_name : string;
  p_category : string;
  p_file_path : string;
  p_uploader_id : uuid;
  p_created_at : Z
}.

(** Modelled from the spec: the [otp_codes] table, which the schema file
    does not declare; the OTP routes insert [{email, otp}] and order by
    [created_at] (spec: [otp_challenges(email, code, created_at)]). *)
Record otp_row : Type := mkOtp {
  o_email : string;
  o_otp : string;
  o_created_at : Z
}.

(** The relational tables and the [papers] storage bucket (object path
    and content). *)
Record db : Type := mkDb {
  users : list user_row;
  papers : list paper_row;
  otp_codes : list otp_row;
  bucket : list (string * string)
}.

Definition set_users (d : db) (us : list user_row) : db :=
  mkDb us (papers d) (otp_codes d) (bucket d).
Definition set_papers (d : db) (ps : list paper_row) : db :=
  mkDb (users d) ps (otp_codes d) (bucket d).
Definition set_otp_codes (d : db) (os : list otp_row) : db :=
  mkDb (users d) (papers d) os (bucket d).
Definition set_bucket (d : db) (b : list (string * string)) : db :=
  mkDb (users d) (papers d) (otp_codes d) b.

(** The [{ data, error }] pair a query resolves to: [data] is [null]
    exactly when [error] is set. *)
Inductive result (A : Type) : Type :=
| Ok (data : A)
| Failed.
Arguments Ok {A} data.
Arguments Failed {A}.

Definition data_of {A : Type} (r : result A) : option A :=
  match r with Ok a => Some a | Failed => None end.

Definition is_error {A : Type} (r : result A) : bool :=
  match r with Ok _ => false | Failed => true end.

(** [.single()]: the one selected row; an error for none or several. *)
Definition single {A : Type} (rows : list A) : result A :=
  match rows with
  | [r] => Ok r
  | _ => Failed
  end.

(** The [unique] constraint on [users.email], as a property of a table. *)
Definition emails_unique (d : db) : Prop := NoDup (map u_email (users d)).

(** The range of the [int] column type. *)
Definition int4_min : Z := - 2 ^ 31.
Definition int4_max : Z := 2 ^ 31 - 1.
Definition in_int4 (n : Z) : bool := (int4_min <=? n) && (n <=? int4_max).

(** [from('users').select(..).eq('email', email).single()] *)
Definition select_user_by_email (fault : bool) (email : string) (d : db)
  : result user_row :=
  if fault then Failed
  else single (filter (fun u => String.eqb (u_email u) email) (users d)).

(** [from('users').select(..).eq('id', id).single()] *)
Definition select_user_by_id (fault : bool) (id : uuid) (d : db)
  : result user_row :=
  if fault then Failed
  else single (filter (fun u => String.eqb (u_id u) id) (users d)).

(** [from('users').insert([{first_name, last_name, email, phone,
    password}]).select().single()]: the store generates the identifier
    and the timestamp and fills the defaults [points = 0],
    [level = 'Silver'], [profile_pic = '']; the primary key and the
    [unique] constraint on [email] reject a duplicate. *)
Definition insert_user (fault : bool) (new_id : uuid) (now : Z)
    (first_name last_name email phone password : string) (d : db)
  : db * result user_row :=
  if fault then (d, Failed)
  else if existsb (fun u => String.eqb (u_id u) new_id) (users d) then (d, Failed)
  else if existsb (fun u => String.eqb (u_email u) email) (users d) then (d, Failed)
  else
    let row := mkUser new_id first_name last_name email phone password
                 (Some 0) (Some "Silver") (Some EmptyString) now in
    (set_users d (users d ++ [row]), Ok row).

Definition with_password (password : string) (u : user_row) : user_row :=
  mkUser (u_id u) (u_first_name u) (u_last_name u) (u_email u) (u_phone u)
    password (u_points u) (u_level u) (u_profile_pic u) (u_created_at u).

(** [from('users').update({ password }).eq('email', email)]: every
    matching row is rewritten; matching no row is not an error. *)
Definition update_password_by_email (fault : bool) (email password : string)
    (d : db) : db * result unit :=
  if fault then (d, Failed)
  else
    (set_users d
       (map (fun u => if String.eqb (u_email u) email
                      then with_password password u else u) (users d)),
     Ok tt).

Definition with_points_level (points : Z) (level : option string)
    (u : user_row) : user_row :=
  mkUser (u_id u) (u_first_name u) (u_last_name u) (u_email u) (u_phone u)
    (u_password u) (Some points) level (u_profile_pic u) (u_created_at u).

(** [from('users').update({ points, level }).eq('id', id)]: a value
    outside the [int] range is rejected by the store. *)
Definition update_points_level_by_id (fault : bool) (id : uuid) (points : Z)
    (level : option string) (d : db) : db * result unit :=
  if fault then (d, Failed)
  else if negb (in_int4 points) then (d, Failed)
  else
    (set_users d
       (map (fun u => if String.eqb (u_id u) id
                      then with_points_level points level u else u) (users d)),
     Ok tt).

(** [from('otp_codes').insert({ email, otp })] *)
Definition insert_otp (fault : bool) (now : Z) (email otp : string) (d : db)
  : db * result unit :=
  if fault then (d, Failed)
  else (set_otp_codes d (otp_codes d ++ [mkOtp email otp now]), Ok tt).

(** Insertion of a row into a list ordered by [created_at], newest
    first ([.order('created_at', { ascending: false })]). *)
Fixpoint insert_desc (r : otp_row) (rows : list otp_row) : list otp_row :=
  match rows with
  | [] => [r]
  | r' :: rest =>
      if o_created_at r' <? o_created_at r then r :: rows
      else r' :: insert_desc r rest
  end.

Definition order_desc (rows : list otp_row) : list otp_row :=
  fold_right insert_desc [] rows.

(** [from('otp_codes').select('*').eq('email', email).eq('otp', otp)
    .order('created_at', { ascending: false }).limit(1).single()] *)
Definition select_newest_otp (fault : bool) (email otp : string) (d : db)
  : result otp_row :=
  if fault then Failed
  else
    single (firstn 1 (order_desc
      (filter (fun o => String.eqb (o_email o) email && String.eqb (o_otp o) otp)
         (otp_codes d)))).

(** [storage.from('papers').upload(path, buffer, ..)]: without
    [upsert] an existing object path is rejected. *)
Definition storage_upload (fault : bool) (path content : string) (d : db)
  : db * result unit :=
  if fault then (d, Failed)
  else if existsb (fun o => String.eqb (fst o) path) (bucket d) then (d, Failed)
  else (set_bucket d (bucket d ++ [(path, content)]), Ok tt).

(** [from('papers').insert([{..}]).select().single()]: the primary key
    and the foreign key [uploader_id references users(id)] are checked. *)
Definition insert_paper (fault : bool) (new_id : uuid) (now : Z)
    (subject course_code exam_year exam_name category file_path : string)
    (uploader_id : uuid) (d : db) : db * result paper_row :=
  if fault then (d, Failed)
  else if existsb (fun p => String.eqb (p_id p) new_id) (papers d) then (d, Failed)
  else if negb (existsb (fun u => String.eqb (u_id u) uploader_id) (users d))
  then (d, Failed)
  else
    let row := mkPaper new_id subject course_code exam_year exam_name category
                 file_path uploader_id now in
    (set_papers d (papers d ++ [row]), Ok row).

End Store.

(** ** Route handlers as state-passing computations *)

Module Express.
Import Js Store.

(** A handler runs against the store and either goes on with a value or
    has already sent its response ([return res...] and the [catch]
    clause both end the handler). *)
Definition handler (A : Type) : Type := db -> db * (A + response).

Definition ret {A : Type} (a : A) : handler A := fun d => (d, inl a).

Definition bind {A B : Type} (m : handler A) (k : A -> handler B) : handler B :=
  fun d =>
    match m d with
    | (d', inl a) => k a d'
    | (d', inr r) => (d', inr r)
    end.

(** [return res.status(..).json(..)] *)
Definition reply {A : Type} (r : response) : handler A := fun d => (d, inr r).

(** [throw], caught by the handler's
    [catch (err) { res.status(500).send('Server error') }]. *)
Definition throw {A : Type} : handler A := reply (res_status_send 500 "Server error").

(** [await] on a query that only reads. *)
Definition await_read {A : Type} (q : db -> result A) : handler (result A) :=
  fun d => (d, inl (q d)).

(** [await] on a query that writes. *)
Definition await_write {A : Type} (q : db -> db * result A) : handler (result A) :=
  fun d => let (d', r) := q d in (d', inl r).

(** The store after the handler and the response it sent. *)
Definition run (h : handler response) (d : db) : db * response :=
  match h d with
  | (d', inl r) => (d', r)
  | (d', inr r) => (d', r)
  end.

End Express.

Declare Scope handler_scope.
Delimit Scope handler_scope with handler.
Notation "x <- m ;; k" := (Express.bind m (fun x => k))
  (at level 61, m at next level, right associativity) : handler_scope.

(** ** The libraries the routes call *)

(** [bcryptjs]: [hash(password, salt)] and [compare(password, hash)]. *)
Class Bcrypt : Type := {
  bcrypt_hash : string -> string -> string;
  bcrypt_compare : string -> string -> bool
}.

(** [jsonwebtoken]: [sign({ user: { id } }, secret, { expiresIn })] at a
    given clock reading (seconds), and [verify(token, secret)], which
    yields [decoded.user.id] or throws. *)
Class Jwt : Type := {
  jwt_sign : string -> Z -> Z -> Store.uuid -> string;
  jwt_verify : string -> Z -> string -> option Store.uuid
}.

(** [path.extname] and the storage client's [getPublicUrl]. *)
Class Platform : Type := {
  path_extname : string -> string;
  getPublicUrl : string -> string
}.

(** What the routes rely on: a password compares equal to any hash made
    from it, and a token verifies to its subject until it expires. *)
Definition bcrypt_sound `{Bcrypt} : Prop :=
  forall password salt, bcrypt_compare password (bcrypt_hash password salt) = true.

Definition jwt_sound `{Jwt} : Prop :=
  forall secret issued ttl now id,
    issued <= now < issued + ttl ->
    jwt_verify secret now (jwt_sign secret issued ttl id) = Some id.

(** [process.env.JWT_SECRET || 'secret']: unset and empty both fall back. *)
Definition jwt_secret (JWT_SECRET : option string) : string :=
  match JWT_SECRET with
  | Some s => if String.eqb s EmptyString then "secret" else s
  | None => "secret"
  end.

(** ['1h'] *)
Definition one_hour : Z := 3600.

(** ** Auth routes (signup and login) *)

Module Auth.
Import Js Store Express.
Local Open Scope handler_scope.

(** [req.body] of a signup, its fields being text. *)
Record signup_body : Type := {
  firstName : string;
  lastName : string;
  email : string;
  phone : string;
  password : string
}.

(** What the outside world decides during one signup. *)
Record signup_env : Type := {
  su_JWT_SECRET : option string;
  su_check_fault : bool;
  su_salt : string;
  su_insert_fault : bool;
  su_new_id : uuid;
  su_db_now : Z;
  su_clock : Z
}.

Definition token_body (token : string) : json := JObj [("token", JStr token)].

(** [router.post('/signup', ..)] *)
Definition signup `{Bcrypt} `{Jwt} (e : signup_env) (b : signup_body)
  : handler response :=
  existing <- await_read (select_user_by_email (su_check_fault e) (email b)) ;;
  match data_of existing with
  | Some _ => reply (res_status_json 400 (msg "User already exists"))
  | None =>
      let salt := su_salt e in
      let hashedPassword := bcrypt_hash (password b) salt in
      inserted <- await_write
        (insert_user (su_insert_fault e) (su_new_id e) (su_db_now e)
           (firstName b) (lastName b) (email b) (phone b) hashedPassword) ;;
      match inserted with
      | Failed => throw
      | Ok newUser =>
          let token := jwt_sign (jwt_secret (su_JWT_SECRET e)) (su_clock e)
                         one_hour (u_id newUser) in
          ret (res_json (token_body token))
      end
  end.

Record login_body : Type := {
  li_email : string;
  li_password : string
}.

Record login_env : Type := {
  li_JWT_SECRET : option string;
  li_select_fault : bool;
  li_clock : Z
}.

(** [router.post('/login', ..)] *)
Definition login `{Bcrypt} `{Jwt} (e : login_env) (b : login_body)
  : handler response :=
  found <- await_read (select_user_by_email (li_select_fault e) (li_email b)) ;;
  match data_of found with
  | None => reply (res_status_json 400 (msg "Invalid Credentials"))
  | Some user =>
      let isMatch := bcrypt_compare (li_password b) (u_password user) in
      if negb isMatch then reply (res_status_json 400 (msg "Invalid Credentials"))
      else
        let token := jwt_sign (jwt_secret (li_JWT_SECRET e)) (li_clock e)
                       one_hour (u_id user) in
        ret (res_json (token_body token))
  end.

(** The token of a [{ token }] response. *)
Definition token_of (r : response) : option string :=
  match payload r with
  | Json j => match prop "token" j with Some (JStr t) => Some t | _ => None end
  | Text _ => None
  end.

End Auth.

(** ** OTP routes (send, verify, reset) *)

Module OtpRoutes.
Import Js Store Express Otp.
Local Open Scope handler_scope.

Record send_otp_env : Type := {
  so_random : Z;
  so_insert_fault : bool;
  so_db_now : Z
}.

(** [router.post('/send-otp', ..)] *)
Definition send_otp (e : send_otp_env) (email : string) : handler response :=
  let otp := generate_otp (so_random e) in
  inserted <- await_write (insert_otp (so_insert_fault e) (so_db_now e) email otp) ;;
  if is_error inserted
  then reply (res_status_json 500 (msg "Failed to send OTP"))
  else ret (res_json (JObj [("msg", JStr "OTP sent successfully"); ("otp", JStr otp)])).

(** [router.post('/verify-otp', ..)] *)
Definition verify_otp (select_fault : bool) (email otp : string)
  : handler response :=
  found <- await_read (select_newest_otp select_fault email otp) ;;
  match data_of found with
  | None => reply (res_status_json 400 (msg "Invalid OTP"))
  | Some _ => ret (res_json (msg "OTP verified"))
  end.

Record reset_env : Type := {
  rp_salt : string;
  rp_update_fault : bool
}.

(** [router.post('/reset-password', ..)]; [bcrypt.hash(newPassword, 10)]
    draws its own salt. *)
Definition reset_password `{Bcrypt} (e : reset_env) (email newPassword : string)
  : handler response :=
  let hashed := bcrypt_hash newPassword (rp_salt e) in
  updated <- await_write (update_password_by_email (rp_update_fault e) email hashed) ;;
  if is_error updated
  then reply (res_status_json 500 (msg "Failed to reset password"))
  else ret (res_json (msg "Password reset successful")).

End OtpRoutes.

(** ** Pattern matching of the search filter *)

Module Pattern.

(** ASCII case folding ([ILIKE] folds case by the database locale; the
    model folds the letters A-Z). *)
Definition lower (c : ascii) : ascii :=
  let n := nat_of_ascii c in
  if (65 <=? n)%nat && (n <=? 90)%nat then ascii_of_nat (n + 32) else c.

Definition eqb_ci (c d : ascii) : bool := Ascii.eqb (lower c) (lower d).

Fixpoint lower_string (s : string) : string :=
  match s with
  | EmptyString => EmptyString
  | String c s' => String (lower c) (lower_string s')
  end.

(** SQL [ILIKE]: [%] matches any run of characters, [_] any single
    character, a backslash takes the next pattern character literally,
    every other character matches itself up to case. (A pattern that
    ends in a lone backslash is an error in PostgreSQL; here it matches
    nothing.) *)
Fixpoint ilike (pat : string) : string -> bool :=
  match pat with
  | EmptyString =>
      fun s => match s with EmptyString => true | String _ _ => false end
  | String c pat' =>
      if Ascii.eqb c "%" then
        fix any_run (s : string) : bool :=
          ilike pat' s ||
          match s with
          | EmptyString => false
          | String _ s' => any_run s'
          end
      else if Ascii.eqb c "_" then
        fun s => match s with
                 | EmptyString => false
                 | String _ s' => ilike pat' s'
                 end
      else if Ascii.eqb c "\" then
        match pat' with
        | EmptyString => fun _ => false
        | String e pat'' =>
            fun s => match s with
                     | EmptyString => false
                     | String d s' => eqb_ci e d && ilike pat'' s'
                     end
        end
      else
        fun s => match s with
                 | EmptyString => false
                 | String d s' => eqb_ci c d && ilike pat' s'
                 end
  end.

(** PostgREST writes [*] for [%] in [like] and [ilike] values. *)
Fixpoint star_to_percent (s : string) : string :=
  match s with
  | EmptyString => EmptyString
  | String c s' => String (if Ascii.eqb c "*" then "%"%char else c) (star_to_percent s')
  end.

(** [needle] is a prefix of [s], up to case. *)
Fixpoint prefix_ci (needle s : string) : bool :=
  match needle, s with
  | EmptyString, _ => true
  | String _ _, EmptyString => false
  | String c needle', String d s' => eqb_ci c d && prefix_ci needle' s'
  end.

(** [s] contains [needle], up to case
    ([s.toLowerCase().includes(needle.toLowerCase())]). *)
Fixpoint contains_ci (needle s : string) : bool :=
  prefix_ci needle s ||
  match s with
  | EmptyString => false
  | String _ s' => contains_ci needle s'
  end.

Fixpoint mem_char (c : ascii) (s : string) : bool :=
  match s with
  | EmptyString => false
  | String d s' => Ascii.eqb c d || mem_char c s'
  end.

(** Characters with a meaning of their own in an [ILIKE] pattern or in
    the filter syntax of [.or(..)]. *)
Definition double_quote : ascii := ascii_of_nat 34.

Definition special_chars : string :=
  "%_\*,()" ++ String double_quote EmptyString.

Fixpoint plain (q : string) : bool :=
  match q with
  | EmptyString => true
  | String c q' => negb (mem_char c special_chars) && plain q'
  end.

End Pattern.

(** ** The filter string of [.or(..)] as PostgREST reads it *)

Module Filter.
Import Store Pattern.

(** Pieces of [s] between occurrences of [sep]. *)
Fixpoint split_on (sep : ascii) (s : string) : list string :=
  match s with
  | EmptyString => [EmptyString]
  | String c s' =>
      if Ascii.eqb c sep then EmptyString :: split_on sep s'
      else
        match split_on sep s' with
        | piece :: pieces => String c piece :: pieces
        | [] => [String c EmptyString]
        end
  end.

(** [s] cut at the first [sep]. *)
Fixpoint cut_at (sep : ascii) (s : string) : option (string * string) :=
  match s with
  | EmptyString => None
  | String c s' =>
      if Ascii.eqb c sep then Some (EmptyString, s')
      else
        match cut_at sep s' with
        | Some (before, after) => Some (String c before, after)
        | None => None
        end
  end.

(** The text columns of [papers] by name. *)
Definition text_column (name : string) : option (paper_row -> string) :=
  if String.eqb name "subject" then Some p_subject
  else if String.eqb name "course_code" then Some p_course_code
  else if String.eqb name "exam_year" then Some p_exam_year
  else if String.eqb name "exam_name" then Some p_exam_name
  else if String.eqb name "category" then Some p_category
  else if String.eqb name "file_path" then Some p_file_path
  else None.

(** One condition [column.ilike.pattern], as a predicate on rows. *)
Definition parse_condition (s : string) : option (paper_row -> bool) :=
  match cut_at "." s with
  | None => None
  | Some (name, rest) =>
      match cut_at "." rest with
      | None => None
      | Some (op, value) =>
          if String.eqb op "ilike" then
            match text_column name with
            | Some column => Some (fun p => ilike (star_to_percent value) (column p))
            | None => None
            end
          else None
      end
  end.

Fixpoint parse_conditions (pieces : list string) : option (list (paper_row -> bool)) :=
  match pieces with
  | [] => Some []
  | s :: rest =>
      match parse_condition s, parse_conditions rest with
      | Some c, Some cs => Some (c :: cs)
      | _, _ => None
      end
  end.

(** The comma-separated conditions of an [or] filter. Only the
    conditions the search route writes are interpreted: [ilike] on a
    text column, no nesting and no quoting. Anything else is answered
    with an error, which is what PostgREST does with a filter it cannot
    read. *)
Definition parse_or (s : string) : option (list (paper_row -> bool)) :=
  if mem_char "(" s || mem_char ")" s || mem_char double_quote s then None
  else parse_conditions (split_on "," s).

(** A row passes an [or] filter when one of its conditions holds. *)
Definition passes (conds : list (paper_row -> bool)) (p : paper_row) : bool :=
  existsb (fun c => c p) conds.

(** The embedded resource [uploader:users(first_name, last_name,
    profile_pic)] of a paper: the user it references, if any. *)
Definition uploader_of (d : db) (p : paper_row) : option user_row :=
  find (fun u => String.eqb (u_id u) (p_uploader_id p)) (users d).

(** [from('papers').select(`*, uploader:users(..)`)], with [.or(filter)]
    when a filter is given. *)
Definition select_papers (fault : bool) (or_filter : option string) (d : db)
  : result (list (paper_row * option user_row)) :=
  if fault then Failed
  else
    match or_filter with
    | None => Ok (map (fun p => (p, uploader_of d p)) (papers d))
    | Some f =>
        match parse_or f with
        | None => Failed
        | Some conds =>
            Ok (map (fun p => (p, uploader_of d p)) (filter (passes conds) (papers d)))
        end
    end.

End Filter.

(** ** The contribution ledger: points and level of an award *)

Module Ledger.
Import Js Store.

(** [let newPoints = (user.points || 0) + 50] *)
Definition newPoints (points : option Z) : Z := or_zero points + 50.

(** [let newLevel = user.level] followed by the threshold cascade; no
    branch assigns below 1000. *)
Definition newLevel (total : Z) (level : option string) : option string :=
  if total >=? 4000 then Some "Legendary"
  else if total >=? 3000 then Some "Diamond"
  else if total >=? 2000 then Some "Gold"
  else if total >=? 1000 then Some "Silver"
  else level.

(** The client-side [currentUser], as far as the ledger reads it. *)
Record currentUser : Type := mkCurrent {
  cu_points : Z;
  cu_level : string
}.

(** [function updateLevel()] of the browser build. *)
Definition updateLevel (u : currentUser) : currentUser :=
  if cu_points u >=? 4000 then mkCurrent (cu_points u) "Legendary"
  else if cu_points u >=? 3000 then mkCurrent (cu_points u) "Diamond"
  else if cu_points u >=? 2000 then mkCurrent (cu_points u) "Gold"
  else if cu_points u >=? 1000 then mkCurrent (cu_points u) "Silver"
  else u.

(** [currentUser.points += 50; .. updateLevel();] of the browser upload. *)
Definition client_award (u : currentUser) : currentUser :=
  updateLevel (mkCurrent (cu_points u + 50) (cu_level u)).

(** The level table of the specification: Silver below 2000, Gold from
    2000, Diamond from 3000, Legendary from 4000. *)
Definition level_of_total (total : Z) : string :=
  if total <? 2000 then "Silver"
  else if total <? 3000 then "Gold"
  else if total <? 4000 then "Diamond"
  else "Legendary".

(** The order of the tiers. *)
Definition level_rank (level : string) : nat :=
  if String.eqb level "Silver" then 0
  else if String.eqb level "Gold" then 1
  else if String.eqb level "Diamond" then 2
  else if String.eqb level "Legendary" then 3
  else 0.

(** A row whose stored level is the level of its stored total. *)
Definition consistent (u : user_row) : Prop :=
  u_level u = Some (level_of_total (or_zero (u_points u))).

End Ledger.

(** ** Papers routes (upload and search) *)

Module Papers.
Import Js Store Express Filter Ledger.
Local Open Scope handler_scope.

(** The [auth] middleware: the user identifier of a valid
    [x-auth-token] header, or the response that ends the request. *)
Definition auth `{Jwt} (JWT_SECRET : option string) (clock : Z)
    (token : option string) : uuid + response :=
  match token with
  | None => inr (res_status_json 401 (msg "No token, authorization denied"))
  | Some t =>
      match jwt_verify (jwt_secret JWT_SECRET) clock t with
      | Some id => inl id
      | None => inr (res_status_json 400 (msg "Token is not valid"))
      end
  end.

(** [req.file] as multer stores it in memory. *)
Record file : Type := {
  originalname : string;
  buffer : string;
  mimetype : string
}.

(** The text fields of the multipart body. *)
Record upload_body : Type := {
  subject : string;
  courseCode : string;
  examYear : string;
  examName : string;
  category : string
}.

(** What the outside world decides during one upload. *)
Record upload_env : Type := {
  up_date_now : Z;
  up_storage_fault : bool;
  up_insert_fault : bool;
  up_new_id : uuid;
  up_db_now : Z;
  up_select_fault : bool;
  up_update_fault : bool
}.

(** The camelCase record sent back for a new paper. *)
Definition responsePaper (newPaper : paper_row) : json :=
  JObj [("_id", JStr (p_id newPaper));
        ("id", JStr (p_id newPaper));
        ("subject", JStr (p_subject newPaper));
        ("courseCode", JStr (p_course_code newPaper));
        ("examYear", JStr (p_exam_year newPaper));
        ("examName", JStr (p_exam_name newPaper));
        ("category", JStr (p_category newPaper));
        ("filePath", JStr (p_file_path newPaper));
        ("uploader", JStr (p_uploader_id newPaper))].

(** Step 3 of the upload: read the points, then write points and level.
    Neither a failed read nor a failed write is reported. *)
Definition award (select_fault update_fault : bool) (user_id : uuid)
  : handler unit :=
  read <- await_read (select_user_by_id select_fault user_id) ;;
  match read with
  | Ok user =>
      let points := newPoints (u_points user) in
      let level := newLevel points (u_level user) in
      _ <- await_write (update_points_level_by_id update_fault user_id points level) ;;
      ret tt
  | Failed => ret tt
  end.

(** [router.post('/upload', [auth, upload.single('file')], ..)], after
    the middleware has set [req.user.id] and [req.file]. *)
Definition upload `{Platform} (e : upload_env) (user_id : uuid)
    (b : upload_body) (f : option file) : handler response :=
  match f with
  | None => reply (res_status_json 400 (msg "No file uploaded"))
  | Some file =>
      let fileExt := path_extname (originalname file) in
      let fileName := number_toString (up_date_now e) ++ fileExt in
      let filePath := fileName in
      stored <- await_write (storage_upload (up_storage_fault e) filePath (buffer file)) ;;
      if is_error stored then reply (res_status_send 500 "Error uploading file")
      else
        let publicUrl := getPublicUrl filePath in
        inserted <- await_write
          (insert_paper (up_insert_fault e) (up_new_id e) (up_db_now e)
             (subject b) (courseCode b) (examYear b) (examName b) (category b)
             publicUrl user_id) ;;
        match inserted with
        | Failed => reply (res_status_send 500 "Error saving paper metadata")
        | Ok newPaper =>
            _ <- award (up_select_fault e) (up_update_fault e) user_id ;;
            ret (res_json (responsePaper newPaper))
        end
  end.

(** The object path an upload writes to. *)
Definition upload_path `{Platform} (e : upload_env) (f : file) : string :=
  number_toString (up_date_now e) ++ path_extname (originalname f).

(** The whole route: middleware, then handler. *)
Definition upload_route `{Jwt} `{Platform} (JWT_SECRET : option string)
    (clock : Z) (token : option string) (e : upload_env) (b : upload_body)
    (f : option file) (d : db) : db * response :=
  match auth JWT_SECRET clock token with
  | inl user_id => run (upload e user_id b f) d
  | inr r => (d, r)
  end.

(** The filter the search route hands to [.or(..)]. *)
Definition or_filter (query : string) : string :=
  "subject.ilike.%" ++ query ++ "%,course_code.ilike.%" ++ query
    ++ "%,exam_name.ilike.%" ++ query ++ "%".

(** The pattern the filter puts around a query. *)
Definition around (query : string) : string := String "%" (query ++ "%").

(** The camelCase record of one search hit. *)
Definition mappedPaper (hit : paper_row * option user_row) : json :=
  let (p, uploader) := hit in
  JObj [("_id", JStr (p_id p));
        ("id", JStr (p_id p));
        ("subject", JStr (p_subject p));
        ("courseCode", JStr (p_course_code p));
        ("examYear", JStr (p_exam_year p));
        ("examName", JStr (p_exam_name p));
        ("category", JStr (p_category p));
        ("filePath", JStr (p_file_path p));
        ("uploader",
         match uploader with
         | Some u => JObj [("firstName", JStr (u_first_name u));
                           ("lastName", JStr (u_last_name u));
                           ("profilePic", jstr_opt (u_profile_pic u))]
         | None => JNull
         end)].

(** [router.get('/search', ..)]; [if (query)] is false for a missing and
    for an empty query. *)
Definition search (fault : bool) (query : option string) : handler response :=
  let condition :=
    match query with
    | Some q => if String.eqb q EmptyString then None else Some (or_filter q)
    | None => None
    end in
  selected <- await_read (select_papers fault condition) ;;
  match selected with
  | Failed => throw
  | Ok papers => ret (res_json (JArr (map mappedPaper papers)))
  end.

(** The papers the specification expects for a query: those whose
    subject, course code or exam name contains it, up to case. *)
Definition matches_query (q : string) (p : paper_row) : bool :=
  Pattern.contains_ci q (p_subject p)
  || Pattern.contains_ci q (p_course_code p)
  || Pattern.contains_ci q (p_exam_name p).

End Papers.

(** ** Award steps of several requests, interleaved *)

Module Concurrent.
Import Js Store Ledger.

(** Where one request stands in its award step: before the read, between
    the read and the write (holding the values it will write), or done.
    The requests share the store; each [await] is a point where another
    request can run. *)
Inductive task : Type :=
| AwaitingSelect
| AwaitingUpdate (points : Z) (level : option string)
| Finished.

(** One request runs up to its next [await]. *)
Definition step (user_id : uuid) (t : task) (d : db) : db * task :=
  match t with
  | AwaitingSelect =>
      match select_user_by_id false user_id d with
      | Ok user =>
          let points := newPoints (u_points user) in
          (d, AwaitingUpdate points (newLevel points (u_level user)))
      | Failed => (d, Finished)
      end
  | AwaitingUpdate points level =>
      (fst (update_points_level_by_id false user_id points level d), Finished)
  | Finished => (d, Finished)
  end.

Fixpoint set_nth {A : Type} (i : nat) (x : A) (l : list A) : list A :=
  match l, i with
  | [], _ => []
  | _ :: rest, O => x :: rest
  | y :: rest, S i' => y :: set_nth i' x rest
  end.

(** A schedule names, turn by turn, the request that runs next. *)
Fixpoint run_schedule (user_id : uuid) (schedule : list nat)
    (tasks : list task) (d : db) : db * list task :=
  match schedule with
  | [] => (d, tasks)
  | i :: rest =>
      match nth_error tasks i with
      | Some t =>
          let (d', t') := step user_id t d in
          run_schedule user_id rest (set_nth i t' tasks) d'
      | None => run_schedule user_id rest tasks d
      end
  end.

Definition is_finished (t : task) : bool :=
  match t with Finished => true | _ => false end.

Definition all_finished (tasks : list task) : bool := forallb is_finished tasks.

(** [n] requests at the start of their award step. *)
Definition fresh_tasks (n : nat) : list task := repeat AwaitingSelect n.

(** The schedule without interleaving: each request runs its read and
    its write before the next one starts. *)
Definition serial (n : nat) : list nat := flat_map (fun i => [i; i]) (seq 0 n).

(** The stored total of a user. *)
Definition points_of (user_id : uuid) (d : db) : option Z :=
  match select_user_by_id false user_id d with
  | Ok user => Some (or_zero (u_points user))
  | Failed => None
  end.

(** The number of requests that are done. *)
Definition finished_count (tasks : list task) : Z :=
  Z.of_nat (List.length (filter is_finished tasks)).

Definition done_bit (t : task) : Z := if is_finished t then 1 else 0.

(** What every interleaving of [n] award steps keeps true, [base] being
    the total before the first of them: the stored total is [base] plus
    50 for some of the finished requests, and a request that has read
    holds a total of the same shape. *)
Definition ledger_inv (user_id : uuid) (base : Z) (n : nat) (d : db)
    (tasks : list task) : Prop :=
  List.length tasks = n /\
  (exists user j,
     select_user_by_id false user_id d = Ok user /\
     or_zero (u_points user) = base + 50 * j /\
     0 <= j <= finished_count tasks /\
     (1 <= finished_count tasks -> 1 <= j)) /\
  (forall points level, In (AwaitingUpdate points level) tasks ->
     exists j, points = base + 50 * j /\ 1 <= j <= finished_count tasks + 1).

End Concurrent.

(** ** Reference instances of the libraries, for running the routes *)

Module Demo.
Import Store.

Fixpoint strip_prefix (p s : string) : option string :=
  match p, s with
  | EmptyString, _ => Some s
  | String _ _, EmptyString => None
  | String c p', String d s' => if Ascii.eqb c d then strip_prefix p' s' else None
  end.

(** A stand-in for bcrypt: the hash marks the password, the salt is
    dropped. *)
Definition bcrypt : Bcrypt := {|
  bcrypt_hash := fun password _ => "$2a$" ++ password;
  bcrypt_compare := fun password hash => String.eqb ("$2a$" ++ password) hash
|}.

(** A stand-in for jsonwebtoken: the token is the secret followed by the
    subject. *)
Definition jwt : Jwt := {|
  jwt_sign := fun secret _ _ id => (secret ++ ".") ++ id;
  jwt_verify := fun secret _ token => strip_prefix (secret ++ ".") token
|}.

Definition platform : Platform := {|
  path_extname := fun _ => ".pdf";
  getPublicUrl := fun path => "https://storage/papers/" ++ path
|}.

Definition alice : user_row :=
  mkUser "u1" "Alice" "Liddell" "a@x.com" "555" "$2a$old" (Some 0) (Some "Silver")
    (Some EmptyString) 1.

Definition empty_db : db := mkDb [] [] [] [].

Definition alice_db : db := mkDb [alice] [] [] [].

(** A user row whose level was set apart from its points. *)
Definition gilded : user_row :=
  mkUser "u1" "Alice" "Liddell" "a@x.com" "555" "$2a$old" (Some 0) (Some "Gold")
    (Some EmptyString) 1.

Definition gilded_db : db := mkDb [gilded] [] [] [].

(** The two papers of the search scenario of the specification. *)
Definition thermodynamics : paper_row :=
  mkPaper "p1" "Thermodynamics" "MEE1003" "2023" "CAT1" "Mechanical"
    "https://storage/papers/1.pdf" "u1" 2.

Definition algorithms : paper_row :=
  mkPaper "p2" "Algorithms" "CSE2003" "2024" "FAT" "Computer Science"
    "https://storage/papers/2.pdf" "u1" 3.

Definition library_db : db := mkDb [alice] [thermodynamics; algorithms] [] [].

Definition signup_request (address : string) : Auth.signup_body :=
  {| Auth.firstName := "Alice"; Auth.lastName := "Pleasance";
     Auth.email := address; Auth.phone := "556"; Auth.password := "pw123456" |}.

Definition signup_world : Auth.signup_env :=
  {| Auth.su_JWT_SECRET := None; Auth.su_check_fault := false;
     Auth.su_salt := "salt"; Auth.su_insert_fault := false;
     Auth.su_new_id := "u2"; Auth.su_db_now := 5; Auth.su_clock := 100 |}.

Definition login_world : Auth.login_env :=
  {| Auth.li_JWT_SECRET := None; Auth.li_select_fault := false;
     Auth.li_clock := 200 |}.

Definition a_file : Papers.file :=
  {| Papers.originalname := "cat1.pdf"; Papers.buffer := "%PDF";
     Papers.mimetype := "application/pdf" |}.

Definition a_paper : Papers.upload_body :=
  {| Papers.subject := "Algorithms"; Papers.courseCode := "CSE2003";
     Papers.examYear := "2024"; Papers.examName := "FAT";
     Papers.category := "Computer Science" |}.

(** An upload during which the store answers every call, and one during
    which the read of the award step fails. *)
Definition upload_world (select_fault : bool) : Papers.upload_env :=
  {| Papers.up_date_now := 1700000000000; Papers.up_storage_fault := false;
     Papers.up_insert_fault := false; Papers.up_new_id := "p9";
     Papers.up_db_now := 9; Papers.up_select_fault := select_fault;
     Papers.up_update_fault := false |}.

Definition uploaded : paper_row :=
  mkPaper "p9" "Algorithms" "CSE2003" "2024" "FAT" "Computer Science"
    "https://storage/papers/1700000000000.pdf" "u1" 9.

Definition after_upload : db :=
  mkDb [alice] [uploaded] [] [("1700000000000.pdf", "%PDF")].

Definition otp_world : OtpRoutes.send_otp_env :=
  {| OtpRoutes.so_random := 2 ^ 52; OtpRoutes.so_insert_fault := false;
     OtpRoutes.so_db_now := 7 |}.

Definition reset_world : OtpRoutes.reset_env :=
  {| OtpRoutes.rp_salt := "salt"; OtpRoutes.rp_update_fault := false |}.

End Demo.

(** ** The profile route *)

Module Profile.
Import Js Store Express.
Local Open Scope handler_scope.

(** The camelCase record of the signed-in user; the query selects
    [id, first_name, last_name, email, phone, points, level,
    profile_pic]. *)
Definition userResponse (user : user_row) : json :=
  JObj [("_id", JStr (u_id user));
        ("id", JStr (u_id user));
        ("firstName", JStr (u_first_name user));
        ("lastName", JStr (u_last_name user));
        ("email", JStr (u_email user));
        ("phone", JStr (u_phone user));
        ("points", jnum_opt (u_points user));
        ("level", jstr_opt (u_level user));
        ("profilePic", jstr_opt (u_profile_pic user))].

(** [router.get('/profile', ..)] of the Supabase port. The token is the
    [x-auth-token] header; [None] stands for a header that is missing
    or empty, the two cases in which [!token] holds. An error of
    [jwt.verify] is caught by the inner [try]. *)
Definition profile `{Jwt} (JWT_SECRET : option string) (clock : Z)
    (select_fault : bool) (token : option string) : handler response :=
  match token with
  | None => reply (res_status_json 401 (msg "No token, authorization denied"))
  | Some t =>
      match jwt_verify (jwt_secret JWT_SECRET) clock t with
      | None => reply (res_status_json 400 (msg "Token is not valid"))
      | Some id =>
          found <- await_read (select_user_by_id select_fault id) ;;
          match found with
          | Failed => reply (res_status_json 404 (msg "User not found"))
          | Ok user => ret (res_json (userResponse user))
          end
      end
  end.

(** [Math.floor((currentUser.points || 0) / 50)] of the profile page:
    the number of uploads shown for a point total. *)
Definition uploadsCount (points : option Z) : Z := or_zero points / 50.

End Profile.

(** ** Requests served one after the other *)

Module Routes.
Import Js Store Express Ledger.

Section Served.
Context `{Bcrypt} `{Jwt} `{Platform}.

(** The store before and after one request to one of the routes. *)
Inductive serves : db -> db -> Prop :=
| serves_signup (e : Auth.signup_env) (b : Auth.signup_body) (d : db) :
    serves d (fst (run (Auth.signup e b) d))
| serves_login (e : Auth.login_env) (b : Auth.login_body) (d : db) :
    serves d (fst (run (Auth.login e b) d))
| serves_profile (secret : option string) (clock : Z) (fault : bool)
    (token : option string) (d : db) :
    serves d (fst (run (Profile.profile secret clock fault token) d))
| serves_send_otp (e : OtpRoutes.send_otp_env) (email : string) (d : db) :
    serves d (fst (run (OtpRoutes.send_otp e email) d))
| serves_verify_otp (fault : bool) (email otp : string) (d : db) :
    serves d (fst (run (OtpRoutes.verify_otp fault email otp) d))
| serves_reset_password (e : OtpRoutes.reset_env) (email newPassword : string)
    (d : db) :
    serves d (fst (run (OtpRoutes.reset_password e email newPassword) d))
| serves_upload (secret : option string) (clock : Z) (token : option string)
    (e : Papers.upload_env) (b : Papers.upload_body) (f : option Papers.file)
    (d : db) :
    serves d (fst (Papers.upload_route secret clock token e b f d))
| serves_search (fault : bool) (query : option string) (d : db) :
    serves d (fst (run (Papers.search fault query) d)).

(** The stores that come after a store, by any number of requests. *)
Inductive later : db -> db -> Prop :=
| later_now (d : db) : later d d
| later_step (d d' d'' : db) : later d d' -> serves d' d'' -> later d d''.

(** The stores reached from the empty one. *)
Definition reachable (d : db) : Prop := later (mkDb [] [] [] []) d.

End Served.

(** The constraints of the schema, as properties of a store: primary
    keys, the unique email, and the foreign key of [papers]. *)
Definition ids_unique (d : db) : Prop := NoDup (map u_id (users d)).

Definition paper_ids_unique (d : db) : Prop := NoDup (map p_id (papers d)).

Definition uploaders_exist (d : db) : Prop :=
  forall p, In p (papers d) ->
    existsb (fun u => String.eqb (u_id u) (p_uploader_id p)) (users d) = true.

Definition schema_holds (d : db) : Prop :=
  emails_unique d /\ ids_unique d /\ paper_ids_unique d /\ uploaders_exist d.

(** A row whose total is a number of awards and whose level is the
    level of that total. *)
Definition ledger_row (u : user_row) : Prop :=
  consistent u /\ exists k, 0 <= k /\ u_points u = Some (50 * k).

Definition ledger_holds (d : db) : Prop := Forall ledger_row (users d).

(** [n] award steps for one user, one after the other, the store
    answering every call. *)
Definition awards (n : nat) (user_id : uuid) (d : db) : db :=
  Nat.iter n (fun d' => fst (Papers.award false false user_id d')) d.

End Routes.

(** ** The browser build: IndexedDB store and page handlers *)

Module Browser.
Import Js Pattern.

(** A record of the [users] object store, as the signup form creates
    it. *)
Record user : Type := mkLocal {
  firstName : string;
  lastName : string;
  email : string;
  points : Z;
  level : string;
  profilePic : string;
  likedPapers : list Z;
  uploads : Z;
  downloads : Z
}.

(** A record of the [papers] object store. *)
Record paper : Type := mkLocalPaper {
  id : Z;
  subject : string;
  courseCode : string;
  examYear : string;
  slot : string;
  category : string;
  uploader : string;
  uploaderPic : string;
  fileType : string;
  src : string
}.

(** The page: the two object stores, the [currentUser] item of
    [localStorage], and the globals [currentUser] and [papers]. *)
Record state : Type := mkState {
  users_store : list user;
  papers_store : list paper;
  session : option user;
  currentUser : option user;
  papers : list paper
}.

(** [store.put(user)] on the store keyed by [email]: the record takes
    the place of any record with its key. Only [get] reads this store,
    so the position of a record is not observable. *)
Definition put_user (u : user) (store : list user) : list user :=
  u :: filter (fun v => negb (String.eqb (email v) (email u))) store.

(** [store.get(email)]; [None] is [undefined]. *)
Definition get_user (key : string) (store : list user) : option user :=
  find (fun v => String.eqb (email v) key) store.

(** A record placed by its key, the store being in key order. *)
Fixpoint insert_by_id (p : paper) (store : list paper) : list paper :=
  match store with
  | [] => [p]
  | q :: rest => if id p <? id q then p :: store else q :: insert_by_id p rest
  end.

(** [store.add(paper)] on the store keyed by [id]: a key that is
    present is a constraint error, which rejects the promise. *)
Definition add_paper (p : paper) (store : list paper) : option (list paper) :=
  if existsb (fun q => id q =? id p) store then None
  else Some (insert_by_id p store).

(** [store.getAll()]: the records in key order. *)
Definition getAllPapers (store : list paper) : list paper := store.

(** One step of [papers.sort((a, b) => b.id - a.id)]: [p] goes before
    the first record [q] with [b.id - a.id <= 0] for [a = p], [b = q]. *)
Fixpoint insert_newest (p : paper) (sorted : list paper) : list paper :=
  match sorted with
  | [] => [p]
  | q :: rest =>
      if id q - id p <=? 0 then p :: sorted else q :: insert_newest p rest
  end.

(** [Array.prototype.sort] is stable; this is the stable sort by that
    comparator. *)
Definition sort_newest_first (l : list paper) : list paper :=
  fold_right insert_newest [] l.

(** [async function loadPapers()] *)
Definition loadPapers (st : state) : state :=
  mkState (users_store st) (papers_store st) (session st) (currentUser st)
    (sort_newest_first (getAllPapers (papers_store st))).

(** The user becomes the signed-in one, in memory and in
    [localStorage]. *)
Definition sign_in (u : user) (st : state) : state :=
  mkState (users_store st) (papers_store st) (Some u) (Some u) (papers st).

(** [await db.addUser(currentUser); localStorage.setItem(..)] after
    [currentUser] was changed in place to [u]: when the write is
    rejected the handler stops with the change made in memory only. *)
Definition save_user (put_fault : bool) (u : user) (st : state) : state :=
  if put_fault
  then mkState (users_store st) (papers_store st) (session st) (Some u) (papers st)
  else mkState (put_user u (users_store st)) (papers_store st) (Some u) (Some u)
         (papers st).

(** The submit handler of the auth form: in login mode the stored user
    with the email becomes the current user; in signup mode a new
    record is written under the email. A rejected store call stops the
    handler. *)
Definition authSubmit (store_fault isLoginMode : bool)
    (email_value firstName_value lastName_value : string) (st : state) : state :=
  if store_fault then st
  else if isLoginMode then
    match get_user email_value (users_store st) with
    | Some found => sign_in found st
    | None => st
    end
  else
    let newUser := mkLocal firstName_value lastName_value email_value 0 "Silver"
                     EmptyString [] 0 0 in
    sign_in newUser
      (mkState (put_user newUser (users_store st)) (papers_store st) (session st)
         (currentUser st) (papers st)).

(** [function logout()] *)
Definition logout (st : state) : state :=
  mkState (users_store st) (papers_store st) None None (papers st).

(** [function continueAsGuest()]: [localStorage] is left alone. *)
Definition continueAsGuest (st : state) : state :=
  mkState (users_store st) (papers_store st) (session st) None (papers st).

(** [let currentUser = JSON.parse(localStorage.getItem('currentUser'))
    || null] when the page is loaded. *)
Definition reload (st : state) : state :=
  mkState (users_store st) (papers_store st) (session st) (session st) [].

(** [Array.prototype.indexOf]: the first index of [x], or [-1]. *)
Fixpoint indexOf (x : Z) (l : list Z) : Z :=
  match l with
  | [] => -1
  | y :: rest =>
      if y =? x then 0
      else
        let index := indexOf x rest in
        if index =? -1 then -1 else index + 1
  end.

(** [l.splice(index, 1)] for an index within the list. *)
Fixpoint splice_one (index : nat) (l : list Z) : list Z :=
  match l, index with
  | [], _ => []
  | _ :: rest, O => rest
  | y :: rest, S index' => y :: splice_one index' rest
  end.

(** The liked papers after a click on the heart of [paperId]. *)
Definition toggled (paperId : Z) (liked : list Z) : list Z :=
  let index := indexOf paperId liked in
  if index =? -1 then (liked ++ [paperId])%list
  else splice_one (Z.to_nat index) liked.

Definition with_liked (liked : list Z) (u : user) : user :=
  mkLocal (firstName u) (lastName u) (email u) (points u) (level u)
    (profilePic u) liked (uploads u) (downloads u).

(** [async function toggleLike(paperId, event)] *)
Definition toggleLike (put_fault : bool) (paperId : Z) (st : state) : state :=
  match currentUser st with
  | None => st
  | Some u => save_user put_fault (with_liked (toggled paperId (likedPapers u)) u) st
  end.

(** The counters of [downloadPaper(id)]. *)
Definition downloadPaper (put_fault : bool) (st : state) : state :=
  match currentUser st with
  | None => st
  | Some u =>
      save_user put_fault
        (mkLocal (firstName u) (lastName u) (email u) (points u) (level u)
           (profilePic u) (likedPapers u) (uploads u) (downloads u + 1)) st
  end.

(** [reader.onload] of [handleProfilePicUpdate(event)], for the data
    URL of the chosen picture. With nobody signed in the assignment
    throws. *)
Definition handleProfilePicUpdate (put_fault : bool) (result : string)
    (st : state) : state :=
  match currentUser st with
  | None => st
  | Some u =>
      save_user put_fault
        (mkLocal (firstName u) (lastName u) (email u) (points u) (level u)
           result (likedPapers u) (uploads u) (downloads u)) st
  end.

(** [async function saveNameEdit()]: both names must be given. *)
Definition saveNameEdit (put_fault : bool) (newFirst newLast : string)
    (st : state) : state :=
  if String.eqb newFirst EmptyString || String.eqb newLast EmptyString then st
  else
    match currentUser st with
    | None => st
    | Some u =>
        save_user put_fault
          (mkLocal newFirst newLast (email u) (points u) (level u)
             (profilePic u) (likedPapers u) (uploads u) (downloads u)) st
    end.

(** The fields of the upload form. *)
Record upload_form : Type := {
  upSubject : string;
  upCourse : string;
  upYear : string;
  upSlot : string;
  upCategory : string
}.

(** [currentUser.points += 50; currentUser.uploads++; updateLevel();] *)
Definition credited (u : user) : user :=
  let leveled := Ledger.updateLevel (Ledger.mkCurrent (points u + 50) (level u)) in
  mkLocal (firstName u) (lastName u) (email u) (Ledger.cu_points leveled)
    (Ledger.cu_level leveled) (profilePic u) (likedPapers u) (uploads u + 1)
    (downloads u).

(** The submit handler of the upload form, for a chosen file given by
    its type tag and its data URL; [None] stands for a
    [selectedFileBase64] that is null or empty, the cases in which
    [!selectedFileBase64] holds. A rejected [db.addPaper] (the key
    [Date.now()] is taken, or the store refuses the record) is caught
    and nothing is credited. *)
Definition uploadSubmit (add_fault put_fault : bool) (date_now : Z)
    (form : upload_form) (selected : option (string * string)) (st : state)
  : state :=
  match currentUser st, selected with
  | None, _ => st
  | Some _, None => st
  | Some u, Some (fileType_value, selectedFileBase64) =>
      let newPaper :=
        mkLocalPaper date_now (upSubject form) (upCourse form) (upYear form)
          (upSlot form) (upCategory form) (firstName u ++ " " ++ lastName u)
          (profilePic u) fileType_value selectedFileBase64 in
      match (if add_fault then None else add_paper newPaper (papers_store st)) with
      | None => st
      | Some store' =>
          save_user put_fault (credited u)
            (mkState (users_store st) store' (session st) (currentUser st)
               (newPaper :: papers st))
      end
  end.

(** [String.prototype.includes], case-sensitive. *)
Fixpoint includes (needle s : string) : bool :=
  String.prefix needle s ||
  match s with
  | EmptyString => false
  | String _ s' => includes needle s'
  end.

(** [String.prototype.toLowerCase] is the case mapping of the engine,
    over all of Unicode. It is left to the engine; what is known of it
    here is its action on ASCII text, where it folds the letters A-Z
    and nothing else. *)
Class CaseMapping : Type := {
  toLowerCase : string -> string
}.

(** Text of ASCII characters only. *)
Fixpoint is_ascii (s : string) : bool :=
  match s with
  | EmptyString => true
  | String c s' => (nat_of_ascii c <? 128)%nat && is_ascii s'
  end.

Definition toLowerCase_ascii `{CaseMapping} : Prop :=
  forall s, is_ascii s = true -> toLowerCase s = lower_string s.

(** The fields of a paper that the search reads are ASCII text. *)
Definition ascii_fields (p : paper) : Prop :=
  is_ascii (subject p) = true /\ is_ascii (courseCode p) = true
  /\ is_ascii (slot p) = true.

(** The papers [handleSearch()] renders for the text of the search
    box. *)
Definition handleSearch `{CaseMapping} (searchInput : string) (st : state)
  : list paper :=
  let query := toLowerCase searchInput in
  filter (fun p =>
            includes query (toLowerCase (subject p))
            || includes query (toLowerCase (courseCode p))
            || includes query (toLowerCase (slot p)))
    (papers st).

(** What a visitor does on the page. *)
Inductive action : Type :=
| AuthSubmit (store_fault isLoginMode : bool) (email_value firstName_value
    lastName_value : string)
| Logout
| ContinueAsGuest
| Reload
| LoadPapers
| ToggleLike (put_fault : bool) (paperId : Z)
| DownloadPaper (put_fault : bool)
| UploadSubmit (add_fault put_fault : bool) (date_now : Z) (form : upload_form)
    (selected : option (string * string))
| ProfilePicUpdate (put_fault : bool) (result : string)
| SaveNameEdit (put_fault : bool) (newFirst newLast : string).

Definition perform (a : action) (st : state) : state :=
  match a with
  | AuthSubmit fault mode e f l => authSubmit fault mode e f l st
  | Logout => logout st
  | ContinueAsGuest => continueAsGuest st
  | Reload => reload st
  | LoadPapers => loadPapers st
  | ToggleLike fault paperId => toggleLike fault paperId st
  | DownloadPaper fault => downloadPaper fault st
  | UploadSubmit add_fault put_fault now form selected =>
      uploadSubmit add_fault put_fault now form selected st
  | ProfilePicUpdate fault result => handleProfilePicUpdate fault result st
  | SaveNameEdit fault newFirst newLast => saveNameEdit fault newFirst newLast st
  end.

(** The page after a run of actions, first action first. *)
Definition perform_all (actions : list action) (st : state) : state :=
  fold_left (fun s a => perform a s) actions st.

(** A first visit: empty stores, nobody signed in. *)
Definition first_visit : state := mkState [] [] None None [].

(** The bookkeeping of one user: 50 points per upload and the level of
    the total. *)
Definition tallied (u : user) : Prop :=
  0 <= uploads u /\ points u = 50 * uploads u
  /\ level u = Ledger.level_of_total (points u).

Definition tallied_opt (o : option user) : Prop :=
  match o with Some u => tallied u | None => True end.

(** Every user the page knows of is tallied. *)
Definition all_tallied (st : state) : Prop :=
  Forall tallied (users_store st) /\ tallied_opt (session st)
  /\ tallied_opt (currentUser st).

End Browser.

(** ** Reading a decimal numeral back *)

Module Numeral.

(** The value of a digit character. *)
Definition digit_value (c : ascii) : Z := Z.of_nat (nat_of_ascii c) - 48.

(** The number read from the digits of [s], continuing from [value]. *)
Fixpoint read_from (value : Z) (s : string) : Z :=
  match s with
  | EmptyString => value
  | String c s' => read_from (10 * value + digit_value c) s'
  end.

End Numeral.

(** ** The API wrapper of the page *)

Module Api.
Import Js Store Express.

(** What a call of the wrapper ends with: a value, or a thrown [Error]
    with the value its message is made from, or the error of a reply
    that is not JSON ([`Server Error: ${res.status} ..`], kept as the
    status). *)
Inductive outcome : Type :=
| Returned (value : json)
| Thrown (message : json)
| ServerError (code : Z).

(** Whether a value counts as true in a condition. *)
Definition truthy (j : json) : bool :=
  match j with
  | JNull => false
  | JNum n => negb (n =? 0)
  | JStr s => negb (String.eqb s EmptyString)
  | JArr _ => true
  | JObj _ => true
  end.

(** [res.ok]: a status from 200 to 299. *)
Definition ok (r : response) : bool := (200 <=? status r) && (status r <=? 299).

(** [async _handleResponse(res)]: [res.json(..)] of the routes is sent
    as [application/json], [res.send(text)] is not. *)
Definition handleResponse (r : response) : outcome :=
  match payload r with
  | Json data =>
      if negb (ok r) then
        match prop "msg" data with
        | Some m => if truthy m then Thrown m else Thrown (JStr "Request failed")
        | None => Thrown (JStr "Request failed")
        end
      else Returned data
  | Text _ => ServerError (status r)
  end.

(** [this.token], which [localStorage] mirrors; [None] is a token that
    is [null], [undefined] or empty, the values for which [!this.token]
    holds. *)
Definition token_value (data : json) : option string :=
  match prop "token" data with
  | Some (JStr t) => if String.eqb t EmptyString then None else Some t
  | _ => None
  end.

(** What the outside world decides during [getUser()]. *)
Record profile_env : Type := {
  pr_JWT_SECRET : option string;
  pr_clock : Z;
  pr_select_fault : bool
}.

(** [async getUser()]: without a token [null]; a reply that is not
    [ok] logs out and gives [null]. *)
Definition getUser `{Jwt} (pe : profile_env) (token : option string) (d : db)
  : option string * db * outcome :=
  match token with
  | None => (None, d, Returned JNull)
  | Some t =>
      let (d', res) :=
        run (Profile.profile (pr_JWT_SECRET pe) (pr_clock pe) (pr_select_fault pe)
               (Some t)) d in
      if negb (ok res) then (None, d', Returned JNull)
      else (token, d', handleResponse res)
  end.

(** [async login(email, password)]: the token of the reply is kept and
    the profile is fetched with it; a thrown error leaves the token as
    it was. *)
Definition login `{Bcrypt} `{Jwt} (le : Auth.login_env) (pe : profile_env)
    (email password : string) (token : option string) (d : db)
  : option string * db * outcome :=
  let (d', res) :=
    run (Auth.login le {| Auth.li_email := email; Auth.li_password := password |}) d in
  match handleResponse res with
  | Returned data => getUser pe (token_value data) d'
  | failed => (token, d', failed)
  end.

(** [async signup(userData)] *)
Definition signup `{Bcrypt} `{Jwt} (se : Auth.signup_env) (pe : profile_env)
    (userData : Auth.signup_body) (token : option string) (d : db)
  : option string * db * outcome :=
  let (d', res) := run (Auth.signup se userData) d in
  match handleResponse res with
  | Returned data => getUser pe (token_value data) d'
  | failed => (token, d', failed)
  end.

End Api.

(** ** The site-wide download counter *)

Module DownloadCounter.
Import Js Store.

(** A row of [site_stats]. The table is not part of the schema file;
    the column [download_count] is taken to be a nullable [int], as the
    counters of the schema are. *)
Record stat_row : Type := mkStat {
  s_id : Z;
  download_count : option Z
}.

(** The table, and the text of the element [profileDownloads]; [None]
    is a page without that element. *)
Record site : Type := mkSite {
  site_stats : list stat_row;
  profileDownloads : option string
}.

(** [from("site_stats").select("download_count").eq("id", 1).single()] *)
Definition select_count (fault : bool) (s : site) : result stat_row :=
  if fault then Failed
  else single (filter (fun r => s_id r =? 1) (site_stats s)).

(** The rows after [download_count] was set in those with identifier
    1. *)
Definition counted (newCount : Z) (rows : list stat_row) : list stat_row :=
  map (fun r => if s_id r =? 1 then mkStat (s_id r) (Some newCount) else r) rows.

(** [from("site_stats").update({ download_count: newCount }).eq("id", 1)]:
    a value outside the [int] range is rejected by the store. *)
Definition update_count (fault : bool) (newCount : Z) (s : site)
  : site * result unit :=
  if fault then (s, Failed)
  else if negb (in_int4 newCount) then (s, Failed)
  else (mkSite (counted newCount (site_stats s)) (profileDownloads s), Ok tt).

(** [if (display) { display.textContent = newCount; }] *)
Definition shown (newCount : Z) (element : option string) : option string :=
  match element with
  | Some _ => Some (number_toString newCount)
  | None => None
  end.

(** A nullable number of the reply as an operand of [+]: a number is
    read as the nearest double, and [null + 1] is [1]. *)
Definition to_number (x : option Z) : Z :=
  match x with
  | Some n => Double.round n
  | None => 0
  end.

(** Step 1 of [incrementDownloadCount()]: the count read, plus one, the
    sum being a sum of doubles. *)
Definition fetch (select_fault : bool) (s : site) : result Z :=
  match select_count select_fault s with
  | Failed => Failed
  | Ok data => Ok (Double.add (to_number (download_count data)) 1)
  end.

(** Steps 2 and 3: the update, and the new count shown when the update
    went through and the page has the element. *)
Definition store_and_show (update_fault : bool) (newCount : Z) (s : site) : site :=
  match update_count update_fault newCount s with
  | (s', Failed) => s'
  | (s', Ok _) => mkSite (site_stats s') (shown newCount (profileDownloads s'))
  end.

(** [export async function incrementDownloadCount()]: every error is
    caught and logged. *)
Definition incrementDownloadCount (select_fault update_fault : bool) (s : site)
  : site :=
  match fetch select_fault s with
  | Failed => s
  | Ok newCount => store_and_show update_fault newCount s
  end.

End DownloadCounter.

(** ** Sample data for the worked instances *)

Module Sample.
Import Store.

(** The row of a newcomer who signed up as in [Demo.signup_world] and
    was awarded for one upload. *)
Definition newcomer : user_row :=
  mkUser "u2" "Alice" "Pleasance" "b@x.com" "556" "$2a$pw123456" (Some 50)
    (Some "Silver") (Some EmptyString) 5.

(** The store after that signup into the empty store and that upload,
    fifty seconds later. *)
Definition newcomer_db `{Bcrypt} `{Jwt} `{Platform} : db :=
  fst (Papers.upload_route None 150 (Some "secret.u2") (Demo.upload_world false)
         Demo.a_paper (Some Demo.a_file)
         (fst (Express.run (Auth.signup Demo.signup_world
                              (Demo.signup_request "b@x.com")) Demo.empty_db))).

(** The profile request of the page, fifty seconds after a signup. *)
Definition profile_world : Api.profile_env :=
  {| Api.pr_JWT_SECRET := None; Api.pr_clock := 150;
     Api.pr_select_fault := false |}.

(** A visitor of the browser build who has signed up, and the page
    then. *)
Definition visitor : Browser.user :=
  Browser.mkLocal "Alice" "Liddell" "a@x.com" 0 "Silver" EmptyString [] 0 0.

Definition visiting : Browser.state :=
  Browser.mkState [visitor] [] (Some visitor) (Some visitor) [].

Definition a_form : Browser.upload_form :=
  {| Browser.upSubject := "Algorithms"; Browser.upCourse := "CSE2003";
     Browser.upYear := "2024"; Browser.upSlot := "A1";
     Browser.upCategory := "FAT" |}.

Definition a_selection : option (string * string) :=
  Some ("pdf", "data:application/pdf;base64,JVBERg==").

(** A case mapping that folds the letters A-Z and leaves every other
    character as it is. *)
Definition ascii_case : Browser.CaseMapping :=
  {| Browser.toLowerCase := Pattern.lower_string |}.

(** Two papers on the page of the browser build. *)
Definition algorithms_paper : Browser.paper :=
  Browser.mkLocalPaper 1700000000000 "Algorithms" "CSE2003" "2024" "A1" "FAT"
    "Alice Liddell" EmptyString "pdf" "data:application/pdf;base64,JVBERg==".

Definition thermodynamics_paper : Browser.paper :=
  Browser.mkLocalPaper 1690000000000 "Thermodynamics" "MEE1003" "2023" "B2"
    "CAT1" "Alice Liddell" EmptyString "pdf"
    "data:application/pdf;base64,JVBERg==".

Definition browsing : Browser.state :=
  Browser.mkState [visitor] [thermodynamics_paper; algorithms_paper]
    (Some visitor) (Some visitor) [algorithms_paper; thermodynamics_paper].

(** The statistics table with 41 downloads counted, on a page that
    shows the count. *)
Definition counting : DownloadCounter.site :=
  DownloadCounter.mkSite [DownloadCounter.mkStat 1 (Some 41)] (Some "41").

End Sample.

(** * Properties *)

(** ** Decimal numerals and the OTP code *)

Section OtpCode.
Import Js Otp.

Example toString_0 : number_toString 0 = "0".
Proof. reflexivity. Qed.

Example toString_4050 : number_toString 4050 = "4050".
Proof. reflexivity. Qed.

Example toString_neg : number_toString (-17) = "-17".
Proof. reflexivity. Qed.

Example otp_lowest : generate_otp 0 = "100000".
Proof. vm_compute. reflexivity. Qed.

Example otp_highest : generate_otp (2 ^ 53 - 1) = "999999".
Proof. vm_compute. reflexivity. Qed.

Lemma is_digit_digit_char d : 0 <= d <= 9 -> is_digit (digit_char d) = true.
Proof.
  intros Hd.
  assert (H : d = 0 \/ d = 1 \/ d = 2 \/ d = 3 \/ d = 4 \/ d = 5 \/ d = 6
              \/ d = 7 \/ d = 8 \/ d = 9) by lia.
  repeat (destruct H as [-> | H]; [reflexivity |]). subst d. reflexivity.
Qed.

Lemma digit_char_nonzero d : 1 <= d <= 9 -> digit_char d <> "0"%char.
Proof.
  intros Hd.
  assert (H : d = 1 \/ d = 2 \/ d = 3 \/ d = 4 \/ d = 5 \/ d = 6
              \/ d = 7 \/ d = 8 \/ d = 9) by lia.
  repeat (destruct H as [-> | H]; [discriminate |]). subst d. discriminate.
Qed.

Lemma digits_acc_step fuel n acc :
  digits_acc (S fuel) n acc =
  if n / 10 =? 0 then String (digit_char (n mod 10)) acc
  else digits_acc fuel (n / 10) (String (digit_char (n mod 10)) acc).
Proof. reflexivity. Qed.

Lemma digits_acc_more fuel n acc :
  n / 10 <> 0 ->
  digits_acc (S fuel) n acc =
  digits_acc fuel (n / 10) (String (digit_char (n mod 10)) acc).
Proof.
  intros Hn. rewrite digits_acc_step.
  destruct (Z.eqb_spec (n / 10) 0); [contradiction | reflexivity].
Qed.

Lemma digits_acc_last fuel n acc :
  n / 10 = 0 -> digits_acc (S fuel) n acc = String (digit_char (n mod 10)) acc.
Proof. intros Hn. rewrite digits_acc_step, Hn. reflexivity. Qed.

(** The numeral of a number with six digits, digit by digit. *)
Lemma toString_six n :
  100000 <= n <= 999999 ->
  number_toString n =
  String (digit_char (n / 100000 mod 10))
   (String (digit_char (n / 10000 mod 10))
    (String (digit_char (n / 1000 mod 10))
     (String (digit_char (n / 100 mod 10))
      (String (digit_char (n / 10 mod 10))
       (String (digit_char (n mod 10)) EmptyString))))).
Proof.
  intros Hn. unfold number_toString.
  destruct (Z.ltb_spec n 0); [lia |].
  assert (Hlog : 16 <= Z.log2 n).
  { change 16 with (Z.log2 100000). apply Z.log2_le_mono. lia. }
  destruct (Z.to_nat (Z.log2 n)) as [|[|[|[|[|k]]]]] eqn:E; try lia.
  rewrite !digits_acc_more by (Z.div_mod_to_equations; lia).
  rewrite digits_acc_last by (Z.div_mod_to_equations; lia).
  rewrite !Z.div_div by lia. reflexivity.
Qed.

Lemma six_digit_toString n :
  100000 <= n <= 999999 -> six_digit_string (number_toString n) = true.
Proof.
  intros Hn. rewrite toString_six by assumption.
  unfold six_digit_string. cbn [String.length Nat.eqb all_digits andb].
  rewrite !is_digit_digit_char; [reflexivity | | | | | | ];
    (Z.div_mod_to_equations; lia).
Qed.

Lemma toString_six_leading n :
  100000 <= n <= 999999 ->
  exists d rest, number_toString n = String (digit_char d) rest /\ 1 <= d <= 9.
Proof.
  intros Hn. rewrite toString_six by assumption.
  eexists _, _. split; [reflexivity |]. Z.div_mod_to_equations; lia.
Qed.

(** Rounding to the nearest double. *)
Lemma nearest_small x : x < 2 ^ 53 -> Double.nearest x = x.
Proof.
  intros Hx. unfold Double.nearest.
  destruct (Z.leb_spec (Z.log2 x - 52) 0) as [_ | Hs]; [reflexivity |].
  exfalso. destruct (Z.le_gt_cases x 0) as [H0 | H0].
  - rewrite Z.log2_nonpos in Hs by assumption. lia.
  - apply Z.log2_lt_pow2 in Hx; lia.
Qed.

Lemma round_nonneg x : 0 <= x -> Double.round x = Double.nearest x.
Proof.
  intros Hx. unfold Double.round.
  destruct (Z.eq_dec x 0) as [-> | Hne]; [reflexivity |].
  rewrite Z.sgn_pos, Z.abs_eq by lia. lia.
Qed.

(** From 54 bits on, the nearest double is one of the two multiples of
    [2^s] around [x], where [s] counts the bits rounded away. *)
Lemma nearest_cases x :
  2 ^ 53 <= x ->
  exists s q,
    0 < s /\ 2 ^ 52 <= q < 2 ^ 53 /\ q * 2 ^ s <= x < (q + 1) * 2 ^ s
    /\ (Double.nearest x = q * 2 ^ s
        \/ (q * 2 ^ s < x /\ Double.nearest x = (q + 1) * 2 ^ s)).
Proof.
  intros Hx. assert (Hpos : 0 < x) by lia.
  pose proof (Z.log2_spec x Hpos) as [Hlo Hhi].
  assert (Hlog : 53 <= Z.log2 x) by (apply Z.log2_le_pow2; lia).
  set (s := Z.log2 x - 52). assert (Hs : 0 < s) by lia.
  assert (HP : 0 < 2 ^ s) by (apply Z.pow_pos_nonneg; lia).
  replace (Z.log2 x) with (52 + s) in Hlo by lia.
  replace (Z.succ (Z.log2 x)) with (53 + s) in Hhi by lia.
  rewrite Z.pow_add_r in Hlo, Hhi by lia.
  assert (Hhalf : 0 < 2 ^ (s - 1)) by (apply Z.pow_pos_nonneg; lia).
  pose proof (Z.div_mod x (2 ^ s) ltac:(lia)) as Hdiv.
  pose proof (Z.mod_pos_bound x (2 ^ s) HP) as Hr.
  set (q := x / 2 ^ s) in *. set (r := x mod 2 ^ s) in *.
  set (P := 2 ^ s) in *.
  assert (Hq : 2 ^ 52 <= q < 2 ^ 53).
  { split.
    - apply Z.div_le_lower_bound; [exact HP |]. lia.
    - apply Z.div_lt_upper_bound; [exact HP |]. lia. }
  exists s, q. split; [exact Hs |]. split; [exact Hq |].
  split; [lia |].
  unfold Double.nearest. fold s.
  destruct (Z.leb_spec s 0) as [Hle | _]; [lia |].
  fold P q r.
  destruct ((2 ^ (s - 1) <? r) || ((r =? 2 ^ (s - 1)) && Z.odd q)) eqn:Hup.
  - right. split; [| reflexivity].
    apply orb_true_iff in Hup. destruct Hup as [Hup | Hup].
    + apply Z.ltb_lt in Hup. lia.
    + apply andb_true_iff in Hup. destruct Hup as [Hup _].
      apply Z.eqb_eq in Hup. lia.
  - left. reflexivity.
Qed.

(** No double lies strictly between two neighbours. *)
Lemma no_double_between y s q :
  Double.representable y -> 0 < s -> 2 ^ 52 <= q ->
  (q * 2 ^ s < y -> (q + 1) * 2 ^ s <= y)
  /\ (y < (q + 1) * 2 ^ s -> y <= q * 2 ^ s).
Proof.
  intros (k & t & Hk & Ht & ->) Hs Hq.
  destruct (Z.le_gt_cases s t) as [Hst | Hst].
  - replace t with ((t - s) + s) by lia. rewrite Z.pow_add_r by lia.
    assert (HJ : 0 < 2 ^ (t - s)) by (apply Z.pow_pos_nonneg; lia).
    assert (HP : 0 < 2 ^ s) by (apply Z.pow_pos_nonneg; lia).
    set (J := 2 ^ (t - s)) in *. set (P := 2 ^ s) in *.
    rewrite Z.mul_assoc. split; intros H.
    + assert (q < k * J) by (apply (Z.mul_lt_mono_pos_r P); assumption).
      apply Z.mul_le_mono_nonneg_r; lia.
    + assert (k * J < q + 1) by (apply (Z.mul_lt_mono_pos_r P); assumption).
      apply Z.mul_le_mono_nonneg_r; lia.
  - assert (Hbelow : k * 2 ^ t <= q * 2 ^ s).
    { replace s with ((s - t) + t) by lia. rewrite Z.pow_add_r by lia.
      assert (HT : 0 < 2 ^ t) by (apply Z.pow_pos_nonneg; lia).
      assert (HD : 2 ^ 1 <= 2 ^ (s - t)) by (apply Z.pow_le_mono_r; lia).
      set (D := 2 ^ (s - t)) in *. set (T := 2 ^ t) in *.
      rewrite Z.mul_assoc. apply Z.mul_le_mono_nonneg_r; [lia |].
      change (2 ^ 1) with 2 in HD. nia. }
    split; intros H; lia.
Qed.

(** Rounding is monotone against doubles: it never crosses one. *)
Lemma nearest_le x y : Double.representable y -> x <= y -> Double.nearest x <= y.
Proof.
  intros Hy Hxy. destruct (Z.lt_ge_cases x (2 ^ 53)) as [Hx | Hx].
  - rewrite nearest_small by exact Hx. exact Hxy.
  - destruct (nearest_cases x Hx) as (s & q & Hs & Hq & Hb & [Hn | [Hlt Hn]]);
      rewrite Hn; [lia |].
    apply (no_double_between y s q Hy Hs); lia.
Qed.

Lemma nearest_ge x y : Double.representable y -> y <= x -> y <= Double.nearest x.
Proof.
  intros Hy Hxy. destruct (Z.lt_ge_cases x (2 ^ 53)) as [Hx | Hx].
  - rewrite nearest_small by exact Hx. exact Hxy.
  - destruct (nearest_cases x Hx) as (s & q & Hs & Hq & Hb & [Hn | [Hlt Hn]]);
      rewrite Hn; [| lia].
    apply (no_double_between y s q Hy Hs); lia.
Qed.

Lemma representable_scaled k t :
  0 <= k < 2 ^ 53 -> 0 <= t -> Double.representable (k * 2 ^ t).
Proof. intros Hk Ht. exists k, t. auto. Qed.

(** A mantissa next to a boundary: the exact sum is just below 100015,
    and the sum in doubles rounds up to it. *)
Example otp_rounds_up :
  100000 + 150119987579 * 900000 / 2 ^ 53 = 100014
  /\ otp_number 150119987579 = 100015.
Proof. split; vm_compute; reflexivity. Qed.

(** The rounded product: at most [900000 - 2^-33], the double below
    900000, which the largest product rounds down to. *)
Lemma product_range m :
  random_mantissa m ->
  0 <= Double.mul_int m 900000 <= 900000 * 2 ^ 53 - 2 ^ 20.
Proof.
  unfold random_mantissa. intros Hm. unfold Double.mul_int.
  rewrite round_nonneg by lia. split.
  - apply nearest_ge; [| lia].
    replace 0 with (0 * 2 ^ 0) by reflexivity. apply representable_scaled; lia.
  - destruct (Z.le_gt_cases (m * 900000) (900000 * 2 ^ 53 - 2 ^ 20)) as [Hle | Hgt].
    + apply nearest_le; [| exact Hle].
      replace (900000 * 2 ^ 53 - 2 ^ 20) with ((900000 * 2 ^ 33 - 1) * 2 ^ 20)
        by reflexivity.
      apply representable_scaled; lia.
    + set (x := m * 900000) in *.
      assert (Hx : x <= 900000 * 2 ^ 53 - 900000) by (unfold x; lia).
      assert (Hlog : Z.log2 x = 72) by (apply Z.log2_unique; lia).
      unfold Double.nearest. rewrite Hlog.
      change (72 - 52) with 20. change (20 <=? 0) with false. cbv iota.
      change (20 - 1) with 19.
      assert (Hq : x / 2 ^ 20 = 900000 * 2 ^ 33 - 1 /\ x mod 2 ^ 20 <= 148576)
        by (Z.div_mod_to_equations; lia).
      destruct Hq as [Hq Hr]. rewrite Hq.
      destruct (Z.ltb_spec (2 ^ 19) (x mod 2 ^ 20)) as [Hlt | _]; [lia |].
      destruct (Z.eqb_spec (x mod 2 ^ 20) (2 ^ 19)) as [Heq | _]; [lia |].
      cbn [orb andb]. lia.
Qed.

Lemma otp_number_range m : random_mantissa m -> 100000 <= otp_number m <= 999999.
Proof.
  intros Hm. pose proof (product_range m Hm) as HR.
  unfold otp_number, Double.add, Double.of_int.
  set (R := Double.mul_int m 900000) in *.
  rewrite round_nonneg by lia.
  assert (Hl : 100000 * 2 ^ 53 <= Double.nearest (100000 * 2 ^ 53 + R)).
  { apply nearest_ge; [| lia]. apply representable_scaled; lia. }
  assert (Hh : Double.nearest (100000 * 2 ^ 53 + R) <= 1000000 * 2 ^ 53 - 2 ^ 20).
  { apply nearest_le; [| lia].
    replace (1000000 * 2 ^ 53 - 2 ^ 20) with ((1000000 * 2 ^ 33 - 1) * 2 ^ 20)
      by reflexivity.
    apply representable_scaled; lia. }
  unfold Double.floor. Z.div_mod_to_equations. lia.
Qed.

Lemma mantissa_for_ok n :
  100000 <= n <= 999999 ->
  random_mantissa (mantissa_for n) /\ otp_number (mantissa_for n) = n.
Proof.
  intros Hn. unfold random_mantissa, otp_number, mantissa_for.
  set (k := n - 100000). assert (Hk : 0 <= k <= 899999) by lia.
  set (P := 2 ^ 53). assert (HP : P = 9007199254740992) by reflexivity.
  set (m := (k * P + 899999) / 900000).
  assert (Hm : k * P <= m * 900000 < k * P + 900000).
  { unfold m. Z.div_mod_to_equations. lia. }
  split; [nia |].
  assert (HR : k * P <= Double.mul_int m 900000 <= k * P + 2 ^ 20).
  { unfold Double.mul_int. rewrite round_nonneg by nia. split.
    - apply nearest_ge; [| lia]. apply representable_scaled; lia.
    - apply nearest_le; [| lia].
      replace (k * P + 2 ^ 20) with ((k * 2 ^ 33 + 1) * 2 ^ 20)
        by (unfold P; lia).
      apply representable_scaled; lia. }
  set (R := Double.mul_int m 900000) in *.
  unfold Double.add, Double.of_int. fold P. rewrite round_nonneg by lia.
  assert (Hl : n * P <= Double.nearest (100000 * P + R)).
  { apply nearest_ge; [| lia]. apply representable_scaled; lia. }
  assert (Hh : Double.nearest (100000 * P + R) <= n * P + 2 ^ 20).
  { apply nearest_le; [| lia].
    replace (n * P + 2 ^ 20) with ((n * 2 ^ 33 + 1) * 2 ^ 20) by (unfold P; lia).
    apply representable_scaled; lia. }
  unfold Double.floor. fold P. symmetry.
  apply Z.div_unique with (r := Double.nearest (100000 * P + R) - n * P); lia.
Qed.

(** C5, as the code has it. Whatever the random source returns, the OTP
    code, computed in double arithmetic as the source computes it, is
    the decimal numeral of an integer between 100000 and 999999: six
    decimal digits of which the first is never 0. Every integer [n] of
    that range is the code of some outcome of the random source. How
    the outcomes are distributed is a matter of the random source and
    is not stated. *)
Theorem otp_six_digits_from_100000 (m n : Z) :
  Otp.random_mantissa m ->
  100000 <= n <= 999999 ->
  100000 <= Otp.otp_number m <= 999999
  /\ Js.six_digit_string (Otp.generate_otp m) = true
  /\ (exists d rest,
        Otp.generate_otp m = String (Js.digit_char d) rest /\ 1 <= d <= 9)
  /\ Otp.random_mantissa (Otp.mantissa_for n)
  /\ Otp.generate_otp (Otp.mantissa_for n) = Js.number_toString n.
Proof.
  intros Hm Hn. pose proof (otp_number_range m Hm) as Hr.
  destruct (mantissa_for_ok n Hn) as [Hm' Hn'].
  split; [exact Hr |].
  split; [apply six_digit_toString; exact Hr |].
  split; [apply toString_six_leading; exact Hr |].
  split; [exact Hm' |].
  unfold generate_otp. rewrite Hn'. reflexivity.
Qed.

Lemma otp_six_digits_from_100000_witness :
  100000 <= Otp.otp_number 0 <= 999999
  /\ Js.six_digit_string (Otp.generate_otp 0) = true
  /\ (exists d rest,
        Otp.generate_otp 0 = String (Js.digit_char d) rest /\ 1 <= d <= 9)
  /\ Otp.random_mantissa (Otp.mantissa_for 123456)
  /\ Otp.generate_otp (Otp.mantissa_for 123456) = Js.number_toString 123456.
Proof.
  apply (otp_six_digits_from_100000 0 123456).
  - unfold Otp.random_mantissa. lia.
  - lia.
Defined.

(** C5, as stated, fails: ["012345"] is a string of six decimal digits
    that no outcome of the random source produces. *)
Lemma otp_never_012345 :
  Js.six_digit_string "012345" = true /\
  ~ (exists m, Otp.random_mantissa m /\ Otp.generate_otp m = "012345").
Proof.
  split; [reflexivity |].
  intros (m & Hm & Hcode).
  destruct (toString_six_leading _ (otp_number_range m Hm)) as (d & rest & Hs & Hd).
  unfold generate_otp in Hcode. rewrite Hs in Hcode.
  injection Hcode as Hc _. exact (digit_char_nonzero d Hd Hc).
Qed.

End OtpCode.

(** ** Lists and store queries *)

Section StoreFacts.
Import Js Store.

Lemma filter_none {A} (f : A -> bool) l :
  (forall x, In x l -> f x = false) -> filter f l = [].
Proof.
  induction l as [| a l IH]; intros Hl; [reflexivity |].
  cbn. rewrite (Hl a) by (left; reflexivity).
  apply IH. intros x Hx. apply Hl. right. exact Hx.
Qed.

Lemma existsb_false_filter {A} (f : A -> bool) l :
  existsb f l = false -> filter f l = [].
Proof.
  intros Hex. apply filter_none. intros x Hx.
  destruct (f x) eqn:E; [| reflexivity].
  assert (existsb f l = true) by (apply existsb_exists; eauto). congruence.
Qed.

Lemma filter_same {A} (f g : A -> bool) l :
  (forall x, f x = g x) -> filter f l = filter g l.
Proof.
  intros Hfg. induction l as [| a l IH]; [reflexivity |].
  cbn. rewrite Hfg, IH. reflexivity.
Qed.

Lemma filter_map_commute {A} (p : A -> bool) (g : A -> A) l :
  (forall x, p (g x) = p x) -> filter p (map g l) = map g (filter p l).
Proof.
  intros Hp. induction l as [| a l IH]; [reflexivity |].
  cbn. rewrite Hp. destruct (p a); cbn; rewrite IH; reflexivity.
Qed.

Lemma map_id_when {A} (f : A -> A) l :
  (forall x, In x l -> f x = x) -> map f l = l.
Proof.
  induction l as [| a l IH]; intros Hl; [reflexivity |].
  cbn. rewrite (Hl a) by (left; reflexivity). f_equal.
  apply IH. intros x Hx. apply Hl. right. exact Hx.
Qed.

Lemma single_filter_hit {A} (p : A -> bool) l u :
  single (filter p l) = Ok u -> filter p l = [u] /\ p u = true.
Proof.
  intros Hs. destruct (filter p l) as [| a [| b rest]] eqn:E; try discriminate.
  inversion Hs; subst. split; [reflexivity |].
  assert (Hin : In u (filter p l)) by (rewrite E; left; reflexivity).
  apply filter_In in Hin. tauto.
Qed.

Lemma db_eta d : mkDb (users d) (papers d) (otp_codes d) (bucket d) = d.
Proof. destruct d; reflexivity. Qed.

Lemma select_fault_free fault id d user :
  select_user_by_id fault id d = Ok user -> select_user_by_id false id d = Ok user.
Proof. unfold select_user_by_id. destruct fault; [discriminate | trivial]. Qed.

(** The store rejects a second row with a stored email. *)
Lemma insert_user_duplicate fault id now fn ln em ph pw d u :
  In u (users d) -> u_email u = em ->
  insert_user fault id now fn ln em ph pw d = (d, Failed).
Proof.
  intros Hin He. unfold insert_user.
  destruct fault; [reflexivity |].
  destruct (existsb _ (users d)); [reflexivity |].
  assert (Hex : existsb (fun v => String.eqb (u_email v) em) (users d) = true).
  { apply existsb_exists. exists u. split; [exact Hin |].
    rewrite He. apply String.eqb_refl. }
  rewrite Hex. reflexivity.
Qed.

Lemma insert_user_ok fault id now fn ln em ph pw d d' newUser :
  insert_user fault id now fn ln em ph pw d = (d', Ok newUser) ->
  newUser = mkUser id fn ln em ph pw (Some 0) (Some "Silver") (Some EmptyString) now /\
  users d' = (users d ++ [newUser])%list /\
  existsb (fun u => String.eqb (u_email u) em) (users d) = false.
Proof.
  unfold insert_user. destruct fault; [discriminate |].
  destruct (existsb _ (users d)) eqn:Hid; [discriminate |].
  destruct (existsb (fun u => String.eqb (u_email u) em) (users d)) eqn:Hem;
    [discriminate |].
  intros Heq. inversion Heq; subst. cbn. repeat split; reflexivity.
Qed.

(** Right after a successful insert the new row is the one row with its
    email. *)
Lemma select_after_insert fault id now fn ln em ph pw d d' newUser :
  insert_user fault id now fn ln em ph pw d = (d', Ok newUser) ->
  select_user_by_email false em d' = Ok newUser.
Proof.
  intros Hins. destruct (insert_user_ok _ _ _ _ _ _ _ _ _ _ _ Hins)
    as (Hrow & Husers & Hem).
  unfold select_user_by_email. rewrite Husers, filter_app.
  rewrite (existsb_false_filter _ _ Hem). cbn.
  rewrite Hrow at 1. cbn. rewrite String.eqb_refl. reflexivity.
Qed.

(** In a table with unique emails, the rows with one email are one row. *)
Lemma filter_email_unique (us : list user_row) u :
  NoDup (map u_email us) -> In u us ->
  filter (fun v => String.eqb (u_email v) (u_email u)) us = [u].
Proof.
  induction us as [| a us IH]; intros Hnd Hin; [contradiction |].
  cbn in Hnd. inversion Hnd as [| x l Hnotin Hnd' ]; subst.
  cbn. destruct Hin as [-> | Hin].
  - rewrite String.eqb_refl. f_equal. apply filter_none.
    intros v Hv. apply String.eqb_neq. intros Heq.
    apply Hnotin. rewrite <- Heq. apply in_map. exact Hv.
  - destruct (String.eqb_spec (u_email a) (u_email u)) as [Heq | Hne].
    + exfalso. apply Hnotin. rewrite Heq. apply in_map. exact Hin.
    + apply IH; assumption.
Qed.

(** An update that matches no row leaves the store as it was. *)
Lemma update_password_no_match email hashed d :
  (forall u, In u (users d) -> u_email u <> email) ->
  update_password_by_email false email hashed d = (d, Ok tt).
Proof.
  intros Hno. unfold update_password_by_email, set_users.
  rewrite map_id_when.
  - rewrite db_eta. reflexivity.
  - intros u Hu. destruct (String.eqb_spec (u_email u) email) as [Heq | Hne];
      [exfalso; exact (Hno u Hu Heq) | reflexivity].
Qed.

(** An accepted write of points and level, seen through the read by
    identifier. *)
Lemma select_after_update id points level d user :
  select_user_by_id false id d = Ok user ->
  in_int4 points = true ->
  select_user_by_id false id
    (fst (update_points_level_by_id false id points level d))
  = Ok (with_points_level points level user).
Proof.
  unfold select_user_by_id, update_points_level_by_id. intros Hsel Hrange.
  rewrite Hrange. cbn [negb fst set_users users].
  apply single_filter_hit in Hsel. destruct Hsel as [Hf Hid].
  rewrite filter_map_commute.
  - rewrite Hf. cbn. rewrite Hid. reflexivity.
  - intros x. destruct (String.eqb (u_id x) id) eqn:E; exact E.
Qed.

Lemma insert_desc_cons r rows : exists first rest, insert_desc r rows = first :: rest.
Proof.
  destruct rows as [| r' rows]; cbn; [eauto |].
  destruct (o_created_at r' <? o_created_at r); eauto.
Qed.

(** The newest matching challenge is found exactly when some challenge
    matches. *)
Lemma select_newest_otp_found email otp d :
  negb (is_error (select_newest_otp false email otp d)) =
  existsb (fun o => String.eqb (o_email o) email && String.eqb (o_otp o) otp)
    (otp_codes d).
Proof.
  unfold select_newest_otp.
  destruct (filter _ (otp_codes d)) as [| o matching] eqn:Ef.
  - cbn. symmetry. apply not_true_is_false. intros Hex.
    apply existsb_exists in Hex. destruct Hex as (x & Hin & Hx).
    assert (Hf : In x (filter
                  (fun o => String.eqb (o_email o) email && String.eqb (o_otp o) otp)
                  (otp_codes d))) by (apply filter_In; split; assumption).
    rewrite Ef in Hf. contradiction.
  - cbn [order_desc fold_right].
    destruct (insert_desc_cons o (fold_right insert_desc [] matching))
      as (first & rest & ->).
    cbn. symmetry. apply existsb_exists.
    assert (Hf : In o (filter
                  (fun o => String.eqb (o_email o) email && String.eqb (o_otp o) otp)
                  (otp_codes d))) by (rewrite Ef; left; reflexivity).
    apply filter_In in Hf. exists o. exact Hf.
Qed.

Lemma storage_upload_tables fault path content d :
  users (fst (storage_upload fault path content d)) = users d /\
  papers (fst (storage_upload fault path content d)) = papers d.
Proof.
  unfold storage_upload. destruct fault; [split; reflexivity |].
  destruct (existsb _ _); split; reflexivity.
Qed.

Lemma storage_upload_ok fault path content d :
  snd (storage_upload fault path content d) = Ok tt ->
  bucket (fst (storage_upload fault path content d)) =
  (bucket d ++ [(path, content)])%list.
Proof.
  unfold storage_upload. destruct fault; [discriminate |].
  destruct (existsb _ _); [discriminate | reflexivity].
Qed.

Lemma insert_paper_failed fault id now s c y n g fp uid d :
  snd (insert_paper fault id now s c y n g fp uid d) = Failed ->
  fst (insert_paper fault id now s c y n g fp uid d) = d.
Proof.
  unfold insert_paper. destruct fault; [reflexivity |].
  destruct (existsb _ (papers d)); [reflexivity |].
  destruct (negb _); [reflexivity | discriminate].
Qed.

Lemma insert_paper_users fault id now s c y n g fp uid d :
  users (fst (insert_paper fault id now s c y n g fp uid d)) = users d.
Proof.
  unfold insert_paper. destruct fault; [reflexivity |].
  destruct (existsb _ (papers d)); [reflexivity |].
  destruct (negb _); reflexivity.
Qed.

End StoreFacts.

(** ** The reference instances meet what the routes rely on *)

Section DemoFacts.

Lemma strip_prefix_app p s : Demo.strip_prefix p (p ++ s) = Some s.
Proof.
  induction p as [| c p IH]; [reflexivity |].
  cbn. rewrite Ascii.eqb_refl. exact IH.
Qed.

Lemma demo_bcrypt_sound : @bcrypt_sound Demo.bcrypt.
Proof. intros password salt. cbn. apply String.eqb_refl. Qed.

Lemma demo_jwt_sound : @jwt_sound Demo.jwt.
Proof. intros secret issued ttl now id _. cbn. apply strip_prefix_app. Qed.

End DemoFacts.

(** ** Signup and login *)

Section AuthFacts.
Import Js Store Express Auth.
Context `{Bcrypt} `{Jwt}.

(** What a signup that answered 200 did. *)
Lemma signup_ok_inv (e : signup_env) (b : signup_body) (d : db) :
  status (snd (run (signup e b) d)) = 200 ->
  exists newUser,
    insert_user (su_insert_fault e) (su_new_id e) (su_db_now e) (firstName b)
      (lastName b) (email b) (phone b) (bcrypt_hash (password b) (su_salt e)) d
    = (fst (run (signup e b) d), Ok newUser) /\
    snd (run (signup e b) d) =
      res_json (token_body (jwt_sign (jwt_secret (su_JWT_SECRET e)) (su_clock e)
                              one_hour (u_id newUser))).
Proof.
  unfold run, signup, bind, await_read, await_write, reply, throw, ret.
  destruct (data_of (select_user_by_email (su_check_fault e) (email b) d));
    [cbn; discriminate |].
  destruct (insert_user _ _ _ _ _ _ _ _ d) as [d' [newUser |]] eqn:Hins;
    [| cbn; discriminate].
  cbn. intros _. exists newUser. split; reflexivity.
Qed.

(** C6, as the code has it. When a user with email [e] is stored, a
    signup with exactly the email [e] leaves the store as it was and
    fails: it is answered 400 "User already exists" or, when the
    existence check did not find the row, 500 "Server error" after the
    store's unique constraint rejected the insert. With unique stored
    emails and an answered existence check the answer is the 400. *)
Theorem signup_when_email_taken (e : signup_env) (b : signup_body) (d : db)
    (u : user_row) :
  In u (users d) -> u_email u = email b ->
  fst (run (signup e b) d) = d /\
  (snd (run (signup e b) d) = res_status_json 400 (msg "User already exists") \/
   snd (run (signup e b) d) = res_status_send 500 "Server error") /\
  (su_check_fault e = false -> emails_unique d ->
   snd (run (signup e b) d) = res_status_json 400 (msg "User already exists")).
Proof.
  intros Hin He.
  unfold run, signup, bind, await_read, await_write, reply, throw, ret.
  destruct (data_of (select_user_by_email (su_check_fault e) (email b) d)) eqn:Hsel.
  - cbn. repeat split; auto.
  - rewrite (insert_user_duplicate _ _ _ _ _ _ _ _ d u Hin He). cbn.
    repeat split; auto.
    intros Hf Hu. exfalso.
    unfold select_user_by_email in Hsel. rewrite Hf in Hsel.
    rewrite <- He in Hsel. rewrite (filter_email_unique _ u Hu Hin) in Hsel.
    discriminate.
Qed.

(** C8. After a signup that answered 200, a login with the same email
    and password (the store answering its query) answers 200 with a
    JSON body whose [token] field holds a token, and the [auth]
    middleware, given that token before it expires, yields the
    identifier of the row the signup created. *)
Theorem login_after_signup (e : signup_env) (b : signup_body) (d : db)
    (e' : login_env) (clock : Z) :
  bcrypt_sound -> jwt_sound ->
  status (snd (run (signup e b) d)) = 200 ->
  li_select_fault e' = false ->
  li_clock e' <= clock < li_clock e' + one_hour ->
  let d' := fst (run (signup e b) d) in
  let credentials := {| li_email := email b; li_password := password b |} in
  exists newUser token,
    users d' = (users d ++ [newUser])%list /\
    u_email newUser = email b /\
    run (login e' credentials) d' = (d', res_json (token_body token)) /\
    status (snd (run (login e' credentials) d')) = 200 /\
    (exists body, payload (snd (run (login e' credentials) d')) = Json body
                  /\ prop "token" body = Some (JStr token)) /\
    token_of (snd (run (login e' credentials) d')) = Some token /\
    Papers.auth (li_JWT_SECRET e') clock (Some token) = inl (u_id newUser).
Proof.
  intros Hb Hj Hok Hfault Hclock d' credentials.
  destruct (signup_ok_inv e b d Hok) as (newUser & Hins & _).
  fold d' in Hins.
  destruct (insert_user_ok _ _ _ _ _ _ _ _ _ _ _ Hins) as (Hrow & Husers & _).
  pose proof (select_after_insert _ _ _ _ _ _ _ _ _ _ _ Hins) as Hsel.
  set (token := jwt_sign (jwt_secret (li_JWT_SECRET e')) (li_clock e')
                  one_hour (u_id newUser)).
  assert (Hrun : run (login e' credentials) d' = (d', res_json (token_body token))).
  { unfold run, login, bind, await_read, reply, ret.
    cbn [li_email li_password credentials].
    rewrite Hfault, Hsel. cbn [data_of].
    replace (u_password newUser) with (bcrypt_hash (password b) (su_salt e))
      by (rewrite Hrow; reflexivity).
    rewrite Hb. reflexivity. }
  exists newUser, token.
  split; [exact Husers |].
  split; [rewrite Hrow; reflexivity |].
  split; [exact Hrun |].
  rewrite Hrun. cbn [snd].
  split; [reflexivity |].
  split; [exists (token_body token); split; reflexivity |].
  split; [reflexivity |].
  unfold Papers.auth, token. rewrite (Hj _ _ _ clock _ Hclock). reflexivity.
Qed.

End AuthFacts.

Section AuthRuns.
Import Js Store Express Auth.
#[local] Existing Instance Demo.bcrypt.
#[local] Existing Instance Demo.jwt.

Lemma signup_when_email_taken_witness :
  fst (run (signup Demo.signup_world (Demo.signup_request "a@x.com")) Demo.alice_db)
    = Demo.alice_db /\
  (snd (run (signup Demo.signup_world (Demo.signup_request "a@x.com")) Demo.alice_db)
     = res_status_json 400 (msg "User already exists") \/
   snd (run (signup Demo.signup_world (Demo.signup_request "a@x.com")) Demo.alice_db)
     = res_status_send 500 "Server error") /\
  (su_check_fault Demo.signup_world = false -> emails_unique Demo.alice_db ->
   snd (run (signup Demo.signup_world (Demo.signup_request "a@x.com")) Demo.alice_db)
     = res_status_json 400 (msg "User already exists")).
Proof.
  apply (signup_when_email_taken Demo.signup_world (Demo.signup_request "a@x.com")
           Demo.alice_db Demo.alice).
  - left. reflexivity.
  - reflexivity.
Defined.

(** C6, as stated, fails: with ["a@x.com"] stored, a signup with
    ["A@x.com"], equal to it up to case, answers 200 and adds a second
    row. *)
Lemma signup_case_variant_accepted :
  In Demo.alice (users Demo.alice_db) /\
  Pattern.lower_string "A@x.com" = Pattern.lower_string (u_email Demo.alice) /\
  status (snd (run (signup Demo.signup_world (Demo.signup_request "A@x.com"))
                 Demo.alice_db)) = 200 /\
  map u_email
    (users (fst (run (signup Demo.signup_world (Demo.signup_request "A@x.com"))
                   Demo.alice_db))) = ["a@x.com"; "A@x.com"].
Proof.
  split; [left; reflexivity |]. split; [reflexivity |].
  split; reflexivity.
Qed.

Lemma login_after_signup_witness :
  let d' := fst (run (signup Demo.signup_world (Demo.signup_request "b@x.com"))
                   Demo.alice_db) in
  let credentials := {| li_email := "b@x.com"; li_password := "pw123456" |} in
  exists newUser token,
    users d' = (users Demo.alice_db ++ [newUser])%list /\
    u_email newUser = "b@x.com" /\
    run (login Demo.login_world credentials) d' = (d', res_json (token_body token)) /\
    status (snd (run (login Demo.login_world credentials) d')) = 200 /\
    (exists body, payload (snd (run (login Demo.login_world credentials) d'))
                  = Json body
                  /\ prop "token" body = Some (JStr token)) /\
    token_of (snd (run (login Demo.login_world credentials) d')) = Some token /\
    Papers.auth (li_JWT_SECRET Demo.login_world) 300 (Some token)
      = inl (u_id newUser).
Proof.
  apply (login_after_signup Demo.signup_world (Demo.signup_request "b@x.com")
           Demo.alice_db Demo.login_world 300).
  - exact demo_bcrypt_sound.
  - exact demo_jwt_sound.
  - reflexivity.
  - reflexivity.
  - unfold one_hour. cbn. lia.
Defined.

End AuthRuns.

(** ** The OTP routes *)

Section OtpFacts.
Import Js Store Express Otp OtpRoutes.
Context `{Bcrypt}.

(** C3, as the code has it. [/reset-password] takes an email and a new
    password and no code. It answers 200 "Password reset successful"
    whenever the store accepts the update (500 otherwise) and never a
    not-found error; it rewrites the password of exactly the users with
    that email, so for an email without a user the store is left as it
    was; it neither reads nor changes the OTP table. The code is looked
    at by [/verify-otp] alone, which writes nothing and answers by
    whether some stored challenge has that email and code. *)
Theorem reset_password_by_email_only (e : reset_env) (email newPassword : string)
    (d : db) :
  let d' := fst (run (reset_password e email newPassword) d) in
  let r := snd (run (reset_password e email newPassword) d) in
  let hashed := bcrypt_hash newPassword (rp_salt e) in
  r = (if rp_update_fault e
       then res_status_json 500 (msg "Failed to reset password")
       else res_json (msg "Password reset successful"))
  /\ users d' =
       (if rp_update_fault e then users d
        else map (fun u => if String.eqb (u_email u) email
                           then with_password hashed u else u) (users d))
  /\ otp_codes d' = otp_codes d
  /\ ((forall u, In u (users d) -> u_email u <> email) -> d' = d)
  /\ (forall fault otp, fst (run (verify_otp fault email otp) d) = d)
  /\ (forall otp,
        snd (run (verify_otp false email otp) d) =
        if existsb (fun o => String.eqb (o_email o) email && String.eqb (o_otp o) otp)
             (otp_codes d)
        then res_json (msg "OTP verified")
        else res_status_json 400 (msg "Invalid OTP")).
Proof.
  cbv zeta.
  unfold run, reset_password, verify_otp, bind, await_write, await_read, reply, ret.
  split; [| split; [| split; [| split; [| split]]]].
  - unfold update_password_by_email. destruct (rp_update_fault e); reflexivity.
  - unfold update_password_by_email. destruct (rp_update_fault e); reflexivity.
  - unfold update_password_by_email. destruct (rp_update_fault e); reflexivity.
  - intros Hno. destruct (rp_update_fault e) eqn:Hf.
    + unfold update_password_by_email. reflexivity.
    + rewrite (update_password_no_match _ _ _ Hno). reflexivity.
  - intros fault otp. destruct (data_of _); reflexivity.
  - intros otp. rewrite <- select_newest_otp_found.
    destruct (select_newest_otp false email otp d); reflexivity.
Qed.

(** C4 fails on the code. When the insert of the challenge succeeds,
    the body of the response of [/send-otp] is
    [{ msg: "OTP sent successfully", otp }] with the very code that was
    stored for the email. *)
Theorem send_otp_answers_with_code (e : send_otp_env) (email : string) (d : db) :
  so_insert_fault e = false ->
  let code := generate_otp (so_random e) in
  run (send_otp e email) d =
    (set_otp_codes d (otp_codes d ++ [mkOtp email code (so_db_now e)])%list,
     res_json (JObj [("msg", JStr "OTP sent successfully"); ("otp", JStr code)])).
Proof.
  intros Hf code.
  unfold run, send_otp, bind, await_write, reply, ret, insert_otp.
  rewrite Hf. reflexivity.
Qed.

End OtpFacts.

Section OtpRuns.
Import Js Store Express Otp OtpRoutes.
#[local] Existing Instance Demo.bcrypt.

Lemma reset_password_by_email_only_witness :
  fst (run (reset_password Demo.reset_world "ghost@x.com" "n3wpass") Demo.alice_db)
  = Demo.alice_db.
Proof.
  pose proof (reset_password_by_email_only Demo.reset_world "ghost@x.com"
                "n3wpass" Demo.alice_db) as Hw.
  cbv zeta in Hw. destruct Hw as (_ & _ & _ & Hsame & _ & _).
  apply Hsame. intros u [<- | []]. discriminate.
Defined.

(** C3, as stated, fails. For an email without a user the reset is
    acknowledged with 200, and so is the verification of a code sent to
    that email; and with no challenge stored at all, so that the code
    ["123456"] is refused, the reset still replaces Alice's password. *)
Lemma reset_without_user_or_code :
  run (reset_password Demo.reset_world "ghost@x.com" "n3wpass") Demo.empty_db
    = (Demo.empty_db, res_json (msg "Password reset successful"))
  /\ snd (run (verify_otp false "ghost@x.com" "550000")
            (fst (run (send_otp Demo.otp_world "ghost@x.com") Demo.empty_db)))
    = res_json (msg "OTP verified")
  /\ otp_codes Demo.alice_db = []
  /\ snd (run (verify_otp false "a@x.com" "123456") Demo.alice_db)
    = res_status_json 400 (msg "Invalid OTP")
  /\ map u_password (users Demo.alice_db) = ["$2a$old"]
  /\ map u_password
       (users (fst (run (reset_password Demo.reset_world "a@x.com" "n3wpass")
                      Demo.alice_db))) = ["$2a$n3wpass"].
Proof. vm_compute. repeat split; reflexivity. Qed.

Lemma send_otp_answers_with_code_witness :
  run (send_otp Demo.otp_world "a@x.com") Demo.alice_db =
    (set_otp_codes Demo.alice_db [mkOtp "a@x.com" "550000" 7],
     res_json (JObj [("msg", JStr "OTP sent successfully"); ("otp", JStr "550000")])).
Proof.
  apply (send_otp_answers_with_code Demo.otp_world "a@x.com" Demo.alice_db).
  reflexivity.
Defined.

End OtpRuns.

(** ** Upload *)

Section UploadFacts.
Import Js Store Express Ledger Papers.
Context `{Platform}.

Lemma award_skipped sf uf id d :
  select_user_by_id sf id d = Failed -> award sf uf id d = (d, inl tt).
Proof.
  intros Hsel. unfold award, bind, await_read, ret. rewrite Hsel. reflexivity.
Qed.

Lemma award_found sf uf id d user :
  select_user_by_id sf id d = Ok user ->
  fst (award sf uf id d) =
  fst (update_points_level_by_id uf id (newPoints (u_points user))
         (newLevel (newPoints (u_points user)) (u_level user)) d).
Proof.
  intros Hsel. unfold award, bind, await_read, await_write, ret. rewrite Hsel.
  destruct (update_points_level_by_id _ _ _ _ d). reflexivity.
Qed.

Lemma award_continues sf uf id d : snd (award sf uf id d) = inl tt.
Proof.
  unfold award, bind, await_read, await_write, ret.
  destruct (select_user_by_id sf id d); [| reflexivity].
  destruct (update_points_level_by_id _ _ _ _ d). reflexivity.
Qed.

(** The upload, by the outcome of its two writes. *)
Lemma upload_cases (e : upload_env) (user_id : uuid) (b : upload_body)
    (f : file) (d : db) :
  run (upload e user_id b (Some f)) d =
  let stored := storage_upload (up_storage_fault e) (upload_path e f) (buffer f) d in
  match snd stored with
  | Failed => (fst stored, res_status_send 500 "Error uploading file")
  | Ok _ =>
      let inserted :=
        insert_paper (up_insert_fault e) (up_new_id e) (up_db_now e) (subject b)
          (courseCode b) (examYear b) (examName b) (category b)
          (getPublicUrl (upload_path e f)) user_id (fst stored) in
      match snd inserted with
      | Failed => (fst inserted, res_status_send 500 "Error saving paper metadata")
      | Ok newPaper =>
          (fst (award (up_select_fault e) (up_update_fault e) user_id (fst inserted)),
           res_json (responsePaper newPaper))
      end
  end.
Proof.
  unfold run, upload, bind, await_write, reply, ret. fold (upload_path e f).
  cbv zeta.
  destruct (storage_upload _ _ _ d) as [d1 [[] |]]; [| reflexivity].
  cbn [is_error fst snd].
  destruct (insert_paper _ _ _ _ _ _ _ _ _ _ d1) as [d2 [newPaper |]];
    [| reflexivity].
  cbn [fst snd].
  pose proof (award_continues (up_select_fault e) (up_update_fault e) user_id d2)
    as Hc.
  destruct (award _ _ user_id d2) as [d3 c]. cbn in Hc. subst c. reflexivity.
Qed.

End UploadFacts.

Section UploadClaims.
Import Js Store Express Ledger Papers.
Context `{Platform}.

Lemma insert_paper_ok fault id now s c y n g fp uid d row :
  snd (insert_paper fault id now s c y n g fp uid d) = Ok row ->
  papers (fst (insert_paper fault id now s c y n g fp uid d)) =
  (papers d ++ [row])%list.
Proof.
  unfold insert_paper. destruct fault; [discriminate |].
  destruct (existsb _ (papers d)); [discriminate |].
  destruct (negb _); [discriminate |].
  cbn. intros Heq. inversion Heq. reflexivity.
Qed.

Lemma insert_paper_row fault id now s c y n g fp uid d row :
  snd (insert_paper fault id now s c y n g fp uid d) = Ok row ->
  row = mkPaper id s c y n g fp uid now /\
  bucket (fst (insert_paper fault id now s c y n g fp uid d)) = bucket d /\
  otp_codes (fst (insert_paper fault id now s c y n g fp uid d)) = otp_codes d.
Proof.
  unfold insert_paper. destruct fault; [discriminate |].
  destruct (existsb _ (papers d)); [discriminate |].
  destruct (negb _); [discriminate |].
  cbn. intros Heq. inversion Heq. repeat split; reflexivity.
Qed.

(** C9. The users table changes during an upload only if both the blob
    write and the metadata insert succeeded. If the blob write succeeds
    and the metadata insert fails, the response is 500 "Error saving
    paper metadata", no paper row is added, the users table (points and
    levels) is as before, and the blob stays in the bucket. *)
Theorem upload_metadata_failure (e : upload_env) (user_id : uuid)
    (b : upload_body) (f : file) (d : db) :
  let stored := storage_upload (up_storage_fault e) (upload_path e f) (buffer f) d in
  let inserted :=
    insert_paper (up_insert_fault e) (up_new_id e) (up_db_now e) (subject b)
      (courseCode b) (examYear b) (examName b) (category b)
      (getPublicUrl (upload_path e f)) user_id (fst stored) in
  let final := run (upload e user_id b (Some f)) d in
  (users (fst final) = users d \/
   (snd stored = Ok tt /\ exists newPaper, snd inserted = Ok newPaper))
  /\ (snd stored = Ok tt -> snd inserted = Failed ->
      snd final = res_status_send 500 "Error saving paper metadata"
      /\ papers (fst final) = papers d
      /\ users (fst final) = users d
      /\ bucket (fst final) = (bucket d ++ [(upload_path e f, buffer f)])%list).
Proof.
  intros stored inserted final.
  unfold final. rewrite upload_cases. fold stored. cbv zeta. fold inserted.
  pose proof (storage_upload_tables (up_storage_fault e) (upload_path e f)
                (buffer f) d) as [Husers Hpapers].
  fold stored in Husers, Hpapers.
  pose proof (storage_upload_ok (up_storage_fault e) (upload_path e f)
                (buffer f) d) as Hbucket.
  fold stored in Hbucket.
  split.
  - destruct (snd stored) as [[] |] eqn:Es; [| left; exact Husers].
    destruct (snd inserted) as [newPaper |] eqn:Ei.
    + right. split; [reflexivity | exists newPaper; reflexivity].
    + left. cbn [fst]. unfold inserted in Ei |- *.
      rewrite (insert_paper_failed _ _ _ _ _ _ _ _ _ _ _ Ei). exact Husers.
  - intros Es Ei. rewrite Es, Ei. cbn [fst snd].
    unfold inserted in Ei |- *.
    rewrite (insert_paper_failed _ _ _ _ _ _ _ _ _ _ _ Ei).
    repeat split; auto.
Qed.

(** C10. If both writes succeed and the read of the uploader's row in
    the award step fails or finds no single row, the upload still
    answers 200 with the record of the new paper (its identifier, the
    submitted fields, the public URL of the file and the uploader's
    identifier), and the users table (points and levels) is as it was
    before the request. *)
Theorem upload_award_skipped (e : upload_env) (user_id : uuid)
    (b : upload_body) (f : file) (d : db) (newPaper : paper_row) :
  let stored := storage_upload (up_storage_fault e) (upload_path e f) (buffer f) d in
  let inserted :=
    insert_paper (up_insert_fault e) (up_new_id e) (up_db_now e) (subject b)
      (courseCode b) (examYear b) (examName b) (category b)
      (getPublicUrl (upload_path e f)) user_id (fst stored) in
  snd stored = Ok tt ->
  snd inserted = Ok newPaper ->
  select_user_by_id (up_select_fault e) user_id (fst inserted) = Failed ->
  run (upload e user_id b (Some f)) d =
    (fst inserted, res_json (responsePaper newPaper))
  /\ users (fst inserted) = users d
  /\ papers (fst inserted) = (papers d ++ [newPaper])%list
  /\ status (snd (run (upload e user_id b (Some f)) d)) = 200
  /\ exists record,
       payload (snd (run (upload e user_id b (Some f)) d)) = Json record
       /\ prop "_id" record = Some (JStr (up_new_id e))
       /\ prop "id" record = Some (JStr (up_new_id e))
       /\ prop "subject" record = Some (JStr (subject b))
       /\ prop "courseCode" record = Some (JStr (courseCode b))
       /\ prop "examYear" record = Some (JStr (examYear b))
       /\ prop "examName" record = Some (JStr (examName b))
       /\ prop "category" record = Some (JStr (category b))
       /\ prop "filePath" record = Some (JStr (getPublicUrl (upload_path e f)))
       /\ prop "uploader" record = Some (JStr user_id).
Proof.
  intros stored inserted Es Ei Hsel.
  assert (Hrun : run (upload e user_id b (Some f)) d =
                 (fst inserted, res_json (responsePaper newPaper))).
  { rewrite upload_cases. fold stored. cbv zeta. fold inserted.
    rewrite Es, Ei. rewrite (award_skipped _ _ _ _ Hsel). reflexivity. }
  pose proof (storage_upload_tables (up_storage_fault e) (upload_path e f)
                (buffer f) d) as [Husers Hpapers].
  fold stored in Husers, Hpapers.
  split; [exact Hrun |]. split; [| split; [| split]].
  - unfold inserted. rewrite insert_paper_users. exact Husers.
  - unfold inserted in Ei |- *. rewrite (insert_paper_ok _ _ _ _ _ _ _ _ _ _ _ _ Ei).
    rewrite Hpapers. reflexivity.
  - rewrite Hrun. reflexivity.
  - rewrite Hrun. cbn [snd]. exists (responsePaper newPaper).
    unfold inserted in Ei.
    destruct (insert_paper_row _ _ _ _ _ _ _ _ _ _ _ _ Ei) as [Hrow _].
    rewrite Hrow. repeat split; reflexivity.
Qed.

End UploadClaims.

Section UploadRuns.
Import Js Store Express Ledger Papers.
#[local] Existing Instance Demo.platform.

Lemma upload_metadata_failure_witness :
  snd (run (upload (Demo.upload_world false) "ghost" Demo.a_paper (Some Demo.a_file))
         Demo.alice_db)
    = res_status_send 500 "Error saving paper metadata"
  /\ papers (fst (run (upload (Demo.upload_world false) "ghost" Demo.a_paper
                         (Some Demo.a_file)) Demo.alice_db)) = []
  /\ users (fst (run (upload (Demo.upload_world false) "ghost" Demo.a_paper
                        (Some Demo.a_file)) Demo.alice_db)) = [Demo.alice]
  /\ bucket (fst (run (upload (Demo.upload_world false) "ghost" Demo.a_paper
                         (Some Demo.a_file)) Demo.alice_db))
     = [("1700000000000.pdf", "%PDF")].
Proof.
  pose proof (upload_metadata_failure (Demo.upload_world false) "ghost"
                Demo.a_paper Demo.a_file Demo.alice_db) as Hw.
  cbv zeta in Hw. destruct Hw as [_ Hw].
  apply Hw; reflexivity.
Defined.

Lemma upload_award_skipped_witness :
  run (upload (Demo.upload_world true) "u1" Demo.a_paper (Some Demo.a_file))
    Demo.alice_db
  = (Demo.after_upload, res_json (responsePaper Demo.uploaded))
  /\ users Demo.after_upload = users Demo.alice_db
  /\ papers Demo.after_upload = (papers Demo.alice_db ++ [Demo.uploaded])%list
  /\ status (snd (run (upload (Demo.upload_world true) "u1" Demo.a_paper
                         (Some Demo.a_file)) Demo.alice_db)) = 200
  /\ exists record,
       payload (snd (run (upload (Demo.upload_world true) "u1" Demo.a_paper
                           (Some Demo.a_file)) Demo.alice_db)) = Json record
       /\ prop "_id" record = Some (JStr "p9")
       /\ prop "id" record = Some (JStr "p9")
       /\ prop "subject" record = Some (JStr "Algorithms")
       /\ prop "courseCode" record = Some (JStr "CSE2003")
       /\ prop "examYear" record = Some (JStr "2024")
       /\ prop "examName" record = Some (JStr "FAT")
       /\ prop "category" record = Some (JStr "Computer Science")
       /\ prop "filePath" record
          = Some (JStr "https://storage/papers/1700000000000.pdf")
       /\ prop "uploader" record = Some (JStr "u1").
Proof.
  exact (upload_award_skipped (Demo.upload_world true) "u1" Demo.a_paper
           Demo.a_file Demo.alice_db Demo.uploaded eq_refl eq_refl eq_refl).
Defined.

End UploadRuns.

(** ** Levels *)

Section LevelFacts.
Import Js Store Express Ledger Papers.

Ltac thresholds :=
  repeat match goal with
         | |- context [?a >=? ?b] => destruct (Z.geb_spec a b)
         | |- context [?a <? ?b] => destruct (Z.ltb_spec a b)
         | |- context [?a <=? ?b] => destruct (Z.leb_spec a b)
         end; try lia; try reflexivity.

(** From 1000 points on the cascade is the level table; below, the
    stored level stays. *)
Lemma newLevel_cases total level :
  newLevel total level =
  if 1000 <=? total then Some (level_of_total total) else level.
Proof. unfold newLevel, level_of_total. thresholds. Qed.

Lemma updateLevel_cases u :
  updateLevel u =
  mkCurrent (cu_points u)
    (if 1000 <=? cu_points u then level_of_total (cu_points u) else cu_level u).
Proof. unfold updateLevel, level_of_total. destruct u as [p l]. cbn. thresholds. Qed.

Lemma level_of_total_mono p q :
  p <= q -> (level_rank (level_of_total p) <= level_rank (level_of_total q))%nat.
Proof.
  intros Hpq. unfold level_of_total.
  destruct (Z.ltb_spec p 2000), (Z.ltb_spec q 2000); try lia; cbn; try lia;
  destruct (Z.ltb_spec p 3000), (Z.ltb_spec q 3000); try lia; cbn; try lia;
  destruct (Z.ltb_spec p 4000), (Z.ltb_spec q 4000); try lia; cbn; lia.
Qed.

Lemma level_of_total_one_of total :
  In (level_of_total total) ["Silver"; "Gold"; "Diamond"; "Legendary"].
Proof. unfold level_of_total. thresholds; cbn; auto. Qed.

(** An award keeps a row whose level agrees with its total in
    agreement. *)
Lemma award_keeps_consistent u :
  consistent u ->
  consistent (with_points_level (newPoints (u_points u))
                (newLevel (newPoints (u_points u)) (u_level u)) u).
Proof.
  unfold consistent. intros Hc. cbn [with_points_level u_level u_points or_zero].
  rewrite newLevel_cases, Hc. unfold newPoints, level_of_total. thresholds.
Qed.

(** The row a signup inserts has the level of its total. *)
Lemma insert_user_consistent fault id now fn ln em ph pw d d' newUser :
  insert_user fault id now fn ln em ph pw d = (d', Ok newUser) ->
  consistent newUser.
Proof.
  intros Hins. destruct (insert_user_ok _ _ _ _ _ _ _ _ _ _ _ Hins) as (-> & _).
  reflexivity.
Qed.

(** C2, as the code has it. After an award that the store accepts, the
    stored total is the old one plus 50 and the stored level is the
    level of the table (Silver below 2000, Gold from 2000, Diamond from
    3000, Legendary from 4000) if the new total is at least 1000, and
    the previously stored level otherwise. A row whose level agreed
    with its total before the award, as the row of a signup does, agrees
    after it. The table gives every total one of the four levels and
    never a lower level for a higher total. The browser's [updateLevel]
    follows the same rule. *)
Theorem award_level_from_total (fault : bool) (id : uuid) (d : db)
    (user : user_row) (cu : currentUser) :
  select_user_by_id fault id d = Ok user ->
  in_int4 (newPoints (u_points user)) = true ->
  let total := newPoints (u_points user) in
  exists user',
    select_user_by_id false id (fst (award fault false id d)) = Ok user' /\
    u_points user' = Some total /\
    u_level user' =
      (if 1000 <=? total then Some (level_of_total total) else u_level user) /\
    (consistent user -> consistent user') /\
    In (level_of_total total) ["Silver"; "Gold"; "Diamond"; "Legendary"] /\
    (forall more, total <= more ->
       (level_rank (level_of_total total) <= level_rank (level_of_total more))%nat) /\
    cu_level (client_award cu) =
      (if 1000 <=? cu_points cu + 50 then level_of_total (cu_points cu + 50)
       else cu_level cu).
Proof.
  intros Hsel Hrange total.
  exists (with_points_level total (newLevel total (u_level user)) user).
  rewrite (award_found _ _ _ _ _ Hsel).
  rewrite (select_after_update _ _ _ _ _ (select_fault_free _ _ _ _ Hsel) Hrange).
  split; [reflexivity |]. split; [reflexivity |].
  split; [apply newLevel_cases |].
  split; [apply award_keeps_consistent |].
  split; [apply level_of_total_one_of |].
  split; [intros more; apply level_of_total_mono |].
  unfold client_award. rewrite updateLevel_cases. reflexivity.
Qed.

Lemma award_level_from_total_witness :
  exists user',
    select_user_by_id false "u1" (fst (award false false "u1" Demo.alice_db))
      = Ok user' /\
    u_points user' = Some 50 /\
    u_level user' = Some "Silver" /\
    (consistent Demo.alice -> consistent user') /\
    In "Silver" ["Silver"; "Gold"; "Diamond"; "Legendary"] /\
    (forall more, 50 <= more ->
       (level_rank "Silver" <= level_rank (level_of_total more))%nat) /\
    cu_level (client_award (mkCurrent 1950 "Silver")) = "Gold".
Proof.
  exact (award_level_from_total false "u1" Demo.alice_db Demo.alice
           (mkCurrent 1950 "Silver") eq_refl eq_refl).
Defined.

(** C2, as stated, fails: two awards that end on the same total, 50,
    store different levels, Gold for the row whose level was Gold and
    Silver for the row whose level was Silver, while the table gives
    Silver. *)
Lemma level_kept_below_1000 :
  map (fun u => (u_points u, u_level u))
      (users (fst (award false false "u1" Demo.gilded_db)))
    = [(Some 50, Some "Gold")]
  /\ map (fun u => (u_points u, u_level u))
       (users (fst (award false false "u1" Demo.alice_db)))
    = [(Some 50, Some "Silver")]
  /\ level_of_total 50 = "Silver".
Proof. repeat split; reflexivity. Qed.

End LevelFacts.

(** ** Interleaved award steps *)

Section Interleaving.
Import Js Store Ledger Concurrent.

Lemma finished_count_cons t tasks :
  finished_count (t :: tasks) = done_bit t + finished_count tasks.
Proof.
  unfold finished_count, done_bit. cbn.
  destruct (is_finished t); cbn [List.length]; lia.
Qed.

Lemma finished_count_bounds tasks :
  0 <= finished_count tasks <= Z.of_nat (List.length tasks).
Proof.
  induction tasks as [| t tasks IH]; [cbn; lia |].
  rewrite finished_count_cons. cbn [List.length]. unfold done_bit.
  destruct (is_finished t); lia.
Qed.

Lemma finished_count_set_nth i t t' tasks :
  nth_error tasks i = Some t ->
  finished_count (set_nth i t' tasks) = finished_count tasks - done_bit t + done_bit t'.
Proof.
  revert i. induction tasks as [| a tasks IH]; intros [| i] Hn; try discriminate.
  - cbn in Hn. inversion Hn; subst. cbn [set_nth].
    rewrite !finished_count_cons. lia.
  - cbn in Hn. cbn [set_nth]. rewrite !finished_count_cons, (IH i Hn). lia.
Qed.

(** A request that is not done leaves room among the finished ones. *)
Lemma finished_count_room i t tasks :
  nth_error tasks i = Some t -> is_finished t = false ->
  finished_count tasks + 1 <= Z.of_nat (List.length tasks).
Proof.
  revert i. induction tasks as [| a tasks IH]; intros [| i] Hn Ht; try discriminate.
  - cbn in Hn. inversion Hn; subst. rewrite finished_count_cons. unfold done_bit.
    rewrite Ht. pose proof (finished_count_bounds tasks). cbn [List.length]. lia.
  - cbn in Hn. rewrite finished_count_cons. specialize (IH i Hn Ht).
    unfold done_bit. cbn [List.length]. destruct (is_finished a); lia.
Qed.

Lemma length_set_nth {A} i (x : A) l : List.length (set_nth i x l) = List.length l.
Proof.
  revert i. induction l as [| a l IH]; intros [| i]; cbn; try reflexivity.
  rewrite IH. reflexivity.
Qed.

Lemma In_set_nth {A} i (x y : A) l : In y (set_nth i x l) -> y = x \/ In y l.
Proof.
  revert i. induction l as [| a l IH]; intros [| i]; cbn; try tauto.
  - intros [-> | Hy]; auto.
  - intros [-> | Hy]; auto. destruct (IH i Hy); auto.
Qed.

Lemma set_nth_middle {A} (l : list A) x a r :
  set_nth (List.length l) x (l ++ a :: r)%list = (l ++ x :: r)%list.
Proof. induction l as [| b l IH]; cbn; [reflexivity | rewrite IH; reflexivity]. Qed.

Lemma nth_error_middle {A} (l : list A) a r :
  nth_error (l ++ a :: r)%list (List.length l) = Some a.
Proof. induction l as [| b l IH]; cbn; [reflexivity | exact IH]. Qed.

Lemma all_finished_count tasks :
  all_finished tasks = true -> finished_count tasks = Z.of_nat (List.length tasks).
Proof.
  induction tasks as [| t tasks IH]; [reflexivity |].
  unfold all_finished. cbn [forallb]. intros Hall.
  apply andb_true_iff in Hall. destruct Hall as [Ht Hrest].
  rewrite finished_count_cons. unfold done_bit. rewrite Ht.
  unfold all_finished in IH. rewrite (IH Hrest). cbn [List.length]. lia.
Qed.

Variable user_id : uuid.
Variable base : Z.
Variable n : nat.
Hypothesis base_low : int4_min <= base + 50.
Hypothesis base_high : base + 50 * Z.of_nat n <= int4_max.

Lemma in_int4_between p j :
  p = base + 50 * j -> 1 <= j <= Z.of_nat n -> in_int4 p = true.
Proof.
  intros -> Hj. unfold in_int4. apply andb_true_iff.
  split; apply Z.leb_le; nia.
Qed.

(** One turn of one request keeps the invariant. *)
Lemma step_keeps_inv d tasks i t :
  ledger_inv user_id base n d tasks -> nth_error tasks i = Some t ->
  ledger_inv user_id base n (fst (step user_id t d))
    (set_nth i (snd (step user_id t d)) tasks).
Proof.
  intros (Hlen & (user & j & Hsel & Hpts & Hj & Hj1) & Hheld) Hnth.
  pose proof (finished_count_set_nth i t (snd (step user_id t d)) tasks Hnth) as Hcount.
  destruct t as [| points level |].
  - (* the read *)
    cbn [step]. rewrite Hsel. cbn [fst snd]. cbn [step] in Hcount.
    rewrite Hsel in Hcount. unfold done_bit in Hcount. cbn in Hcount.
    split; [rewrite length_set_nth; exact Hlen |]. split.
    + exists user, j. rewrite Hcount. repeat split; try assumption; lia.
    + intros p l Hin. rewrite Hcount. apply In_set_nth in Hin.
      destruct Hin as [Heq | Hin].
      * inversion Heq; subst. exists (j + 1). unfold newPoints. split; lia.
      * destruct (Hheld p l Hin) as (j' & Hp & Hj'). exists j'. split; lia.
  - (* the write *)
    assert (Hroom : finished_count tasks + 1 <= Z.of_nat n).
    { rewrite <- Hlen. apply (finished_count_room i _ tasks Hnth). reflexivity. }
    destruct (Hheld points level (nth_error_In _ _ Hnth)) as (j' & Hp & Hj').
    assert (Hrange : in_int4 points = true)
      by (apply (in_int4_between points j' Hp); lia).
    cbn [step fst snd]. cbn [step snd] in Hcount.
    unfold done_bit in Hcount. cbn in Hcount.
    split; [rewrite length_set_nth; exact Hlen |]. split.
    + exists (with_points_level points level user), j'.
      rewrite (select_after_update _ _ _ _ _ Hsel Hrange), Hcount.
      cbn [with_points_level u_points or_zero].
      repeat split; try assumption; lia.
    + intros p l Hin. rewrite Hcount. apply In_set_nth in Hin.
      destruct Hin as [Heq | Hin]; [discriminate |].
      destruct (Hheld p l Hin) as (j'' & Hp' & Hj''). exists j''. split; lia.
  - (* nothing left to do *)
    cbn [step fst snd]. cbn [step snd] in Hcount.
    unfold done_bit in Hcount. cbn in Hcount.
    split; [rewrite length_set_nth; exact Hlen |]. split.
    + exists user, j. rewrite Hcount. repeat split; try assumption; lia.
    + intros p l Hin. rewrite Hcount. apply In_set_nth in Hin.
      destruct Hin as [Heq | Hin]; [discriminate |].
      destruct (Hheld p l Hin) as (j'' & Hp' & Hj''). exists j''. split; lia.
Qed.

Lemma run_keeps_inv schedule : forall d tasks,
  ledger_inv user_id base n d tasks ->
  ledger_inv user_id base n (fst (run_schedule user_id schedule tasks d))
    (snd (run_schedule user_id schedule tasks d)).
Proof.
  induction schedule as [| i rest IH]; intros d tasks Hinv; [exact Hinv |].
  cbn [run_schedule]. destruct (nth_error tasks i) as [t |] eqn:Hnth.
  - pose proof (step_keeps_inv d tasks i t Hinv Hnth) as Hstep.
    destruct (step user_id t d) as [d' t']. apply IH. exact Hstep.
  - apply IH. exact Hinv.
Qed.

End Interleaving.

Section Awards.
Import Js Store Ledger Concurrent.

Lemma fresh_tasks_inv user_id n d user :
  select_user_by_id false user_id d = Ok user ->
  ledger_inv user_id (or_zero (u_points user)) n d (fresh_tasks n).
Proof.
  intros Hsel. unfold ledger_inv, fresh_tasks.
  assert (Hzero : finished_count (repeat AwaitingSelect n) = 0).
  { induction n as [| k IH]; [reflexivity |].
    cbn [repeat]. rewrite finished_count_cons, IH. reflexivity. }
  split; [apply repeat_length |]. split.
  - exists user, 0. rewrite Hzero. repeat split; try assumption; lia.
  - intros p l Hin. apply repeat_spec in Hin. discriminate.
Qed.

(** Without interleaving every request adds its 50 points. *)
Lemma serial_run user_id m : forall k d user,
  select_user_by_id false user_id d = Ok user ->
  int4_min <= or_zero (u_points user) + 50 ->
  or_zero (u_points user) + 50 * Z.of_nat m <= int4_max ->
  let final := run_schedule user_id (flat_map (fun i => [i; i]) (seq k m))
                 (repeat Finished k ++ repeat AwaitingSelect m)%list d in
  snd final = repeat Finished (k + m) /\
  points_of user_id (fst final) = Some (or_zero (u_points user) + 50 * Z.of_nat m).
Proof.
  induction m as [| m IH]; intros k d user Hsel Hlow Hhigh.
  - cbn. rewrite app_nil_r, Nat.add_0_r. split; [reflexivity |].
    unfold points_of. rewrite Hsel. f_equal. lia.
  - cbn [seq flat_map app repeat run_schedule].
    pose proof (nth_error_middle (repeat Finished k) AwaitingSelect
                  (repeat AwaitingSelect m)) as Hnth.
    rewrite repeat_length in Hnth. rewrite Hnth.
    cbn [step]. rewrite Hsel.
    pose proof (set_nth_middle (repeat Finished k)
                  (AwaitingUpdate (newPoints (u_points user))
                     (newLevel (newPoints (u_points user)) (u_level user)))
                  AwaitingSelect (repeat AwaitingSelect m)) as Hset.
    rewrite repeat_length in Hset. rewrite Hset. clear Hset Hnth.
    pose proof (nth_error_middle (repeat Finished k)
                  (AwaitingUpdate (newPoints (u_points user))
                     (newLevel (newPoints (u_points user)) (u_level user)))
                  (repeat AwaitingSelect m)) as Hnth.
    rewrite repeat_length in Hnth. rewrite Hnth.
    cbn [step].
    pose proof (set_nth_middle (repeat Finished k) Finished
                  (AwaitingUpdate (newPoints (u_points user))
                     (newLevel (newPoints (u_points user)) (u_level user)))
                  (repeat AwaitingSelect m)) as Hset.
    rewrite repeat_length in Hset. rewrite Hset. clear Hset Hnth.
    assert (Hrange : in_int4 (newPoints (u_points user)) = true).
    { unfold in_int4, newPoints. apply andb_true_iff.
      split; apply Z.leb_le; lia. }
    pose proof (select_after_update user_id _
                  (newLevel (newPoints (u_points user)) (u_level user)) d user
                  Hsel Hrange) as Hsel'.
    replace (repeat Finished k ++ Finished :: repeat AwaitingSelect m)%list
      with (repeat Finished (S k) ++ repeat AwaitingSelect m)%list
      by (change (repeat Finished (S k)) with (Finished :: repeat Finished k);
          rewrite repeat_cons, <- app_assoc; reflexivity).
    specialize (IH (S k) _ _ Hsel').
    cbn [with_points_level u_points or_zero] in IH. unfold newPoints in IH.
    destruct IH as [Htasks Hpts]; try lia.
    cbv zeta. unfold newPoints. split.
    + rewrite Htasks. f_equal. lia.
    + rewrite Hpts. f_equal. lia.
Qed.

(** C1, as the code has it. Let [n >= 1] requests run the award step
    for the same user, whose totals stay within the range of the points
    column. Under every schedule that lets all of them finish, the
    stored total grows by [50 * k] for some [1 <= k <= n]; under the
    schedule that runs them one after the other it grows by exactly
    [50 * n]. *)
Theorem awards_under_interleaving (user_id : uuid) (d : db) (user : user_row)
    (n : nat) :
  select_user_by_id false user_id d = Ok user ->
  int4_min <= or_zero (u_points user) + 50 ->
  or_zero (u_points user) + 50 * Z.of_nat n <= int4_max ->
  (1 <= n)%nat ->
  (forall schedule,
     all_finished (snd (run_schedule user_id schedule (fresh_tasks n) d)) = true ->
     exists k, 1 <= k <= Z.of_nat n /\
       points_of user_id (fst (run_schedule user_id schedule (fresh_tasks n) d))
       = Some (or_zero (u_points user) + 50 * k))
  /\ all_finished (snd (run_schedule user_id (serial n) (fresh_tasks n) d)) = true
  /\ points_of user_id (fst (run_schedule user_id (serial n) (fresh_tasks n) d))
     = Some (or_zero (u_points user) + 50 * Z.of_nat n).
Proof.
  intros Hsel Hlow Hhigh Hn. split.
  - intros schedule Hall.
    pose proof (run_keeps_inv user_id (or_zero (u_points user)) n Hlow Hhigh
                  schedule d (fresh_tasks n) (fresh_tasks_inv user_id n d user Hsel))
      as (Hlen & (user' & j & Hsel' & Hpts & Hj & Hj1) & _).
    apply all_finished_count in Hall. rewrite Hlen in Hall.
    exists j. split; [lia |].
    unfold points_of. rewrite Hsel', Hpts. reflexivity.
  - pose proof (serial_run user_id n 0 d user Hsel Hlow Hhigh) as Hserial.
    cbv zeta in Hserial. cbn [repeat app] in Hserial.
    unfold serial, fresh_tasks. destruct Hserial as [Htasks Hpts].
    split; [| exact Hpts].
    rewrite Htasks. cbn [Nat.add]. unfold all_finished.
    apply forallb_forall. intros t Ht. apply repeat_spec in Ht. subst t. reflexivity.
Qed.

Lemma awards_under_interleaving_witness :
  (forall schedule,
     all_finished (snd (run_schedule "u1" schedule (fresh_tasks 2) Demo.alice_db))
       = true ->
     exists k, 1 <= k <= 2 /\
       points_of "u1" (fst (run_schedule "u1" schedule (fresh_tasks 2) Demo.alice_db))
       = Some (0 + 50 * k))
  /\ all_finished (snd (run_schedule "u1" (serial 2) (fresh_tasks 2) Demo.alice_db))
     = true
  /\ points_of "u1" (fst (run_schedule "u1" (serial 2) (fresh_tasks 2) Demo.alice_db))
     = Some (0 + 50 * 2).
Proof.
  apply (awards_under_interleaving "u1" Demo.alice_db Demo.alice 2).
  - reflexivity.
  - unfold int4_min. cbn. lia.
  - unfold int4_max. cbn. lia.
  - lia.
Defined.

(** C1, as stated, fails for two requests: when both read before either
    writes, both finish and the total has grown from 0 to 50, not to
    100. *)
Lemma two_awards_one_lost :
  points_of "u1" Demo.alice_db = Some 0
  /\ all_finished
       (snd (run_schedule "u1" [0; 1; 0; 1]%nat (fresh_tasks 2) Demo.alice_db))
     = true
  /\ points_of "u1"
       (fst (run_schedule "u1" [0; 1; 0; 1]%nat (fresh_tasks 2) Demo.alice_db))
     = Some 50.
Proof. repeat split; reflexivity. Qed.

End Awards.

(** ** Patterns and the search filter *)

Section PatternFacts.
Import Pattern.

Lemma string_app_assoc (a b c : string) : (a ++ b) ++ c = a ++ b ++ c.
Proof. induction a as [| x a IH]; [reflexivity |]. cbn. rewrite IH. reflexivity. Qed.

Lemma mem_char_app c a b : mem_char c (a ++ b) = mem_char c a || mem_char c b.
Proof.
  induction a as [| d a IH]; [reflexivity |].
  cbn. rewrite IH. apply orb_assoc.
Qed.

(** A plain query holds none of the special characters. *)
Lemma plain_mem_char c q :
  plain q = true -> mem_char c special_chars = true -> mem_char c q = false.
Proof.
  intros Hq Hc. induction q as [| d q IH]; [reflexivity |].
  cbn [plain] in Hq. apply andb_true_iff in Hq. destruct Hq as [Hd Hq].
  cbn [mem_char]. rewrite (IH Hq), orb_false_r.
  destruct (Ascii.eqb_spec c d) as [-> | Hne]; [| reflexivity].
  rewrite Hc in Hd. discriminate.
Qed.

Lemma star_to_percent_plain q : mem_char "*" q = false -> star_to_percent q = q.
Proof.
  induction q as [| d q IH]; [reflexivity |].
  cbn [mem_char star_to_percent]. intros Hq. apply orb_false_iff in Hq.
  destruct Hq as [Hd Hq]. rewrite Ascii.eqb_sym in Hd.
  rewrite Hd, (IH Hq). reflexivity.
Qed.

Lemma ilike_percent_step pat s :
  ilike (String "%" pat) s =
  ilike pat s || match s with
                 | EmptyString => false
                 | String _ s' => ilike (String "%" pat) s'
                 end.
Proof. destruct s; reflexivity. Qed.

Lemma ilike_percent_all s : ilike "%" s = true.
Proof.
  induction s as [| d s IH]; [reflexivity |].
  rewrite ilike_percent_step, IH. apply orb_true_r.
Qed.

Lemma ilike_literal_step c pat s :
  mem_char c special_chars = false ->
  ilike (String c pat) s =
  match s with
  | EmptyString => false
  | String d s' => eqb_ci c d && ilike pat s'
  end.
Proof.
  intros Hc. unfold special_chars in Hc. cbn [append mem_char] in Hc.
  repeat (apply orb_false_iff in Hc; destruct Hc as [? Hc]).
  cbn [ilike].
  repeat match goal with
         | E : Ascii.eqb c _ = false |- _ => rewrite E; clear E
         end.
  reflexivity.
Qed.

(** A plain query followed by [%] matches the strings it is a prefix of. *)
Lemma ilike_plain_prefix q : forall s,
  plain q = true -> ilike (q ++ "%") s = prefix_ci q s.
Proof.
  induction q as [| c q IH]; intros s Hq.
  - cbn [append]. rewrite ilike_percent_all. destruct s; reflexivity.
  - cbn [plain] in Hq. apply andb_true_iff in Hq. destruct Hq as [Hc Hq].
    apply negb_true_iff in Hc.
    cbn [append]. rewrite (ilike_literal_step _ _ _ Hc).
    destruct s as [| d s]; [reflexivity |].
    cbn [prefix_ci]. rewrite (IH s Hq). reflexivity.
Qed.

(** Between two [%] a plain query matches the strings that contain it. *)
Lemma ilike_plain_contains q s :
  plain q = true -> ilike (String "%" (q ++ "%")) s = contains_ci q s.
Proof.
  intros Hq. induction s as [| d s IH].
  - rewrite ilike_percent_step, (ilike_plain_prefix q _ Hq). reflexivity.
  - rewrite ilike_percent_step, (ilike_plain_prefix q _ Hq), IH. reflexivity.
Qed.

Lemma prefix_ci_spec q s :
  prefix_ci q s = true <-> exists rest, lower_string s = lower_string q ++ rest.
Proof.
  revert s. induction q as [| c q IH]; intros s.
  - cbn. split; [intros _; exists (lower_string s); reflexivity | reflexivity].
  - destruct s as [| d s]; cbn.
    + split; [discriminate | intros [rest Hr]; discriminate].
    + rewrite andb_true_iff, IH. unfold eqb_ci. split.
      * intros [Hcd [rest Hr]]. apply Ascii.eqb_eq in Hcd.
        exists rest. rewrite Hcd, Hr. reflexivity.
      * intros [rest Hr]. injection Hr as Hcd Hs.
        split; [apply Ascii.eqb_eq; symmetry; exact Hcd | exists rest; exact Hs].
Qed.

(** [contains_ci] is containment of the case-folded strings. *)
Lemma contains_ci_spec q s :
  contains_ci q s = true <->
  exists before after, lower_string s = before ++ lower_string q ++ after.
Proof.
  induction s as [| d s IH].
  - cbn [contains_ci]. rewrite orb_false_r, prefix_ci_spec. split.
    + intros [rest Hr]. exists EmptyString, rest. exact Hr.
    + intros (before & after & Hr). destruct before; cbn in Hr.
      * exists after. exact Hr.
      * discriminate.
  - cbn [contains_ci]. rewrite orb_true_iff, prefix_ci_spec, IH. split.
    + intros [[rest Hr] | (before & after & Hr)].
      * exists EmptyString, rest. exact Hr.
      * exists (String (lower d) before), after. cbn. rewrite Hr. reflexivity.
    + intros (before & after & Hr). destruct before as [| b before].
      * left. exists after. exact Hr.
      * right. cbn in Hr. injection Hr as Hb Hs. exists before, after. exact Hs.
Qed.

End PatternFacts.

(** ** Search *)

Section FilterFacts.
Import Js Store Express Pattern Filter Papers.

Lemma split_on_whole sep a : mem_char sep a = false -> split_on sep a = [a].
Proof.
  induction a as [| c a IH]; [reflexivity |].
  cbn [mem_char split_on]. intros Ha. apply orb_false_iff in Ha.
  destruct Ha as [Hc Ha]. rewrite Ascii.eqb_sym in Hc.
  rewrite Hc, (IH Ha). reflexivity.
Qed.

Lemma split_on_first sep a b :
  mem_char sep a = false ->
  split_on sep (a ++ String sep b) = a :: split_on sep b.
Proof.
  induction a as [| c a IH].
  - intros _. cbn. rewrite Ascii.eqb_refl. reflexivity.
  - cbn [mem_char split_on append]. intros Ha. apply orb_false_iff in Ha.
    destruct Ha as [Hc Ha]. rewrite Ascii.eqb_sym in Hc.
    rewrite Hc, (IH Ha). reflexivity.
Qed.

Lemma or_filter_pieces q :
  or_filter q =
  ("subject.ilike." ++ around q) ++ String ","
    (("course_code.ilike." ++ around q) ++ String ","
       ("exam_name.ilike." ++ around q)).
Proof.
  unfold or_filter, around. cbn [append].
  rewrite !string_app_assoc. cbn [append]. reflexivity.
Qed.

Lemma mem_char_around c q :
  mem_char c special_chars = true -> c <> "%"%char -> plain q = true ->
  mem_char c (around q) = false.
Proof.
  intros Hc Hne Hq. unfold around. cbn [mem_char].
  rewrite mem_char_app, (plain_mem_char c q Hq Hc). cbn [mem_char].
  destruct (Ascii.eqb_spec c "%"); [contradiction | reflexivity].
Qed.

Lemma around_plain q : plain q = true -> star_to_percent (around q) = around q.
Proof.
  intros Hq. apply star_to_percent_plain.
  apply mem_char_around; [reflexivity | discriminate | exact Hq].
Qed.

Lemma piece_free c lit q :
  mem_char c special_chars = true -> c <> "%"%char -> plain q = true ->
  mem_char c lit = false -> mem_char c (lit ++ around q) = false.
Proof.
  intros Hc Hne Hq Hlit.
  rewrite mem_char_app, Hlit, (mem_char_around c q Hc Hne Hq). reflexivity.
Qed.

Lemma or_filter_free c q :
  mem_char c special_chars = true -> c <> "%"%char -> c <> ","%char ->
  plain q = true ->
  mem_char c "subject.ilike." = false ->
  mem_char c "course_code.ilike." = false ->
  mem_char c "exam_name.ilike." = false ->
  mem_char c (or_filter q) = false.
Proof.
  intros Hc Hne Hcomma Hq H1 H2 H3.
  assert (Hsep : Ascii.eqb c "," = false) by (apply Ascii.eqb_neq; exact Hcomma).
  rewrite or_filter_pieces.
  rewrite mem_char_app, (piece_free c _ q Hc Hne Hq H1).
  cbn [mem_char orb]. rewrite Hsep. cbn [orb].
  rewrite mem_char_app, (piece_free c _ q Hc Hne Hq H2).
  cbn [mem_char orb]. rewrite Hsep. cbn [orb].
  apply (piece_free c _ q Hc Hne Hq H3).
Qed.

(** The conditions PostgREST reads from the filter of a plain query. *)
Lemma parse_or_plain q :
  plain q = true ->
  parse_or (or_filter q) =
  Some [(fun p => ilike (star_to_percent (around q)) (p_subject p));
        (fun p => ilike (star_to_percent (around q)) (p_course_code p));
        (fun p => ilike (star_to_percent (around q)) (p_exam_name p))].
Proof.
  intros Hq. unfold parse_or.
  rewrite !(or_filter_free _ q) by (reflexivity || discriminate || exact Hq).
  cbn [orb]. rewrite or_filter_pieces.
  rewrite !split_on_first
    by (apply piece_free; reflexivity || discriminate || exact Hq).
  rewrite split_on_whole
    by (apply piece_free; reflexivity || discriminate || exact Hq).
  reflexivity.
Qed.

Lemma passes_plain q p :
  plain q = true ->
  passes [(fun p => ilike (star_to_percent (around q)) (p_subject p));
          (fun p => ilike (star_to_percent (around q)) (p_course_code p));
          (fun p => ilike (star_to_percent (around q)) (p_exam_name p))] p
  = matches_query q p.
Proof.
  intros Hq. unfold passes, matches_query. cbn [existsb].
  rewrite (around_plain q Hq). unfold around.
  rewrite !(ilike_plain_contains q _ Hq), orb_false_r, orb_assoc. reflexivity.
Qed.




(** A query with a comma is read as further conditions and refused. *)
Example search_with_comma :
  snd (run (search false (Some "a,b")) Demo.library_db)
  = res_status_send 500 "Server error".
Proof. reflexivity. Qed.

End FilterFacts.


(** ** Signup, login and profile together *)

Section AccountFacts.
Import Js Store Express Auth Profile.
Context `{Bcrypt} `{Jwt}.

Lemma filter_id_unique (us : list user_row) u :
  NoDup (map u_id us) -> In u us ->
  filter (fun v => String.eqb (u_id v) (u_id u)) us = [u].
Proof.
  induction us as [| a us IH]; intros Hnd Hin; [contradiction |].
  cbn in Hnd. inversion Hnd as [| x l Hnotin Hnd' ]; subst.
  cbn. destruct Hin as [-> | Hin].
  - rewrite String.eqb_refl. f_equal. apply filter_none.
    intros v Hv. apply String.eqb_neq. intros Heq.
    apply Hnotin. rewrite <- Heq. apply in_map. exact Hv.
  - destruct (String.eqb_spec (u_id a) (u_id u)) as [Heq | Hne].
    + exfalso. apply Hnotin. rewrite Heq. apply in_map. exact Hin.
    + apply IH; assumption.
Qed.

Lemma select_by_email_In fault em d u :
  select_user_by_email fault em d = Ok u -> In u (users d) /\ u_email u = em.
Proof.
  unfold select_user_by_email. destruct fault; [discriminate |].
  intros Hs. apply single_filter_hit in Hs. destruct Hs as [Hf He].
  assert (Hin : In u (filter (fun v => String.eqb (u_email v) em) (users d)))
    by (rewrite Hf; left; reflexivity).
  apply filter_In in Hin. split; [tauto |]. apply String.eqb_eq. exact He.
Qed.

Lemma insert_user_fresh_id fault id now fn ln em ph pw d d' newUser :
  insert_user fault id now fn ln em ph pw d = (d', Ok newUser) ->
  existsb (fun u => String.eqb (u_id u) id) (users d) = false /\
  papers d' = papers d /\ otp_codes d' = otp_codes d /\ bucket d' = bucket d.
Proof.
  unfold insert_user. destruct fault; [discriminate |].
  destruct (existsb _ (users d)) eqn:Hid; [discriminate |].
  destruct (existsb (fun u => String.eqb (u_email u) em) (users d)); [discriminate |].
  intros Heq. inversion Heq; subst. cbn. repeat split; reflexivity.
Qed.

Lemma insert_user_failed fault id now fn ln em ph pw d :
  snd (insert_user fault id now fn ln em ph pw d) = Failed ->
  fst (insert_user fault id now fn ln em ph pw d) = d.
Proof.
  unfold insert_user. destruct fault; [reflexivity |].
  destruct (existsb _ (users d)); [reflexivity |].
  destruct (existsb _ (users d)); [reflexivity | discriminate].
Qed.

(** X1. A signup either creates one user row and answers with a token for
    it, or changes nothing. With status 200 the users table has grown
    by exactly one row, which holds the submitted fields, the bcrypt
    hash in place of the password, 0 points and the level Silver, and
    the token is signed for the identifier of that row; with any other
    status the store is as before. *)
Theorem signup_all_or_nothing (e : signup_env) (b : signup_body) (d : db) :
  let d' := fst (run (signup e b) d) in
  let r := snd (run (signup e b) d) in
  (status r <> 200 -> d' = d)
  /\ (status r = 200 ->
      let newUser :=
        mkUser (su_new_id e) (firstName b) (lastName b) (email b) (phone b)
          (bcrypt_hash (password b) (su_salt e)) (Some 0) (Some "Silver")
          (Some EmptyString) (su_db_now e) in
      d' = set_users d (users d ++ [newUser])%list
      /\ token_of r = Some (jwt_sign (jwt_secret (su_JWT_SECRET e)) (su_clock e)
                              one_hour (su_new_id e))).
Proof.
  cbv zeta. split.
  - unfold run, signup, bind, await_read, await_write, reply, throw, ret.
    destruct (data_of (select_user_by_email (su_check_fault e) (email b) d));
      [reflexivity |].
    pose proof (insert_user_failed (su_insert_fault e) (su_new_id e) (su_db_now e)
                  (firstName b) (lastName b) (email b) (phone b)
                  (bcrypt_hash (password b) (su_salt e)) d) as Hfail.
    destruct (insert_user _ _ _ _ _ _ _ _ d) as [d' [newUser |]].
    + cbn. intros Hne. contradiction Hne. reflexivity.
    + intros _. apply Hfail. reflexivity.
  - intros Hok. destruct (signup_ok_inv e b d Hok) as (newUser & Hins & Hresp).
    rewrite Hresp.
    destruct (insert_user_ok _ _ _ _ _ _ _ _ _ _ _ Hins) as (Hrow & Husers & _).
    destruct (insert_user_fresh_id _ _ _ _ _ _ _ _ _ _ _ Hins)
      as (_ & Hp & Ho & Hb).
    split.
    + destruct (fst (run (signup e b) d)) as [us ps os bs].
      cbn in Husers, Hp, Ho, Hb. subst. reflexivity.
    + rewrite Hrow. reflexivity.
Qed.

(** X2. A login never changes the store, and it is refused in one way only:
    when no user is stored under the email, or when the password does
    not compare with the hash of any user stored under it, the answer
    is 400 "Invalid Credentials" in both cases. *)
Theorem login_refused_alike (e : login_env) (b : login_body) (d : db) :
  fst (run (login e b) d) = d
  /\ ((forall u, In u (users d) -> u_email u = li_email b ->
         bcrypt_compare (li_password b) (u_password u) = false) ->
      snd (run (login e b) d) = res_status_json 400 (msg "Invalid Credentials")).
Proof.
  unfold run, login, bind, await_read, reply, ret. split.
  - destruct (data_of _); [| reflexivity].
    destruct (negb _); reflexivity.
  - intros Hno.
    destruct (select_user_by_email (li_select_fault e) (li_email b) d)
      as [u |] eqn:Hsel; [| reflexivity].
    destruct (select_by_email_In _ _ _ _ Hsel) as [Hin He].
    cbn [data_of]. rewrite (Hno u Hin He). reflexivity.
Qed.

(** What a login that answered 200 found. *)
Lemma login_ok_inv (e : login_env) (b : login_body) (d : db) :
  status (snd (run (login e b) d)) = 200 ->
  exists u, In u (users d) /\ u_email u = li_email b /\
    snd (run (login e b) d) =
      res_json (token_body (jwt_sign (jwt_secret (li_JWT_SECRET e)) (li_clock e)
                              one_hour (u_id u))).
Proof.
  unfold run, login, bind, await_read, reply, ret.
  destruct (select_user_by_email (li_select_fault e) (li_email b) d)
    as [u |] eqn:Hsel; [| cbn; discriminate].
  destruct (select_by_email_In _ _ _ _ Hsel) as [Hin He].
  cbn [data_of]. destruct (negb _); [cbn; discriminate |].
  intros _. exists u. repeat split; assumption.
Qed.

(** X3. The token of a successful login, sent to [/profile] before it
    expires, is answered with 200 and the record of the user stored
    under the email of the login: its fields [_id] and [id] hold that
    user's identifier, [email] the email of the login, and [firstName],
    [lastName], [phone], [points], [level] and [profilePic] what is
    stored for that user; the store is as before. User identifiers are
    taken to be unique, as the primary key makes them. *)
Theorem login_then_profile (e : login_env) (b : login_body) (d : db)
    (token : string) (clock : Z) :
  jwt_sound ->
  NoDup (map u_id (users d)) ->
  token_of (snd (run (login e b) d)) = Some token ->
  status (snd (run (login e b) d)) = 200 ->
  li_clock e <= clock < li_clock e + one_hour ->
  exists u record,
    In u (users d) /\ u_email u = li_email b /\
    run (profile (li_JWT_SECRET e) clock false (Some token)) d
    = (d, mkResponse 200 (Json record))
    /\ prop "_id" record = Some (JStr (u_id u))
    /\ prop "id" record = Some (JStr (u_id u))
    /\ prop "firstName" record = Some (JStr (u_first_name u))
    /\ prop "lastName" record = Some (JStr (u_last_name u))
    /\ prop "email" record = Some (JStr (li_email b))
    /\ prop "phone" record = Some (JStr (u_phone u))
    /\ prop "points" record = Some (jnum_opt (u_points u))
    /\ prop "level" record = Some (jstr_opt (u_level u))
    /\ prop "profilePic" record = Some (jstr_opt (u_profile_pic u)).
Proof.
  intros Hj Hids Htok Hok Hclock.
  destruct (login_ok_inv e b d Hok) as (u & Hin & He & Hresp).
  rewrite Hresp in Htok. cbn in Htok. injection Htok as <-.
  exists u, (userResponse u). split; [exact Hin |]. split; [exact He |].
  split.
  - unfold run, profile, bind, await_read, reply, ret.
    rewrite (Hj _ _ _ clock _ Hclock).
    unfold select_user_by_id. rewrite (filter_id_unique _ u Hids Hin). reflexivity.
  - rewrite <- He. repeat split; reflexivity.
Qed.

(** X4. After a password reset for a stored user, a login with the new
    password leaves the store as it is and answers 200 with a JSON body
    whose [token] field holds a token signed for that user's
    identifier. Stored emails are taken to be unique, as the schema
    makes them. *)
Theorem reset_then_login (re : OtpRoutes.reset_env) (le : login_env)
    (newPassword : string) (d : db) (u : user_row) :
  bcrypt_sound ->
  emails_unique d -> In u (users d) ->
  OtpRoutes.rp_update_fault re = false -> li_select_fault le = false ->
  let d' := fst (run (OtpRoutes.reset_password re (u_email u) newPassword) d) in
  let answer :=
    run (login le {| li_email := u_email u; li_password := newPassword |}) d' in
  let signed :=
    jwt_sign (jwt_secret (li_JWT_SECRET le)) (li_clock le) one_hour (u_id u) in
  fst answer = d'
  /\ status (snd answer) = 200
  /\ (exists body, payload (snd answer) = Json body
                   /\ prop "token" body = Some (JStr signed))
  /\ token_of (snd answer) = Some signed.
Proof.
  intros Hb Hu Hin Hrf Hlf d' answer signed.
  assert (Hd' : users d' =
                map (fun v => if String.eqb (u_email v) (u_email u)
                              then with_password
                                     (bcrypt_hash newPassword (OtpRoutes.rp_salt re)) v
                              else v) (users d)).
  { unfold d', run, OtpRoutes.reset_password, bind, await_write, reply, ret,
      update_password_by_email. rewrite Hrf. reflexivity. }
  assert (Hrun : answer = (d', res_json (token_body signed))).
  { unfold answer, run, login, bind, await_read, reply, ret.
    cbn [li_email li_password].
    unfold select_user_by_email. rewrite Hlf, Hd'.
    rewrite filter_map_commute.
    - rewrite (filter_email_unique _ u Hu Hin). cbn [map single data_of].
      rewrite String.eqb_refl. cbn [with_password u_password u_id].
      rewrite Hb. reflexivity.
    - intros x. destruct (String.eqb (u_email x) (u_email u)) eqn:E; exact E. }
  rewrite Hrun. cbn [fst snd].
  split; [reflexivity |]. split; [reflexivity |].
  split; [exists (token_body signed); split; reflexivity | reflexivity].
Qed.

End AccountFacts.

(** ** Uploads and what follows them *)

Section UploadEffects.
Import Js Store Express Ledger Papers Filter.
Context `{Platform}.

Lemma award_tables sf uf id d :
  papers (fst (award sf uf id d)) = papers d /\
  bucket (fst (award sf uf id d)) = bucket d /\
  otp_codes (fst (award sf uf id d)) = otp_codes d /\
  map u_id (users (fst (award sf uf id d))) = map u_id (users d) /\
  (forall u, In u (users (fst (award sf uf id d))) -> u_id u <> id ->
     In u (users d)).
Proof.
  unfold award, bind, await_read, await_write, ret.
  destruct (select_user_by_id sf id d) as [user |];
    [| repeat split; auto].
  unfold update_points_level_by_id.
  destruct uf; [repeat split; auto |].
  destruct (negb _); [repeat split; auto |].
  cbn [fst set_users papers bucket otp_codes users].
  repeat split; try reflexivity.
  - rewrite map_map. apply map_ext. intros u.
    destruct (String.eqb (u_id u) id); reflexivity.
  - intros u Hin Hne. apply in_map_iff in Hin. destruct Hin as (v & Hv & Hin).
    destruct (String.eqb_spec (u_id v) id) as [Heq | _].
    + subst u. cbn in Hne. contradiction.
    + subst u. exact Hin.
Qed.

(** X5. An upload that answers 200 has written exactly one blob and one
    paper row: the row holds the submitted fields, the public URL of
    the blob and the uploader's identifier; the body of the response is
    a record whose fields [_id] and [id] hold the identifier of the new
    row, [subject], [courseCode], [examYear], [examName] and [category]
    the submitted fields, [filePath] the public URL and [uploader] the
    uploader's identifier; no user row is added or removed, and the
    rows of all other users are untouched. *)
Theorem upload_accepted (e : upload_env) (user_id : uuid) (b : upload_body)
    (f : file) (d : db) :
  let d' := fst (run (upload e user_id b (Some f)) d) in
  let r := snd (run (upload e user_id b (Some f)) d) in
  status r = 200 ->
  let newPaper :=
    mkPaper (up_new_id e) (subject b) (courseCode b) (examYear b) (examName b)
      (category b) (getPublicUrl (upload_path e f)) user_id (up_db_now e) in
  r = res_json (responsePaper newPaper)
  /\ (exists record,
        payload r = Json record
        /\ prop "_id" record = Some (JStr (up_new_id e))
        /\ prop "id" record = Some (JStr (up_new_id e))
        /\ prop "subject" record = Some (JStr (subject b))
        /\ prop "courseCode" record = Some (JStr (courseCode b))
        /\ prop "examYear" record = Some (JStr (examYear b))
        /\ prop "examName" record = Some (JStr (examName b))
        /\ prop "category" record = Some (JStr (category b))
        /\ prop "filePath" record = Some (JStr (getPublicUrl (upload_path e f)))
        /\ prop "uploader" record = Some (JStr user_id))
  /\ papers d' = (papers d ++ [newPaper])%list
  /\ bucket d' = (bucket d ++ [(upload_path e f, buffer f)])%list
  /\ map u_id (users d') = map u_id (users d)
  /\ (forall u, In u (users d') -> u_id u <> user_id -> In u (users d)).
Proof.
  cbv zeta. rewrite upload_cases. cbv zeta.
  pose proof (storage_upload_tables (up_storage_fault e) (upload_path e f)
                (buffer f) d) as [Husers Hpapers].
  pose proof (storage_upload_ok (up_storage_fault e) (upload_path e f)
                (buffer f) d) as Hbucket.
  destruct (snd (storage_upload _ _ _ d)) as [[] |]; [| cbn; discriminate].
  specialize (Hbucket eq_refl).
  set (d1 := fst (storage_upload (up_storage_fault e) (upload_path e f) (buffer f) d))
    in *.
  pose proof (insert_paper_ok (up_insert_fault e) (up_new_id e) (up_db_now e)
                (subject b) (courseCode b) (examYear b) (examName b) (category b)
                (getPublicUrl (upload_path e f)) user_id d1) as Hrows.
  pose proof (insert_paper_row (up_insert_fault e) (up_new_id e) (up_db_now e)
                (subject b) (courseCode b) (examYear b) (examName b) (category b)
                (getPublicUrl (upload_path e f)) user_id d1) as Hrow.
  pose proof (insert_paper_users (up_insert_fault e) (up_new_id e) (up_db_now e)
                (subject b) (courseCode b) (examYear b) (examName b) (category b)
                (getPublicUrl (upload_path e f)) user_id d1) as Hiu.
  destruct (snd (insert_paper _ _ _ _ _ _ _ _ _ _ d1)) as [newPaper |];
    [| cbn; discriminate].
  specialize (Hrows newPaper eq_refl).
  destruct (Hrow newPaper eq_refl) as (-> & Hb2 & _).
  set (d2 := fst (insert_paper (up_insert_fault e) (up_new_id e) (up_db_now e)
                    (subject b) (courseCode b) (examYear b) (examName b)
                    (category b) (getPublicUrl (upload_path e f)) user_id d1)) in *.
  cbn [fst snd]. intros _.
  destruct (award_tables (up_select_fault e) (up_update_fault e) user_id d2)
    as (Hp & Hb & _ & Hids & Hothers).
  split; [reflexivity |].
  split; [eexists; repeat split; reflexivity |].
  split; [rewrite Hp, Hrows, Hpapers; reflexivity |].
  split; [rewrite Hb, Hb2; exact Hbucket |].
  split; [rewrite Hids, Hiu, Husers; reflexivity |].
  intros u Hin Hne. rewrite <- Husers, <- Hiu. exact (Hothers u Hin Hne).
Qed.

(** X6. After an upload whose blob was written, another upload at the same
    reading of [Date.now()] with the same file extension is refused
    with 500 "Error uploading file" and changes nothing: the name of
    the object is built from the clock and the extension alone. *)
Theorem upload_same_clock_refused (e e' : upload_env) (user_id user_id' : uuid)
    (b b' : upload_body) (f f' : file) (d : db) :
  snd (storage_upload (up_storage_fault e) (upload_path e f) (buffer f) d) = Ok tt ->
  up_date_now e' = up_date_now e ->
  path_extname (originalname f') = path_extname (originalname f) ->
  let d' := fst (run (upload e user_id b (Some f)) d) in
  run (upload e' user_id' b' (Some f')) d'
  = (d', res_status_send 500 "Error uploading file").
Proof.
  intros Hst Hnow Hext d'.
  assert (Hpath : upload_path e' f' = upload_path e f)
    by (unfold upload_path; rewrite Hnow, Hext; reflexivity).
  assert (Hin : In (upload_path e f, buffer f) (bucket d')).
  { unfold d'. rewrite upload_cases. cbv zeta. rewrite Hst.
    pose proof (storage_upload_ok _ _ _ _ Hst) as Hbucket.
    set (d1 := fst (storage_upload (up_storage_fault e) (upload_path e f)
                      (buffer f) d)) in *.
    pose proof (insert_paper_row (up_insert_fault e) (up_new_id e) (up_db_now e)
                  (subject b) (courseCode b) (examYear b) (examName b) (category b)
                  (getPublicUrl (upload_path e f)) user_id d1) as Hrow.
    pose proof (insert_paper_failed (up_insert_fault e) (up_new_id e) (up_db_now e)
                  (subject b) (courseCode b) (examYear b) (examName b) (category b)
                  (getPublicUrl (upload_path e f)) user_id d1) as Hfail.
    destruct (snd (insert_paper _ _ _ _ _ _ _ _ _ _ d1)) as [newPaper |].
    - destruct (Hrow newPaper eq_refl) as (_ & Hb2 & _). cbn [fst].
      destruct (award_tables (up_select_fault e) (up_update_fault e) user_id
                  (fst (insert_paper (up_insert_fault e) (up_new_id e)
                          (up_db_now e) (subject b) (courseCode b) (examYear b)
                          (examName b) (category b)
                          (getPublicUrl (upload_path e f)) user_id d1)))
        as (_ & Hb & _).
      rewrite Hb, Hb2, Hbucket. apply in_or_app. right. left. reflexivity.
    - cbn [fst]. rewrite (Hfail eq_refl), Hbucket.
      apply in_or_app. right. left. reflexivity. }
  rewrite upload_cases. cbv zeta. rewrite Hpath.
  unfold storage_upload.
  assert (Hex : existsb (fun o => String.eqb (fst o) (upload_path e f)) (bucket d')
                = true).
  { apply existsb_exists. exists (upload_path e f, buffer f).
    split; [exact Hin | apply String.eqb_refl]. }
  rewrite Hex. destruct (up_storage_fault e'); reflexivity.
Qed.

(** X7. In a store in which every paper refers to a stored user, as the
    foreign key demands, every search hit comes with the user whose
    identifier the paper holds: the uploader of a record is never
    null. *)
Theorem search_hits_have_uploader (condition : option string) (d : db)
    (hits : list (paper_row * option user_row)) :
  Routes.uploaders_exist d ->
  select_papers false condition d = Ok hits ->
  Forall (fun hit => exists u, snd hit = Some u /\ In u (users d)
                      /\ u_id u = p_uploader_id (fst hit)) hits.
Proof.
  intros Hfk Hsel.
  assert (Hall : forall ps, (forall p, In p ps -> In p (papers d)) ->
            Forall (fun hit => exists u, snd hit = Some u /\ In u (users d)
                                /\ u_id u = p_uploader_id (fst hit))
              (map (fun p => (p, uploader_of d p)) ps)).
  { intros ps Hps. apply Forall_forall. intros hit Hhit.
    apply in_map_iff in Hhit. destruct Hhit as (p & <- & Hp).
    specialize (Hfk p (Hps p Hp)). cbn [fst snd]. unfold uploader_of.
    destruct (find _ (users d)) as [u |] eqn:Hfind.
    - apply find_some in Hfind. destruct Hfind as [Hin Hid].
      exists u. repeat split; [exact Hin | apply String.eqb_eq; exact Hid].
    - apply existsb_exists in Hfk. destruct Hfk as (u & Hin & Hid).
      rewrite (find_none _ _ Hfind u Hin) in Hid. discriminate. }
  unfold select_papers in Hsel. destruct condition as [c |].
  - destruct (parse_or c) as [conds |]; [| discriminate].
    injection Hsel as <-. apply Hall. intros p Hp.
    apply filter_In in Hp. tauto.
  - injection Hsel as <-. apply Hall. auto.
Qed.

End UploadEffects.

Section UploadRoundTrips.
Import Js Store Express Ledger Papers Filter Pattern Profile.
Context `{Bcrypt} `{Jwt} `{Platform}.

(** What an upload that answered 200 went through. *)
Lemma upload_ok_inv (e : upload_env) (user_id : uuid) (b : upload_body)
    (f : file) (d : db) :
  status (snd (run (upload e user_id b (Some f)) d)) = 200 ->
  exists d2 newPaper,
    users d2 = users d /\
    papers d2 = (papers d ++ [newPaper])%list /\
    newPaper = mkPaper (up_new_id e) (subject b) (courseCode b) (examYear b)
                 (examName b) (category b) (getPublicUrl (upload_path e f))
                 user_id (up_db_now e) /\
    existsb (fun u => String.eqb (u_id u) user_id) (users d) = true /\
    run (upload e user_id b (Some f)) d =
      (fst (award (up_select_fault e) (up_update_fault e) user_id d2),
       res_json (responsePaper newPaper)).
Proof.
  rewrite upload_cases. cbv zeta.
  pose proof (storage_upload_tables (up_storage_fault e) (upload_path e f)
                (buffer f) d) as [Husers Hpapers].
  destruct (snd (storage_upload _ _ _ d)) as [[] |]; [| cbn; discriminate].
  set (d1 := fst (storage_upload (up_storage_fault e) (upload_path e f) (buffer f) d))
    in *.
  unfold insert_paper.
  destruct (up_insert_fault e); [cbn; discriminate |].
  destruct (existsb _ (papers d1)); [cbn; discriminate |].
  destruct (existsb (fun u => String.eqb (u_id u) user_id) (users d1)) eqn:Hfk;
    [| cbn; discriminate].
  cbn [negb fst snd]. intros _.
  eexists _, _. split; [| split; [| split; [reflexivity | split; [| reflexivity]]]].
  - cbn. exact Husers.
  - cbn. rewrite Hpapers. reflexivity.
  - rewrite <- Husers. exact Hfk.
Qed.

Lemma existsb_by_id id (us us' : list user_row) :
  map u_id us' = map u_id us ->
  existsb (fun u => String.eqb (u_id u) id) us'
  = existsb (fun u => String.eqb (u_id u) id) us.
Proof.
  revert us'. induction us as [| a us IH]; intros [| a' us'] Hmap;
    try discriminate; [reflexivity |].
  cbn in Hmap. injection Hmap as Ha Hrest.
  cbn. rewrite Ha, (IH us' Hrest). reflexivity.
Qed.

Lemma contains_ci_prefix q s : prefix_ci q s = true -> contains_ci q s = true.
Proof. intros Hp. destruct s; cbn; rewrite Hp; reflexivity. Qed.

(** The search for a plain query, run. *)
Lemma search_run_plain (d : db) (q : string) :
  q <> EmptyString -> plain q = true ->
  run (search false (Some q)) d =
    (d, res_json (JArr (map mappedPaper
           (map (fun p => (p, uploader_of d p))
              (filter (matches_query q) (papers d)))))).
Proof.
  intros Hne Hq.
  unfold run, search, bind, await_read, throw, reply, ret, select_papers.
  destruct (String.eqb_spec q EmptyString) as [Heq | _]; [contradiction |].
  rewrite (parse_or_plain q Hq).
  rewrite (filter_same _ (matches_query q)) by (intros p; apply passes_plain; exact Hq).
  reflexivity.
Qed.

(** X8. A paper that was uploaded with status 200 is found by the search
    that follows: by the empty query, and by every plain query that its
    subject, course code or exam name contains. The record found shows
    the submitted subject, course code, exam year and category, and its
    uploader is the stored user with the identifier of the request. *)
Theorem upload_then_search (e : upload_env) (user_id : uuid) (b : upload_body)
    (f : file) (d : db) (q : string) :
  status (snd (run (upload e user_id b (Some f)) d)) = 200 ->
  q = EmptyString \/
  (plain q = true /\
   (contains_ci q (subject b) || contains_ci q (courseCode b)
    || contains_ci q (examName b)) = true) ->
  let d' := fst (run (upload e user_id b (Some f)) d) in
  exists items record u,
    run (search false (Some q)) d' = (d', res_json (JArr items))
    /\ In record items
    /\ prop "subject" record = Some (JStr (subject b))
    /\ prop "courseCode" record = Some (JStr (courseCode b))
    /\ prop "examYear" record = Some (JStr (examYear b))
    /\ prop "category" record = Some (JStr (category b))
    /\ prop "uploader" record =
         Some (JObj [("firstName", JStr (u_first_name u));
                     ("lastName", JStr (u_last_name u));
                     ("profilePic", jstr_opt (u_profile_pic u))])
    /\ In u (users d') /\ u_id u = user_id.
Proof.
  intros Hok Hq d'.
  destruct (upload_ok_inv e user_id b f d Hok)
    as (d2 & newPaper & Husers & Hpapers & Hrow & Hfk & Hrun).
  subst newPaper.
  assert (Hd' : d' = fst (award (up_select_fault e) (up_update_fault e) user_id d2))
    by (unfold d'; rewrite Hrun; reflexivity).
  destruct (award_tables (up_select_fault e) (up_update_fault e) user_id d2)
    as (Hp & _ & _ & Hids & _).
  rewrite <- Hd' in Hp, Hids.
  set (newPaper := mkPaper (up_new_id e) (subject b) (courseCode b) (examYear b)
                      (examName b) (category b) (getPublicUrl (upload_path e f))
                      user_id (up_db_now e)) in *.
  assert (Hin : In newPaper (papers d')).
  { rewrite Hp, Hpapers. apply in_or_app. right. left. reflexivity. }
  assert (Hup : exists u, uploader_of d' newPaper = Some u /\ In u (users d')
                          /\ u_id u = user_id).
  { unfold uploader_of. cbn [newPaper p_uploader_id].
    destruct (find _ (users d')) as [u |] eqn:Hfind.
    - apply find_some in Hfind. destruct Hfind as [Hu Hid].
      exists u. repeat split; [exact Hu | apply String.eqb_eq; exact Hid].
    - exfalso. rewrite <- Husers in Hfk.
      rewrite <- (existsb_by_id user_id _ (users d') Hids) in Hfk.
      apply existsb_exists in Hfk. destruct Hfk as (u & Hu & Hid).
      rewrite (find_none _ _ Hfind u Hu) in Hid. discriminate. }
  destruct Hup as (u & Hup & Hu & Hid).
  exists (map mappedPaper
            (map (fun p => (p, uploader_of d' p))
               (if String.eqb q EmptyString then papers d'
                else filter (matches_query q) (papers d')))),
    (mappedPaper (newPaper, uploader_of d' newPaper)), u.
  split.
  - destruct Hq as [-> | [Hplain _]]; [reflexivity |].
    destruct (String.eqb_spec q EmptyString) as [-> | Hne]; [reflexivity |].
    apply search_run_plain; assumption.
  - split.
    + apply in_map. apply (in_map (fun p => (p, uploader_of d' p))).
      destruct (String.eqb_spec q EmptyString) as [_ | Hne]; [exact Hin |].
      destruct Hq as [Heq | [_ Hmatch]]; [contradiction |].
      apply filter_In. split; [exact Hin |].
      unfold matches_query. exact Hmatch.
    + rewrite Hup. repeat split; try reflexivity; assumption.
Qed.

(** X9. The scenario of a newcomer. A signup that answers 200, an upload
    with the token of that signup that answers 200 and whose award step
    is served by the store, and then [/profile] with the same token,
    all within the hour of the token: the profile shows the email of
    the signup, 50 points and the level Silver. *)
Theorem signup_upload_profile (e : Auth.signup_env) (b : Auth.signup_body)
    (d : db) (ue : upload_env) (ub : upload_body) (f : file)
    (token : string) (clock1 clock2 : Z) :
  jwt_sound ->
  status (snd (run (Auth.signup e b) d)) = 200 ->
  Auth.token_of (snd (run (Auth.signup e b) d)) = Some token ->
  Auth.su_clock e <= clock1 < Auth.su_clock e + one_hour ->
  Auth.su_clock e <= clock2 < Auth.su_clock e + one_hour ->
  up_select_fault ue = false -> up_update_fault ue = false ->
  let d1 := fst (run (Auth.signup e b) d) in
  let uploaded :=
    upload_route (Auth.su_JWT_SECRET e) clock1 (Some token) ue ub (Some f) d1 in
  status (snd uploaded) = 200 ->
  exists record,
    run (profile (Auth.su_JWT_SECRET e) clock2 false (Some token)) (fst uploaded)
    = (fst uploaded, res_json record)
    /\ prop "email" record = Some (JStr (Auth.email b))
    /\ prop "points" record = Some (JNum 50)
    /\ prop "level" record = Some (JStr "Silver").
Proof.
  intros Hj Hok Htok Hc1 Hc2 Hsf Huf d1 uploaded Hup.
  destruct (signup_ok_inv e b d Hok) as (newUser & Hins & Hresp).
  fold d1 in Hins. rewrite Hresp in Htok. cbn in Htok. injection Htok as <-.
  destruct (insert_user_ok _ _ _ _ _ _ _ _ _ _ _ Hins) as (Hrow & Husers & _).
  destruct (insert_user_fresh_id _ _ _ _ _ _ _ _ _ _ _ Hins) as (Hfresh & _).
  unfold uploaded, upload_route, auth in *.
  rewrite (Hj _ _ _ clock1 _ Hc1) in *.
  destruct (upload_ok_inv ue (u_id newUser) ub f d1 Hup)
    as (d2 & newPaper & Husers2 & _ & _ & _ & Hrun).
  rewrite Hrun. cbn [fst].
  assert (Hsel : select_user_by_id false (u_id newUser) d2 = Ok newUser).
  { unfold select_user_by_id. rewrite Husers2, Husers, filter_app.
    replace (u_id newUser) with (Auth.su_new_id e) by (rewrite Hrow; reflexivity).
    rewrite (existsb_false_filter _ _ Hfresh). cbn.
    rewrite Hrow at 1. cbn. rewrite String.eqb_refl. reflexivity. }
  assert (Hrange : in_int4 (newPoints (u_points newUser)) = true)
    by (rewrite Hrow; reflexivity).
  rewrite Hsf, Huf. rewrite (award_found false false _ _ _ Hsel).
  exists (userResponse
            (with_points_level (newPoints (u_points newUser))
               (newLevel (newPoints (u_points newUser)) (u_level newUser)) newUser)).
  split.
  - unfold run, profile, bind, await_read, reply, ret.
    rewrite (Hj _ _ _ clock2 _ Hc2).
    rewrite (select_after_update _ _ _ _ _ Hsel Hrange). reflexivity.
  - rewrite Hrow. repeat split; reflexivity.
Qed.

End UploadRoundTrips.

(** ** What every request keeps *)

Section Kept.
Import Js Store Express Ledger Routes.
Context `{Bcrypt} `{Jwt} `{Platform}.

Lemma upload_route_inv secret clock token e b f d :
  Papers.upload_route secret clock token e b f d = (d, snd (Papers.upload_route secret clock token e b f d))
  \/ exists user_id file,
       f = Some file /\
       fst (Papers.upload_route secret clock token e b f d)
       = fst (run (Papers.upload e user_id b (Some file)) d).
Proof.
  unfold Papers.upload_route.
  destruct (Papers.auth secret clock token) as [user_id | r]; [| left; reflexivity].
  destruct f as [file |]; [| left; reflexivity].
  right. exists user_id, file. split; reflexivity.
Qed.

(** The challenges of a store are still there after any request. *)
Lemma serves_keeps_challenges d d' :
  serves d d' -> forall o, In o (otp_codes d) -> In o (otp_codes d').
Proof.
  intros Hs o Ho. destruct Hs.
  - unfold run, Auth.signup, bind, await_read, await_write, reply, throw, ret.
    destruct (data_of _); [exact Ho |].
    unfold insert_user. destruct (Auth.su_insert_fault e); [exact Ho |].
    destruct (existsb _ (users d)); [exact Ho |].
    destruct (existsb _ (users d)); exact Ho.
  - unfold run, Auth.login, bind, await_read, reply, ret.
    destruct (data_of _); [| exact Ho]. destruct (negb _); exact Ho.
  - unfold run, Profile.profile, bind, await_read, reply, ret.
    destruct token; [| exact Ho]. destruct (jwt_verify _ _ _); [| exact Ho].
    destruct (select_user_by_id _ _ _); exact Ho.
  - unfold run, OtpRoutes.send_otp, bind, await_write, reply, ret, insert_otp.
    destruct (OtpRoutes.so_insert_fault e); [exact Ho |].
    cbn. apply in_or_app. left. exact Ho.
  - unfold run, OtpRoutes.verify_otp, bind, await_read, reply, ret.
    destruct (data_of _); exact Ho.
  - unfold run, OtpRoutes.reset_password, bind, await_write, reply, ret,
      update_password_by_email.
    destruct (OtpRoutes.rp_update_fault e); exact Ho.
  - destruct (upload_route_inv secret clock token e b f d)
      as [Hsame | (user_id & file & -> & Hrun)].
    + rewrite Hsame. exact Ho.
    + rewrite Hrun, upload_cases. cbv zeta.
      unfold storage_upload.
      destruct (Papers.up_storage_fault e); [exact Ho |].
      destruct (existsb _ (bucket d)); [exact Ho |].
      cbn [fst snd]. unfold insert_paper.
      destruct (Papers.up_insert_fault e); [exact Ho |].
      destruct (existsb _ _); [exact Ho |].
      destruct (negb _); [exact Ho |].
      cbn [fst snd].
      match goal with
      | |- In o (otp_codes (fst (Papers.award ?sf ?uf ?id ?d2))) =>
          destruct (award_tables sf uf id d2) as (_ & _ & Hotp & _);
          rewrite Hotp
      end.
      exact Ho.
  - unfold run, Papers.search, bind, await_read, throw, reply, ret.
    destruct (Filter.select_papers _ _ _); exact Ho.
Qed.

Lemma later_keeps_challenges d d' :
  later d d' -> forall o, In o (otp_codes d) -> In o (otp_codes d').
Proof.
  induction 1 as [d | d d' d'' _ IH Hs]; intros o Ho; [exact Ho |].
  apply (serves_keeps_challenges d' d'' Hs). apply IH. exact Ho.
Qed.

(** X10. A code that [/send-otp] stored verifies from then on. After a
    [/send-otp] whose insert succeeded, [/verify-otp] with that email
    and the code of the response answers 200 "OTP verified" in the
    resulting store and in every store that comes after it by further
    requests to the routes, verifications and password resets included:
    a challenge is neither used up nor expired. *)
Theorem otp_code_verifies_from_then_on (e : OtpRoutes.send_otp_env)
    (email : string) (d d' : db) :
  OtpRoutes.so_insert_fault e = false ->
  later (fst (run (OtpRoutes.send_otp e email) d)) d' ->
  snd (run (OtpRoutes.verify_otp false email
              (Otp.generate_otp (OtpRoutes.so_random e))) d')
  = res_json (msg "OTP verified").
Proof.
  intros Hf Hlater.
  set (code := Otp.generate_otp (OtpRoutes.so_random e)).
  assert (Hin : In (mkOtp email code (OtpRoutes.so_db_now e)) (otp_codes d')).
  { apply (later_keeps_challenges _ _ Hlater).
    unfold run, OtpRoutes.send_otp, bind, await_write, reply, ret, insert_otp.
    rewrite Hf. cbn. apply in_or_app. right. left. reflexivity. }
  pose proof (select_newest_otp_found email code d') as Hfound.
  assert (Hex : existsb (fun o => String.eqb (o_email o) email
                                  && String.eqb (o_otp o) code) (otp_codes d')
                = true).
  { apply existsb_exists. eexists. split; [exact Hin |].
    cbn. rewrite !String.eqb_refl. reflexivity. }
  rewrite Hex in Hfound.
  unfold run, OtpRoutes.verify_otp, bind, await_read, reply, ret.
  destruct (select_newest_otp false email code d'); [reflexivity | discriminate].
Qed.

End Kept.

Section Invariants.
Import Js Store Express Ledger Routes.
Context `{Bcrypt} `{Jwt} `{Platform}.

Lemma NoDup_snoc {A} (l : list A) x : NoDup l -> ~ In x l -> NoDup (l ++ [x]).
Proof.
  induction l as [| a l IH]; intros Hnd Hx; cbn.
  - constructor; [intros [] | constructor].
  - inversion Hnd as [| y l' Ha Hl]; subst. constructor.
    + intros Hin. apply in_app_or in Hin. destruct Hin as [Hin | [<- | []]].
      * contradiction.
      * apply Hx. left. reflexivity.
    + apply IH; [exact Hl |]. intros Hin. apply Hx. right. exact Hin.
Qed.

Lemma existsb_false_key {A} (key : A -> string) k (l : list A) :
  existsb (fun v => String.eqb (key v) k) l = false -> ~ In k (map key l).
Proof.
  intros Hex Hin. apply in_map_iff in Hin. destruct Hin as (v & Hk & Hv).
  assert (Ht : existsb (fun v => String.eqb (key v) k) l = true).
  { apply existsb_exists. exists v. split; [exact Hv |].
    rewrite Hk. apply String.eqb_refl. }
  congruence.
Qed.

(** The schema looks at the keys of the users and at the papers only. *)
Lemma schema_same_keys d d' :
  map u_email (users d') = map u_email (users d) ->
  map u_id (users d') = map u_id (users d) ->
  papers d' = papers d ->
  schema_holds d -> schema_holds d'.
Proof.
  intros He Hi Hp (Hemails & Hids & Hpids & Hfk).
  unfold schema_holds, emails_unique, ids_unique, paper_ids_unique, uploaders_exist.
  rewrite He, Hi, Hp. repeat split; try assumption.
  intros p Hin. rewrite (existsb_by_id _ _ _ Hi). apply Hfk. exact Hin.
Qed.

Lemma schema_insert_user fault id now fn ln em ph pw d :
  schema_holds d ->
  schema_holds (fst (insert_user fault id now fn ln em ph pw d)).
Proof.
  intros Hs. pose proof Hs as (Hemails & Hids & Hpids & Hfk).
  unfold insert_user. destruct fault; [exact Hs |].
  destruct (existsb _ (users d)) eqn:Hid; [exact Hs |].
  destruct (existsb (fun u => String.eqb (u_email u) em) (users d)) eqn:Hem;
    [exact Hs |].
  cbn [fst]. unfold schema_holds, emails_unique, ids_unique, paper_ids_unique,
    uploaders_exist. cbn [set_users users papers].
  rewrite !map_app. cbn [map u_email u_id].
  split; [apply NoDup_snoc; [exact Hemails | apply existsb_false_key; exact Hem] |].
  split; [apply NoDup_snoc; [exact Hids | apply existsb_false_key; exact Hid] |].
  split; [exact Hpids |].
  intros p Hin. rewrite existsb_app, (Hfk p Hin). reflexivity.
Qed.

Lemma schema_update_password fault em pw d :
  schema_holds d -> schema_holds (fst (update_password_by_email fault em pw d)).
Proof.
  intros Hs. unfold update_password_by_email. destruct fault; [exact Hs |].
  cbn [fst]. apply (schema_same_keys d); cbn [set_users users papers];
    try reflexivity; try exact Hs;
    rewrite map_map; apply map_ext; intros u;
    destruct (String.eqb (u_email u) em); reflexivity.
Qed.

Lemma award_emails sf uf id d :
  map u_email (users (fst (Papers.award sf uf id d))) = map u_email (users d).
Proof.
  unfold Papers.award, bind, await_read, await_write, ret.
  destruct (select_user_by_id sf id d) as [user |]; [| reflexivity].
  unfold update_points_level_by_id.
  destruct uf; [reflexivity |]. destruct (negb _); [reflexivity |].
  cbn [fst set_users users]. rewrite map_map. apply map_ext. intros u.
  destruct (String.eqb (u_id u) id); reflexivity.
Qed.

Lemma schema_upload e user_id b file d :
  schema_holds d ->
  schema_holds (fst (run (Papers.upload e user_id b (Some file)) d)).
Proof.
  intros Hs. rewrite upload_cases. cbv zeta.
  pose proof (storage_upload_tables (Papers.up_storage_fault e)
                (Papers.upload_path e file) (Papers.buffer file) d)
    as [Husers Hpapers].
  set (d1 := fst (storage_upload (Papers.up_storage_fault e)
                    (Papers.upload_path e file) (Papers.buffer file) d)) in *.
  assert (Hs1 : schema_holds d1)
    by (apply (schema_same_keys d); [rewrite Husers | rewrite Husers | |];
        auto).
  destruct (snd (storage_upload _ _ _ d)); [| exact Hs1].
  assert (Hs2 : schema_holds
                  (fst (insert_paper (Papers.up_insert_fault e) (Papers.up_new_id e)
                          (Papers.up_db_now e) (Papers.subject b)
                          (Papers.courseCode b) (Papers.examYear b)
                          (Papers.examName b) (Papers.category b)
                          (getPublicUrl (Papers.upload_path e file)) user_id d1))).
  { pose proof Hs1 as (Hemails & Hids & Hpids & Hfk).
    unfold insert_paper. destruct (Papers.up_insert_fault e); [exact Hs1 |].
    destruct (existsb _ (papers d1)) eqn:Hpid; [exact Hs1 |].
    destruct (existsb (fun u => String.eqb (u_id u) user_id) (users d1)) eqn:Hu;
      [| exact Hs1].
    cbn [negb fst]. unfold schema_holds, emails_unique, ids_unique,
      paper_ids_unique, uploaders_exist. cbn [set_papers users papers].
    split; [exact Hemails |]. split; [exact Hids |].
    split.
    - rewrite map_app. cbn [map p_id].
      apply NoDup_snoc; [exact Hpids | apply existsb_false_key; exact Hpid].
    - intros p Hin. apply in_app_or in Hin. destruct Hin as [Hin | [<- | []]].
      + apply Hfk. exact Hin.
      + exact Hu. }
  destruct (snd (insert_paper _ _ _ _ _ _ _ _ _ _ d1)); [| exact Hs2].
  cbn [fst].
  match goal with
  | |- schema_holds (fst (Papers.award ?sf ?uf ?id ?d2)) =>
      destruct (award_tables sf uf id d2) as (Hp & _ & _ & Hi & _);
      apply (schema_same_keys d2);
      [apply award_emails | exact Hi | exact Hp | exact Hs2]
  end.
Qed.

Lemma serves_keeps_schema d d' : serves d d' -> schema_holds d -> schema_holds d'.
Proof.
  intros Hs Hd. destruct Hs.
  - unfold run, Auth.signup, bind, await_read, await_write, reply, throw, ret.
    destruct (data_of _); [exact Hd |].
    pose proof (schema_insert_user (Auth.su_insert_fault e) (Auth.su_new_id e)
                  (Auth.su_db_now e) (Auth.firstName b) (Auth.lastName b)
                  (Auth.email b) (Auth.phone b)
                  (bcrypt_hash (Auth.password b) (Auth.su_salt e)) d Hd) as Hi.
    destruct (insert_user _ _ _ _ _ _ _ _ d) as [d' [newUser |]]; exact Hi.
  - unfold run, Auth.login, bind, await_read, reply, ret.
    destruct (data_of _); [| exact Hd]. destruct (negb _); exact Hd.
  - unfold run, Profile.profile, bind, await_read, reply, ret.
    destruct token; [| exact Hd]. destruct (jwt_verify _ _ _); [| exact Hd].
    destruct (select_user_by_id _ _ _); exact Hd.
  - unfold run, OtpRoutes.send_otp, bind, await_write, reply, ret, insert_otp.
    destruct (OtpRoutes.so_insert_fault e); [exact Hd |].
    cbn. apply (schema_same_keys d); auto.
  - unfold run, OtpRoutes.verify_otp, bind, await_read, reply, ret.
    destruct (data_of _); exact Hd.
  - unfold run, OtpRoutes.reset_password, bind, await_write, reply, ret.
    pose proof (schema_update_password (OtpRoutes.rp_update_fault e) email
                  (bcrypt_hash newPassword (OtpRoutes.rp_salt e)) d Hd) as Hu.
    destruct (update_password_by_email _ _ _ d) as [d' r].
    destruct (is_error r); exact Hu.
  - destruct (upload_route_inv secret clock token e b f d)
      as [Hsame | (user_id & file & -> & Hrun)].
    + rewrite Hsame. exact Hd.
    + rewrite Hrun. apply schema_upload. exact Hd.
  - unfold run, Papers.search, bind, await_read, throw, reply, ret.
    destruct (Filter.select_papers _ _ _); exact Hd.
Qed.

(** X11. The routes keep the constraints of the schema: starting from a
    store with unique user emails, unique user and paper identifiers
    and every paper referring to a stored user (the empty store is
    one), every store that comes after it by requests to the routes is
    such a store. *)
Theorem requests_keep_schema (d d' : db) :
  schema_holds d -> later d d' -> schema_holds d'.
Proof.
  intros Hd Hl. induction Hl as [d | d d' d'' _ IH Hs]; [exact Hd |].
  apply (serves_keeps_schema d' d'' Hs). apply IH. exact Hd.
Qed.

End Invariants.

Section LedgerKept.
Import Js Store Express Ledger Routes.
Context `{Bcrypt} `{Jwt} `{Platform}.

Lemma ledger_row_awarded u :
  ledger_row u ->
  ledger_row (with_points_level (newPoints (u_points u))
                (newLevel (newPoints (u_points u)) (u_level u)) u).
Proof.
  intros (Hc & k & Hk & Hp). split; [apply award_keeps_consistent; exact Hc |].
  exists (k + 1). split; [lia |].
  cbn [with_points_level u_points]. unfold newPoints. rewrite Hp. cbn [or_zero].
  f_equal. lia.
Qed.

(** The row the award step reads is the only row it writes. *)
Lemma selected_is_the_row sf id d user v :
  select_user_by_id sf id d = Ok user -> In v (users d) ->
  String.eqb (u_id v) id = true -> v = user.
Proof.
  unfold select_user_by_id. destruct sf; [discriminate |].
  intros Hsel Hin Hid. apply single_filter_hit in Hsel. destruct Hsel as [Hf _].
  assert (Hv : In v (filter (fun u => String.eqb (u_id u) id) (users d)))
    by (apply filter_In; split; assumption).
  rewrite Hf in Hv. destruct Hv as [<- | []]. reflexivity.
Qed.

Lemma ledger_award sf uf id d :
  ledger_holds d -> ledger_holds (fst (Papers.award sf uf id d)).
Proof.
  intros Hd. unfold Papers.award, bind, await_read, await_write, ret.
  destruct (select_user_by_id sf id d) as [user |] eqn:Hsel; [| exact Hd].
  unfold update_points_level_by_id.
  destruct uf; [exact Hd |]. destruct (negb _); [exact Hd |].
  cbn [fst]. unfold ledger_holds in *. cbn [set_users users].
  apply Forall_forall. intros u' Hin. apply in_map_iff in Hin.
  destruct Hin as (v & <- & Hv).
  pose proof (proj1 (Forall_forall _ _) Hd v Hv) as Hrow.
  destruct (String.eqb (u_id v) id) eqn:Hid; [| exact Hrow].
  rewrite (selected_is_the_row _ _ _ _ _ Hsel Hv Hid) in *.
  apply ledger_row_awarded. exact Hrow.
Qed.

Lemma ledger_same_users d d' : users d' = users d -> ledger_holds d -> ledger_holds d'.
Proof. unfold ledger_holds. intros ->. trivial. Qed.

Lemma serves_keeps_ledger d d' : serves d d' -> ledger_holds d -> ledger_holds d'.
Proof.
  intros Hs Hd. destruct Hs.
  - unfold run, Auth.signup, bind, await_read, await_write, reply, throw, ret.
    destruct (data_of _); [exact Hd |].
    unfold insert_user. destruct (Auth.su_insert_fault e); [exact Hd |].
    destruct (existsb _ (users d)); [exact Hd |].
    destruct (existsb _ (users d)); [exact Hd |].
    cbn. unfold ledger_holds in *. cbn. apply Forall_app. split; [exact Hd |].
    constructor; [| constructor]. split; [reflexivity |].
    exists 0. split; [lia | reflexivity].
  - unfold run, Auth.login, bind, await_read, reply, ret.
    destruct (data_of _); [| exact Hd]. destruct (negb _); exact Hd.
  - unfold run, Profile.profile, bind, await_read, reply, ret.
    destruct token; [| exact Hd]. destruct (jwt_verify _ _ _); [| exact Hd].
    destruct (select_user_by_id _ _ _); exact Hd.
  - unfold run, OtpRoutes.send_otp, bind, await_write, reply, ret, insert_otp.
    destruct (OtpRoutes.so_insert_fault e); exact Hd.
  - unfold run, OtpRoutes.verify_otp, bind, await_read, reply, ret.
    destruct (data_of _); exact Hd.
  - unfold run, OtpRoutes.reset_password, bind, await_write, reply, ret,
      update_password_by_email.
    destruct (OtpRoutes.rp_update_fault e); [exact Hd |].
    cbn. unfold ledger_holds in *. cbn.
    apply Forall_forall. intros u' Hin. apply in_map_iff in Hin.
    destruct Hin as (v & <- & Hv).
    pose proof (proj1 (Forall_forall _ _) Hd v Hv) as Hrow.
    destruct (String.eqb (u_email v) email); exact Hrow.
  - destruct (upload_route_inv secret clock token e b f d)
      as [Hsame | (user_id & file & -> & Hrun)].
    + rewrite Hsame. exact Hd.
    + rewrite Hrun, upload_cases. cbv zeta.
      pose proof (storage_upload_tables (Papers.up_storage_fault e)
                    (Papers.upload_path e file) (Papers.buffer file) d)
        as [Husers _].
      set (d1 := fst (storage_upload (Papers.up_storage_fault e)
                        (Papers.upload_path e file) (Papers.buffer file) d)) in *.
      pose proof (ledger_same_users d d1 Husers Hd) as Hd1.
      destruct (snd (storage_upload _ _ _ d)); [| exact Hd1].
      pose proof (insert_paper_users (Papers.up_insert_fault e) (Papers.up_new_id e)
                    (Papers.up_db_now e) (Papers.subject b) (Papers.courseCode b)
                    (Papers.examYear b) (Papers.examName b) (Papers.category b)
                    (getPublicUrl (Papers.upload_path e file)) user_id d1) as Hiu.
      pose proof (ledger_same_users d1 _ Hiu Hd1) as Hd2.
      destruct (snd (insert_paper _ _ _ _ _ _ _ _ _ _ d1)); [| exact Hd2].
      cbn [fst]. apply ledger_award. exact Hd2.
  - unfold run, Papers.search, bind, await_read, throw, reply, ret.
    destruct (Filter.select_papers _ _ _); exact Hd.
Qed.

(** X12. In every store reached from the empty one by requests to the
    routes, served one after the other, each user's point total is 50
    times a number [k >= 0], the stored level is the level of the table
    for that total, and the profile page's upload count,
    [floor(points / 50)], is that [k]. *)
Theorem reachable_ledger (d : db) (u : user_row) :
  reachable d -> In u (users d) ->
  exists k, 0 <= k
    /\ u_points u = Some (50 * k)
    /\ u_level u = Some (level_of_total (50 * k))
    /\ Profile.uploadsCount (u_points u) = k.
Proof.
  intros Hr.
  assert (Hd : ledger_holds d).
  { unfold reachable in Hr.
    remember (mkDb [] [] [] []) as start eqn:Hstart.
    induction Hr as [d | d d' d'' _ IH Hs].
    - subst d. constructor.
    - apply (serves_keeps_ledger d' d'' Hs). apply IH. exact Hstart. }
  intros Hin.
  destruct (proj1 (Forall_forall _ _) Hd u Hin) as (Hc & k & Hk & Hp).
  exists k. split; [exact Hk |]. split; [exact Hp |]. split.
  - unfold consistent in Hc. rewrite Hp in Hc. exact Hc.
  - unfold Profile.uploadsCount. rewrite Hp. cbn [or_zero].
    rewrite Z.mul_comm. apply Z.div_mul. lia.
Qed.

Lemma awards_step n id d :
  awards (S n) id d = fst (Papers.award false false id (awards n id d)).
Proof. reflexivity. Qed.

(** X13. Uploads needed for each level. For a user with [50 * k] points and
    the level of that total, [n] further awards, each accepted by the
    store, leave [50 * (k + n)] points and the level Silver below 40
    awards in all, Gold from 40, Diamond from 60 and Legendary from
    80. *)
Theorem levels_by_awards (n : nat) (id : uuid) (d : db) (u : user_row) (k : Z) :
  select_user_by_id false id d = Ok u ->
  0 <= k -> u_points u = Some (50 * k) ->
  u_level u = Some (level_of_total (50 * k)) ->
  50 * (k + Z.of_nat n) <= int4_max ->
  exists u',
    select_user_by_id false id (awards n id d) = Ok u'
    /\ u_points u' = Some (50 * (k + Z.of_nat n))
    /\ u_level u' =
         Some (if k + Z.of_nat n <? 40 then "Silver"
               else if k + Z.of_nat n <? 60 then "Gold"
               else if k + Z.of_nat n <? 80 then "Diamond"
               else "Legendary").
Proof.
  intros Hsel Hk Hp Hl Hmax.
  assert (Hgen : exists u',
            select_user_by_id false id (awards n id d) = Ok u'
            /\ u_points u' = Some (50 * (k + Z.of_nat n))
            /\ u_level u' = Some (level_of_total (50 * (k + Z.of_nat n)))).
  { induction n as [| n IH].
    - exists u. cbn [awards Nat.iter]. rewrite Z.add_0_r. auto.
    - destruct IH as (u1 & Hsel1 & Hp1 & Hl1); [lia |].
      rewrite awards_step, (award_found false false _ _ _ Hsel1).
      assert (Hnew : newPoints (u_points u1) = 50 * (k + Z.of_nat (S n)))
        by (unfold newPoints; rewrite Hp1; cbn [or_zero]; lia).
      assert (Hrange : in_int4 (newPoints (u_points u1)) = true).
      { rewrite Hnew. unfold in_int4, int4_min. apply andb_true_iff.
        split; apply Z.leb_le; lia. }
      rewrite (select_after_update _ _ _ _ _ Hsel1 Hrange).
      eexists. split; [reflexivity |].
      cbn [with_points_level u_points u_level]. rewrite Hnew.
      split; [reflexivity |].
      assert (Hc1 : consistent u1)
        by (unfold consistent; rewrite Hp1, Hl1; reflexivity).
      pose proof (award_keeps_consistent u1 Hc1) as Hc.
      unfold consistent in Hc.
      cbn [with_points_level u_points u_level or_zero] in Hc.
      rewrite Hnew in Hc. exact Hc. }
  destruct Hgen as (u' & Hsel' & Hp' & Hl').
  exists u'. split; [exact Hsel' |]. split; [exact Hp' |].
  rewrite Hl'. f_equal. unfold level_of_total.
  destruct (Z.ltb_spec (50 * (k + Z.of_nat n)) 2000),
    (Z.ltb_spec (k + Z.of_nat n) 40); try lia; try reflexivity.
  destruct (Z.ltb_spec (50 * (k + Z.of_nat n)) 3000),
    (Z.ltb_spec (k + Z.of_nat n) 60); try lia; try reflexivity.
  destruct (Z.ltb_spec (50 * (k + Z.of_nat n)) 4000),
    (Z.ltb_spec (k + Z.of_nat n) 80); try lia; reflexivity.
Qed.

End LedgerKept.

(** ** The browser build *)

Section BrowserLists.
Import Js Pattern Browser.







Lemma prefix_lower q s :
  String.prefix (lower_string q) (lower_string s) = prefix_ci q s.
Proof.
  revert s. induction q as [| c q IH]; intros s; [destruct s; reflexivity |].
  destruct s as [| d s]; [reflexivity |].
  cbn [lower_string String.prefix prefix_ci]. unfold eqb_ci.
  destruct (ascii_dec (lower c) (lower d)) as [Heq | Hne].
  - rewrite Heq, Ascii.eqb_refl. cbn. apply IH.
  - apply Ascii.eqb_neq in Hne. rewrite Hne. reflexivity.
Qed.

Lemma includes_step needle s :
  includes needle s =
  String.prefix needle s ||
  match s with
  | EmptyString => false
  | String _ s' => includes needle s'
  end.
Proof. destruct s; reflexivity. Qed.

Lemma includes_lower q s :
  includes (lower_string q) (lower_string s) = contains_ci q s.
Proof.
  induction s as [| d s IH].
  - rewrite includes_step, prefix_lower. reflexivity.
  - rewrite includes_step, prefix_lower. cbn [lower_string contains_ci].
    rewrite IH. reflexivity.
Qed.

(** X15. For ASCII text, on which [toLowerCase] folds the letters A-Z
    only: when the typed text and the subject, course code and slot of
    every paper on the page are ASCII, the search box of the browser
    build keeps, in their order, exactly the papers whose subject,
    course code or slot contains the text up to case. Every character
    of the text stands for itself, so the empty text keeps all papers
    and two ASCII texts that differ in case only keep the same
    papers. *)
Theorem handleSearch_contains `{CaseMapping} (searchInput : string) (st : state) :
  toLowerCase_ascii ->
  is_ascii searchInput = true ->
  Forall ascii_fields (papers st) ->
  handleSearch searchInput st =
    filter (fun p => contains_ci searchInput (subject p)
                     || contains_ci searchInput (courseCode p)
                     || contains_ci searchInput (slot p)) (papers st)
  /\ handleSearch EmptyString st = papers st
  /\ (forall other, is_ascii other = true ->
        lower_string other = lower_string searchInput ->
        handleSearch other st = handleSearch searchInput st).
Proof.
  intros Hfold Hinput Hfields.
  assert (Hfilter : forall q, is_ascii q = true ->
            handleSearch q st =
            filter (fun p => contains_ci q (subject p)
                             || contains_ci q (courseCode p)
                             || contains_ci q (slot p)) (papers st)).
  { intros q Hq. unfold handleSearch. apply filter_ext_in.
    intros p Hp.
    destruct (proj1 (Forall_forall _ _) Hfields p Hp) as (Hs & Hc & Hl).
    rewrite (Hfold q Hq), (Hfold _ Hs), (Hfold _ Hc), (Hfold _ Hl).
    rewrite !includes_lower. reflexivity. }
  split; [apply Hfilter; exact Hinput |]. split.
  - rewrite Hfilter by reflexivity. clear Hfilter Hfields.
    induction (papers st) as [| p l IH]; [reflexivity |].
    cbn [filter]. destruct (subject p); cbn; rewrite IH; reflexivity.
  - intros other Hascii Hother.
    rewrite (Hfilter other Hascii), (Hfilter searchInput Hinput).
    apply filter_ext. intros p.
    rewrite <- !includes_lower. rewrite Hother. reflexivity.
Qed.

Lemma get_user_put_same u store : get_user (email u) (put_user u store) = Some u.
Proof. unfold get_user, put_user. cbn. rewrite String.eqb_refl. reflexivity. Qed.

Lemma get_user_put_other u key store :
  key <> email u -> get_user key (put_user u store) = get_user key store.
Proof.
  intros Hne. unfold get_user, put_user. cbn [find].
  destruct (String.eqb_spec (email u) key) as [Heq | _]; [congruence |].
  induction store as [| v store IH]; [reflexivity |].
  cbn [filter find]. destruct (String.eqb_spec (email v) (email u)) as [Hv | Hv].
  - cbn [negb]. destruct (String.eqb_spec (email v) key) as [Hk | _];
      [congruence | exact IH].
  - cbn [negb find]. destruct (String.eqb (email v) key); [reflexivity | exact IH].
Qed.

(** X16. Signing up in the browser build writes a new record under the
    email, whatever was stored under it: the stored record then has 0
    points, the level Silver and no likes, and the records under other
    emails are as before. After a logout, the login form with that
    email alone, no password being asked, signs the same record in. *)
Theorem browser_signup_then_login (email_value firstName_value lastName_value
    typed_first typed_last : string) (st : state) :
  let newUser := mkLocal firstName_value lastName_value email_value 0 "Silver"
                   EmptyString [] 0 0 in
  let signed := authSubmit false false email_value firstName_value lastName_value st in
  get_user email_value (users_store signed) = Some newUser
  /\ (forall other, other <> email_value ->
        get_user other (users_store signed) = get_user other (users_store st))
  /\ currentUser signed = Some newUser
  /\ currentUser (logout signed) = None
  /\ currentUser (authSubmit false true email_value typed_first typed_last
                    (logout signed)) = Some newUser.
Proof.
  cbv zeta. unfold authSubmit, sign_in, logout.
  cbn [users_store currentUser papers_store session papers].
  split; [apply (get_user_put_same (mkLocal _ _ email_value _ _ _ _ _ _)) |].
  split; [intros other Hne;
          apply (get_user_put_other (mkLocal _ _ email_value _ _ _ _ _ _));
          exact Hne |].
  split; [reflexivity |]. split; [reflexivity |].
  rewrite (get_user_put_same (mkLocal _ _ email_value _ _ _ _ _ _)). reflexivity.
Qed.

End BrowserLists.

Section BrowserState.
Import Js Browser.

Lemma insert_newest_perm p l : Permutation (insert_newest p l) (p :: l).
Proof.
  induction l as [| q l IH]; [apply Permutation_refl |].
  cbn [insert_newest]. destruct (id q - id p <=? 0); [apply Permutation_refl |].
  apply perm_trans with (q :: p :: l); [apply perm_skip; exact IH | apply perm_swap].
Qed.

Lemma insert_newest_sorted p l :
  StronglySorted (fun a b => id b <= id a) l ->
  StronglySorted (fun a b => id b <= id a) (insert_newest p l).
Proof.
  induction l as [| q l IH]; intros Hs.
  - cbn. constructor; constructor.
  - cbn [insert_newest]. inversion Hs as [| x l' Hl Hq]; subst.
    destruct (Z.leb_spec (id q - id p) 0) as [Hle | Hgt].
    + constructor; [exact Hs |]. constructor; [lia |].
      apply Forall_forall. intros z Hz.
      pose proof (proj1 (Forall_forall _ _) Hq z Hz) as Hzq. cbn beta in Hzq. lia.
    + constructor; [apply IH; exact Hl |].
      apply Forall_forall. intros z Hz.
      apply (Permutation_in _ (insert_newest_perm p l)) in Hz.
      destruct Hz as [<- | Hz]; [lia |].
      pose proof (proj1 (Forall_forall _ _) Hq z Hz) as Hzq. cbn beta in Hzq. lia.
Qed.

(** X17. Loading the papers shows the stored papers, all of them and each
    as often as it is stored, newest first: the identifiers, which are
    the upload times, never increase down the list. Nothing else on
    the page changes. *)
Theorem loadPapers_newest_first (st : state) :
  Permutation (papers (loadPapers st)) (papers_store st)
  /\ StronglySorted (fun a b => id b <= id a) (papers (loadPapers st))
  /\ users_store (loadPapers st) = users_store st
  /\ papers_store (loadPapers st) = papers_store st
  /\ currentUser (loadPapers st) = currentUser st.
Proof.
  cbn [loadPapers papers users_store papers_store currentUser].
  unfold getAllPapers, sort_newest_first.
  split; [| split; [| repeat split]].
  - induction (papers_store st) as [| p l IH]; [apply Permutation_refl |].
    cbn [fold_right].
    apply perm_trans with (p :: fold_right insert_newest [] l);
      [apply insert_newest_perm | apply perm_skip; exact IH].
  - induction (papers_store st) as [| p l IH]; [constructor |].
    cbn [fold_right]. apply insert_newest_sorted. exact IH.
Qed.

Lemma tallied_credited u : tallied u -> tallied (credited u).
Proof.
  intros (Hu & Hp & Hl). unfold tallied, credited.
  rewrite updateLevel_cases.
  cbn [uploads points level Ledger.cu_points Ledger.cu_level].
  split; [lia |]. split; [lia |].
  destruct (Z.leb_spec 1000 (points u + 50)); [reflexivity |].
  rewrite Hl. unfold Ledger.level_of_total.
  destruct (Z.ltb_spec (points u) 2000), (Z.ltb_spec (points u + 50) 2000);
    try lia; reflexivity.
Qed.

Lemma put_user_tallied u store :
  tallied u -> Forall tallied store -> Forall tallied (put_user u store).
Proof.
  intros Hu Hs. unfold put_user. constructor; [exact Hu |].
  apply Forall_forall. intros v Hv. apply filter_In in Hv.
  exact (proj1 (Forall_forall _ _) Hs v (proj1 Hv)).
Qed.

Lemma save_user_tallied fault u st :
  tallied u -> all_tallied st -> all_tallied (save_user fault u st).
Proof.
  intros Hu (Hs & Hse & Hc). unfold save_user, all_tallied.
  destruct fault; cbn [users_store session currentUser tallied_opt].
  - split; [exact Hs | split; [exact Hse | exact Hu]].
  - split; [apply put_user_tallied; assumption | split; exact Hu].
Qed.

Lemma perform_keeps_tally a st : all_tallied st -> all_tallied (perform a st).
Proof.
  intros Hst. pose proof Hst as (Hs & Hse & Hc).
  destruct a; cbn [perform].
  - (* the auth form *)
    unfold authSubmit. destruct store_fault; [exact Hst |].
    destruct isLoginMode.
    + destruct (get_user email_value (users_store st)) as [found |] eqn:Hget;
        [| exact Hst].
      apply find_some in Hget.
      pose proof (proj1 (Forall_forall _ _) Hs found (proj1 Hget)) as Hf.
      unfold sign_in, all_tallied. cbn [users_store session currentUser tallied_opt].
      split; [exact Hs | split; exact Hf].
    + assert (Hnew : tallied (mkLocal firstName_value lastName_value email_value
                                0 "Silver" EmptyString [] 0 0))
        by (unfold tallied; cbn; split; [lia | split; [lia | reflexivity]]).
      unfold sign_in, all_tallied. cbn [users_store session currentUser tallied_opt].
      split; [apply put_user_tallied; assumption | split; exact Hnew].
  - unfold logout, all_tallied. cbn [users_store session currentUser tallied_opt].
    split; [exact Hs | split; exact I].
  - unfold continueAsGuest, all_tallied.
    cbn [users_store session currentUser tallied_opt].
    split; [exact Hs | split; [exact Hse | exact I]].
  - unfold reload, all_tallied. cbn [users_store session currentUser tallied_opt].
    split; [exact Hs | split; exact Hse].
  - unfold loadPapers, all_tallied.
    cbn [users_store session currentUser tallied_opt].
    split; [exact Hs | split; [exact Hse | exact Hc]].
  - unfold toggleLike. destruct (currentUser st) as [u |] eqn:Hu; [| exact Hst].
    apply save_user_tallied; [| exact Hst]. exact Hc.
  - unfold downloadPaper. destruct (currentUser st) as [u |] eqn:Hu; [| exact Hst].
    apply save_user_tallied; [| exact Hst]. exact Hc.
  - unfold uploadSubmit. destruct (currentUser st) as [u |] eqn:Hu; [| exact Hst].
    destruct selected as [[fileType_value selectedFileBase64] |]; [| exact Hst].
    destruct (if add_fault then None else add_paper _ (papers_store st))
      as [store' |]; [| exact Hst].
    apply save_user_tallied; [apply tallied_credited; exact Hc |].
    unfold all_tallied. cbn [users_store session currentUser tallied_opt].
    split; [exact Hs | split; [exact Hse | exact Hc]].
  - unfold handleProfilePicUpdate.
    destruct (currentUser st) as [u |] eqn:Hu; [| exact Hst].
    apply save_user_tallied; [| exact Hst]. exact Hc.
  - unfold saveNameEdit.
    destruct (String.eqb newFirst EmptyString || String.eqb newLast EmptyString);
      [exact Hst |].
    destruct (currentUser st) as [u |] eqn:Hu; [| exact Hst].
    apply save_user_tallied; [| exact Hst]. exact Hc.
Qed.

(** X18. The bookkeeping of the browser build. Whatever a visitor does from
    a first visit on (sign up, log in or out, continue as guest, reload,
    like, download, upload, change the picture or the name, with store
    calls failing or not), every user
    record of the page, stored or signed in, has 50 points for each
    upload it counts and the level of the table for its points. *)
Theorem browser_points_follow_uploads (actions : list action) :
  all_tallied (perform_all actions first_visit).
Proof.
  assert (Hgen : forall st, all_tallied st -> all_tallied (perform_all actions st)).
  { induction actions as [| a rest IH]; intros st Hst; [exact Hst |].
    cbn [perform_all fold_left]. apply IH. apply perform_keeps_tally. exact Hst. }
  apply Hgen. unfold all_tallied, first_visit.
  cbn [users_store session currentUser tallied_opt].
  split; [constructor | split; exact I].
Qed.

Lemma insert_by_id_has p store :
  existsb (fun q => id q =? id p) (insert_by_id p store) = true.
Proof.
  induction store as [| q store IH]; cbn [insert_by_id].
  - cbn. rewrite Z.eqb_refl. reflexivity.
  - destruct (id p <? id q); cbn [existsb].
    + rewrite Z.eqb_refl. reflexivity.
    + rewrite IH. apply orb_true_r.
Qed.

Lemma uploadSubmit_stored add_fault put_fault date_now form selected st :
  uploadSubmit add_fault put_fault date_now form selected st <> st ->
  existsb (fun q => id q =? date_now)
    (papers_store (uploadSubmit add_fault put_fault date_now form selected st))
  = true.
Proof.
  unfold uploadSubmit.
  destruct (currentUser st) as [u |]; [| intros Hne; contradiction].
  destruct selected as [[fileType_value selectedFileBase64] |];
    [| intros Hne; contradiction].
  destruct add_fault; [intros Hne; contradiction |].
  unfold add_paper. destruct (existsb _ (papers_store st));
    [intros Hne; contradiction |].
  intros _. unfold save_user.
  destruct put_fault; cbn [papers_store];
    match goal with
    | |- existsb _ (insert_by_id ?p _) = true => apply (insert_by_id_has p)
    end.
Qed.

Lemma uploadSubmit_taken add_fault put_fault date_now form selected st :
  existsb (fun q => id q =? date_now) (papers_store st) = true ->
  uploadSubmit add_fault put_fault date_now form selected st = st.
Proof.
  intros Htaken. unfold uploadSubmit.
  destruct (currentUser st) as [u |]; [| reflexivity].
  destruct selected as [[fileType_value selectedFileBase64] |]; [| reflexivity].
  destruct add_fault; [reflexivity |].
  unfold add_paper. cbn [id]. rewrite Htaken. reflexivity.
Qed.

(** X19. An upload in the browser build that changed anything has stored a
    paper under the reading of [Date.now()]; a second upload at the
    same reading, by whoever is signed in and whatever the form holds,
    is refused by the store and changes nothing: no paper and no
    points. *)
Theorem browser_upload_same_clock (add_fault put_fault add_fault' put_fault' : bool)
    (date_now : Z) (form form' : upload_form)
    (selected selected' : option (string * string)) (st : state) :
  let st1 := uploadSubmit add_fault put_fault date_now form selected st in
  st1 <> st ->
  uploadSubmit add_fault' put_fault' date_now form' selected' st1 = st1.
Proof.
  intros st1 Hne. apply uploadSubmit_taken.
  apply uploadSubmit_stored. exact Hne.
Qed.

End BrowserState.

(** ** Object names of uploads *)

Section ObjectNames.
Import Js Store Papers Numeral.
Context `{Platform}.

Lemma digit_value_char d : 0 <= d <= 9 -> digit_value (digit_char d) = d.
Proof.
  intros Hd.
  assert (Hc : d = 0 \/ d = 1 \/ d = 2 \/ d = 3 \/ d = 4 \/ d = 5 \/ d = 6
               \/ d = 7 \/ d = 8 \/ d = 9) by lia.
  repeat (destruct Hc as [-> | Hc]; [reflexivity |]). subst d. reflexivity.
Qed.

(** Reading the digits written in front of [acc] gives the number. *)
Lemma read_digits_acc fuel : forall n acc,
  0 <= n < 2 ^ Z.of_nat fuel ->
  read_from 0 (digits_acc fuel n acc) = read_from n acc.
Proof.
  induction fuel as [| fuel IH]; intros n acc Hn.
  - cbn in Hn. assert (n = 0) by lia. subst n. reflexivity.
  - rewrite Nat2Z.inj_succ, Z.pow_succ_r in Hn by lia.
    rewrite digits_acc_step.
    assert (Hdigit : 0 <= n mod 10 <= 9) by (Z.div_mod_to_equations; lia).
    destruct (Z.eqb_spec (n / 10) 0) as [Hz | Hnz].
    + cbn [read_from]. rewrite (digit_value_char _ Hdigit).
      f_equal. Z.div_mod_to_equations. lia.
    + rewrite IH by (Z.div_mod_to_equations; lia).
      cbn [read_from]. rewrite (digit_value_char _ Hdigit).
      f_equal. Z.div_mod_to_equations. lia.
Qed.

Lemma read_toString n : 0 <= n -> read_from 0 (number_toString n) = n.
Proof.
  intros Hn. unfold number_toString.
  destruct (Z.ltb_spec n 0); [lia |].
  rewrite read_digits_acc; [reflexivity |].
  split; [exact Hn |].
  destruct (Z.eq_dec n 0) as [-> | Hpos]; [cbn; lia |].
  rewrite Nat2Z.inj_succ, Z2Nat.id by apply Z.log2_nonneg.
  apply Z.log2_spec. lia.
Qed.

Lemma string_length_app (a b : string) :
  String.length (a ++ b) = (String.length a + String.length b)%nat.
Proof. induction a as [| c a IH]; [reflexivity |]. cbn. rewrite IH. reflexivity. Qed.

Lemma string_app_cancel_r (a b c : string) : a ++ c = b ++ c -> a = b.
Proof.
  revert b. induction a as [| x a IH]; intros [| y b] Heq.
  - reflexivity.
  - exfalso. apply (f_equal String.length) in Heq.
    cbn [append] in Heq. cbn [String.length] in Heq.
    rewrite string_length_app in Heq. lia.
  - exfalso. apply (f_equal String.length) in Heq.
    cbn [append] in Heq. cbn [String.length] in Heq.
    rewrite string_length_app in Heq. lia.
  - cbn [append] in Heq. injection Heq as Hx Hrest.
    rewrite Hx, (IH b Hrest). reflexivity.
Qed.

(** X20. Uploads at different readings of [Date.now()] write to different
    objects: for files with the same extension, equal object paths
    force equal clock readings (the clock counts from 0 upwards). *)
Theorem upload_paths_distinct (e e' : upload_env) (f f' : file) :
  0 <= up_date_now e -> 0 <= up_date_now e' ->
  path_extname (originalname f') = path_extname (originalname f) ->
  upload_path e f = upload_path e' f' ->
  up_date_now e = up_date_now e'.
Proof.
  intros Hn Hn' Hext Hpath. unfold upload_path in Hpath. rewrite Hext in Hpath.
  apply string_app_cancel_r in Hpath.
  rewrite <- (read_toString _ Hn), <- (read_toString _ Hn'), Hpath. reflexivity.
Qed.

End ObjectNames.

(** ** The API wrapper against the routes *)

Section ApiFacts.
Import Js Store Express.
Context `{Bcrypt} `{Jwt}.

(** The row a signup inserted, read by its identifier. *)
Lemma select_new_user_by_id fault id now fn ln em ph pw d d' newUser :
  insert_user fault id now fn ln em ph pw d = (d', Ok newUser) ->
  select_user_by_id false (u_id newUser) d' = Ok newUser.
Proof.
  intros Hins.
  destruct (insert_user_ok _ _ _ _ _ _ _ _ _ _ _ Hins) as (Hrow & Husers & _).
  destruct (insert_user_fresh_id _ _ _ _ _ _ _ _ _ _ _ Hins) as (Hfresh & _).
  unfold select_user_by_id. rewrite Husers, filter_app.
  replace (u_id newUser) with id by (rewrite Hrow; reflexivity).
  rewrite (existsb_false_filter _ _ Hfresh). cbn.
  rewrite Hrow at 1. cbn. rewrite String.eqb_refl. reflexivity.
Qed.

Lemma handleResponse_json (data : json) :
  Api.handleResponse (res_json data) = Api.Returned data.
Proof. reflexivity. Qed.

Lemma token_value_body (t : string) :
  t <> EmptyString -> Api.token_value (Auth.token_body t) = Some t.
Proof.
  intros Ht. unfold Api.token_value, Auth.token_body.
  change (prop "token" (JObj [("token", JStr t)])) with (Some (JStr t)).
  cbv beta iota.
  destruct (String.eqb t EmptyString) eqn:E; [| reflexivity].
  apply String.eqb_eq in E. contradiction.
Qed.

(** X21. A refused login reaches the page as a thrown error with the
    message "Invalid Credentials", the same for an unknown email and
    for a wrong password, and the page keeps the token it had. *)
Theorem api_login_refused (le : Auth.login_env) (pe : Api.profile_env)
    (email password : string) (token : option string) (d : db) :
  (forall u, In u (users d) -> u_email u = email ->
     bcrypt_compare password (u_password u) = false) ->
  Api.login le pe email password token d
  = (token, d, Api.Thrown (JStr "Invalid Credentials")).
Proof.
  intros Hno. unfold Api.login, run, Auth.login, bind, await_read, reply, ret.
  cbn [Auth.li_email Auth.li_password].
  destruct (select_user_by_email (Auth.li_select_fault le) email d)
    as [u |] eqn:Hsel; [| reflexivity].
  destruct (select_by_email_In _ _ _ _ Hsel) as [Hin He].
  cbn [data_of]. rewrite (Hno u Hin He). reflexivity.
Qed.

(** X22. Signing up through the wrapper signs the new user in: when the
    signup route answers 200, the wrapper keeps the token of the reply
    and returns the profile fetched with it, which shows the new row:
    its identifier, the email of the form, 0 points and the level
    Silver. *)
Theorem api_signup_signs_in (se : Auth.signup_env) (pe : Api.profile_env)
    (userData : Auth.signup_body) (token : option string) (d : db) :
  jwt_sound ->
  status (snd (run (Auth.signup se userData) d)) = 200 ->
  jwt_sign (jwt_secret (Auth.su_JWT_SECRET se)) (Auth.su_clock se) one_hour
    (Auth.su_new_id se) <> EmptyString ->
  Api.pr_JWT_SECRET pe = Auth.su_JWT_SECRET se ->
  Auth.su_clock se <= Api.pr_clock pe < Auth.su_clock se + one_hour ->
  Api.pr_select_fault pe = false ->
  exists record,
    Api.signup se pe userData token d
    = (Some (jwt_sign (jwt_secret (Auth.su_JWT_SECRET se)) (Auth.su_clock se)
               one_hour (Auth.su_new_id se)),
       fst (run (Auth.signup se userData) d),
       Api.Returned record)
    /\ prop "id" record = Some (JStr (Auth.su_new_id se))
    /\ prop "email" record = Some (JStr (Auth.email userData))
    /\ prop "points" record = Some (JNum 0)
    /\ prop "level" record = Some (JStr "Silver").
Proof.
  intros Hj Hok Htok Hsecret Hclock Hfault.
  destruct (signup_ok_inv se userData d Hok) as (newUser & Hins & Hresp).
  destruct (insert_user_ok _ _ _ _ _ _ _ _ _ _ _ Hins) as (Hrow & _).
  pose proof (select_new_user_by_id _ _ _ _ _ _ _ _ _ _ _ Hins) as Hsel.
  assert (Hid : u_id newUser = Auth.su_new_id se) by (rewrite Hrow; reflexivity).
  exists (Profile.userResponse newUser). split.
  - unfold Api.signup.
    destruct (run (Auth.signup se userData) d) as [d1 res] eqn:Hrun.
    cbn [fst snd] in Hresp, Hsel |- *. rewrite Hresp, handleResponse_json.
    rewrite Hid, (token_value_body _ Htok).
    unfold Api.getUser, run, Profile.profile, bind, await_read, reply, ret.
    rewrite Hsecret, Hfault, (Hj _ _ _ (Api.pr_clock pe) _ Hclock).
    rewrite <- Hid, Hsel. cbn [negb]. reflexivity.
  - rewrite Hrow. repeat split; reflexivity.
Qed.

End ApiFacts.

(** ** The download counter *)

Section CounterFacts.
Import Js Store DownloadCounter.

(** Integers of less than 54 bits are doubles. *)
Lemma round_exact x : - 2 ^ 53 < x < 2 ^ 53 -> Double.round x = x.
Proof.
  intros Hx. unfold Double.round. rewrite nearest_small by lia.
  destruct x; cbn [Z.sgn Z.abs]; lia.
Qed.

(** Within the [int] range the sum of the count read and one is exact. *)
Lemma plus_one_exact (x : option Z) :
  in_int4 (or_zero x + 1) = true ->
  Double.add (to_number x) 1 = or_zero x + 1.
Proof.
  unfold in_int4, int4_min, int4_max. intros Hr.
  apply andb_true_iff in Hr. destruct Hr as [Hlo Hhi].
  apply Z.leb_le in Hlo. apply Z.leb_le in Hhi.
  unfold Double.add. destruct x as [n |]; cbn [to_number or_zero] in *.
  - rewrite (round_exact n) by lia. apply round_exact. lia.
  - reflexivity.
Qed.

Lemma store_and_show_run newCount s :
  in_int4 newCount = true ->
  store_and_show false newCount s
  = mkSite (counted newCount (site_stats s)) (shown newCount (profileDownloads s)).
Proof.
  intros Hr. unfold store_and_show, update_count. rewrite Hr. reflexivity.
Qed.


Lemma increment_run sf s data :
  select_count sf s = Ok data ->
  in_int4 (or_zero (download_count data) + 1) = true ->
  incrementDownloadCount sf false s
  = mkSite (counted (or_zero (download_count data) + 1) (site_stats s))
      (shown (or_zero (download_count data) + 1) (profileDownloads s)).
Proof.
  intros Hsel Hr. unfold incrementDownloadCount, fetch. rewrite Hsel.
  rewrite (plus_one_exact _ Hr). apply store_and_show_run. exact Hr.
Qed.


Lemma select_counted s data newCount element :
  select_count false s = Ok data ->
  select_count false (mkSite (counted newCount (site_stats s)) element)
  = Ok (mkStat 1 (Some newCount)).
Proof.
  unfold select_count. intros Hs. apply single_filter_hit in Hs.
  destruct Hs as [Hrow Hid]. apply Z.eqb_eq in Hid.
  cbn [site_stats]. unfold counted. rewrite filter_map_commute.
  - rewrite Hrow. cbn [map single]. rewrite Hid. reflexivity.
  - intros r. destruct (s_id r =? 1) eqn:E; cbn [s_id]; rewrite E; reflexivity.
Qed.


Lemma counted_twice n m rows : counted n (counted m rows) = counted n rows.
Proof.
  unfold counted. rewrite map_map. apply map_ext. intros r.
  destruct (s_id r =? 1) eqn:E; cbn [s_id]; rewrite E; reflexivity.
Qed.


(** X24. Downloads counted one after the other add up. From a table
    with a single row of identifier 1 whose count is within the [int]
    range, after [n + 1] calls, each served by the store, and with the
    count read at the start plus [n + 1] still within the range, the
    row holds that sum, and the element, if the page has it, shows
    it. *)
Theorem downloads_add_up (n : nat) (s : site) (data : stat_row) :
  select_count false s = Ok data ->
  int4_min <= or_zero (download_count data) ->
  or_zero (download_count data) + Z.of_nat (S n) <= int4_max ->
  let total := or_zero (download_count data) + Z.of_nat (S n) in
  let s' := Nat.iter (S n) (incrementDownloadCount false false) s in
  select_count false s' = Ok (mkStat 1 (Some total))
  /\ profileDownloads s'
     = match profileDownloads s with
       | Some _ => Some (number_toString total)
       | None => None
       end.
Proof.
  intros Hsel Hlo. cbv zeta. induction n as [| n IH]; intros Hhi.
  - cbn [Nat.iter nat_rect].
    assert (Hr : in_int4 (or_zero (download_count data) + 1) = true).
    { unfold in_int4. apply andb_true_iff. split; apply Z.leb_le; lia. }
    rewrite (increment_run _ _ _ Hsel Hr).
    change (Z.of_nat 1) with 1. split.
    + exact (select_counted _ _ _ _ Hsel).
    + reflexivity.
  - destruct IH as [IHs IHp]; [lia |].
    change (Nat.iter (S (S n)) (incrementDownloadCount false false) s)
      with (incrementDownloadCount false false
              (Nat.iter (S n) (incrementDownloadCount false false) s)).
    assert (Hr : in_int4 (or_zero (download_count
                   (mkStat 1 (Some (or_zero (download_count data) + Z.of_nat (S n)))))
                 + 1) = true).
    { cbn [download_count or_zero]. unfold in_int4. apply andb_true_iff.
      split; apply Z.leb_le; lia. }
    rewrite (increment_run _ _ _ IHs Hr). cbn [download_count or_zero].
    replace (or_zero (download_count data) + Z.of_nat (S n) + 1)
      with (or_zero (download_count data) + Z.of_nat (S (S n))) by lia.
    split.
    + exact (select_counted _ _ _ _ IHs).
    + cbn [profileDownloads]. rewrite IHp.
      destruct (profileDownloads s); reflexivity.
Qed.

(** X25. Two downloads that overlap count as one. When a second call
    reads the count before the first has written, both write the same
    number (taken within the [int] range): the second write changes
    nothing, the row holds the count read plus one, not plus two, and a
    later call reads that number. *)
Theorem overlapping_downloads_count_once (s : site) (newCount : Z) :
  fetch false s = Ok newCount ->
  in_int4 newCount = true ->
  let first := store_and_show false newCount s in
  store_and_show false newCount first = first
  /\ select_count false first = Ok (mkStat 1 (Some newCount))
  /\ fetch false first = Ok (newCount + 1).
Proof.
  intros Hf Hr. cbv zeta. rewrite (store_and_show_run _ s Hr).
  rewrite (store_and_show_run _ _ Hr). cbn [site_stats profileDownloads].
  assert (Hsel : exists data, select_count false s = Ok data).
  { unfold fetch in Hf. destruct (select_count false s) as [data |];
      [exists data; reflexivity | discriminate]. }
  destruct Hsel as [data Hsel].
  pose proof (select_counted s data newCount (shown newCount (profileDownloads s))
                Hsel) as Hrow.
  split; [| split].
  - rewrite counted_twice. f_equal. destruct (profileDownloads s); reflexivity.
  - exact Hrow.
  - unfold fetch. rewrite Hrow. cbn [download_count to_number].
    unfold in_int4, int4_min, int4_max in Hr.
    apply andb_true_iff in Hr. destruct Hr as [Hlo Hhi].
    apply Z.leb_le in Hlo. apply Z.leb_le in Hhi.
    unfold Double.add. rewrite (round_exact newCount) by lia.
    rewrite round_exact by lia. reflexivity.
Qed.

End CounterFacts.

Section CounterInstances.
Import Js Store DownloadCounter.


(** Three downloads from a count of 41, on a page that shows it. *)
Lemma downloads_add_up_witness :
  select_count false
    (Nat.iter 3 (incrementDownloadCount false false) Sample.counting)
  = Ok (mkStat 1 (Some 44))
  /\ profileDownloads
       (Nat.iter 3 (incrementDownloadCount false false) Sample.counting)
     = Some "44".
Proof.
  refine (downloads_add_up 2 Sample.counting (mkStat 1 (Some 41)) _ _ _).
  - reflexivity.
  - unfold int4_min. cbn. lia.
  - unfold int4_max. cbn. lia.
Defined.

(** Two overlapping downloads from a count of 41. *)
Lemma overlapping_downloads_count_once_witness :
  store_and_show false 42 (store_and_show false 42 Sample.counting)
  = store_and_show false 42 Sample.counting
  /\ select_count false (store_and_show false 42 Sample.counting)
     = Ok (mkStat 1 (Some 42))
  /\ fetch false (store_and_show false 42 Sample.counting) = Ok 43.
Proof.
  refine (overlapping_downloads_count_once Sample.counting 42 _ _);
    reflexivity.
Defined.

End CounterInstances.

(** ** Worked instances: accounts *)

Section AccountInstances.
Import Js Store Express Auth Profile.
#[local] Existing Instance Demo.bcrypt.
#[local] Existing Instance Demo.jwt.

(** A newcomer signs up beside Alice. *)
Lemma signup_all_or_nothing_witness :
  fst (run (signup Demo.signup_world (Demo.signup_request "b@x.com")) Demo.alice_db)
  = set_users Demo.alice_db
      [Demo.alice;
       mkUser "u2" "Alice" "Pleasance" "b@x.com" "556" "$2a$pw123456" (Some 0)
         (Some "Silver") (Some EmptyString) 5]
  /\ token_of (snd (run (signup Demo.signup_world (Demo.signup_request "b@x.com"))
                      Demo.alice_db))
     = Some "secret.u2".
Proof.
  exact (proj2 (signup_all_or_nothing Demo.signup_world
                  (Demo.signup_request "b@x.com") Demo.alice_db) eq_refl).
Defined.

(** A guess at Alice's password. *)
Lemma login_refused_alike_witness :
  snd (run (login Demo.login_world {| li_email := "a@x.com"; li_password := "guess" |})
         Demo.alice_db)
  = res_status_json 400 (msg "Invalid Credentials").
Proof.
  refine (proj2 (login_refused_alike Demo.login_world
                   {| li_email := "a@x.com"; li_password := "guess" |}
                   Demo.alice_db) _).
  intros u [<- | []] _. reflexivity.
Defined.

(** Alice logs in with her password and asks for her profile fifty
    seconds later. *)
Lemma login_then_profile_witness :
  exists u record,
    In u (users Demo.alice_db) /\ u_email u = "a@x.com" /\
    run (profile None 250 false (Some "secret.u1")) Demo.alice_db
    = (Demo.alice_db, mkResponse 200 (Json record))
    /\ prop "_id" record = Some (JStr (u_id u))
    /\ prop "id" record = Some (JStr (u_id u))
    /\ prop "firstName" record = Some (JStr (u_first_name u))
    /\ prop "lastName" record = Some (JStr (u_last_name u))
    /\ prop "email" record = Some (JStr "a@x.com")
    /\ prop "phone" record = Some (JStr (u_phone u))
    /\ prop "points" record = Some (jnum_opt (u_points u))
    /\ prop "level" record = Some (jstr_opt (u_level u))
    /\ prop "profilePic" record = Some (jstr_opt (u_profile_pic u)).
Proof.
  apply (login_then_profile Demo.login_world
           {| li_email := "a@x.com"; li_password := "old" |}
           Demo.alice_db "secret.u1" 250).
  - exact demo_jwt_sound.
  - cbn. repeat constructor. intros [].
  - reflexivity.
  - reflexivity.
  - cbn. unfold one_hour. lia.
Defined.

(** Alice resets her password and logs in with the new one. *)
Lemma reset_then_login_witness :
  fst (run (login Demo.login_world {| li_email := "a@x.com"; li_password := "new" |})
         (fst (run (OtpRoutes.reset_password Demo.reset_world "a@x.com" "new")
                 Demo.alice_db)))
  = fst (run (OtpRoutes.reset_password Demo.reset_world "a@x.com" "new")
           Demo.alice_db)
  /\ status (snd (run (login Demo.login_world
                         {| li_email := "a@x.com"; li_password := "new" |})
                    (fst (run (OtpRoutes.reset_password Demo.reset_world
                                 "a@x.com" "new") Demo.alice_db)))) = 200
  /\ (exists body,
        payload (snd (run (login Demo.login_world
                             {| li_email := "a@x.com"; li_password := "new" |})
                        (fst (run (OtpRoutes.reset_password Demo.reset_world
                                     "a@x.com" "new") Demo.alice_db))))
        = Json body
        /\ prop "token" body = Some (JStr "secret.u1"))
  /\ token_of (snd (run (login Demo.login_world
                           {| li_email := "a@x.com"; li_password := "new" |})
                      (fst (run (OtpRoutes.reset_password Demo.reset_world
                                   "a@x.com" "new") Demo.alice_db))))
     = Some "secret.u1".
Proof.
  refine (reset_then_login Demo.reset_world Demo.login_world "new"
            Demo.alice_db Demo.alice _ _ _ _ _).
  - exact demo_bcrypt_sound.
  - unfold emails_unique. cbn. repeat constructor. intros [].
  - left. reflexivity.
  - reflexivity.
  - reflexivity.
Defined.

End AccountInstances.

(** ** Worked instances: uploads *)

Section UploadInstances.
Import Js Store Express Ledger Papers Filter.
#[local] Existing Instance Demo.bcrypt.
#[local] Existing Instance Demo.jwt.
#[local] Existing Instance Demo.platform.

(** Alice uploads the algorithms paper into a store without papers. *)
Lemma upload_accepted_witness :
  (exists record,
     payload (snd (run (upload (Demo.upload_world false) "u1" Demo.a_paper
                          (Some Demo.a_file)) Demo.alice_db)) = Json record
     /\ prop "_id" record = Some (JStr "p9")
     /\ prop "id" record = Some (JStr "p9")
     /\ prop "subject" record = Some (JStr "Algorithms")
     /\ prop "courseCode" record = Some (JStr "CSE2003")
     /\ prop "examYear" record = Some (JStr "2024")
     /\ prop "examName" record = Some (JStr "FAT")
     /\ prop "category" record = Some (JStr "Computer Science")
     /\ prop "filePath" record
        = Some (JStr "https://storage/papers/1700000000000.pdf")
     /\ prop "uploader" record = Some (JStr "u1"))
  /\ papers (fst (run (upload (Demo.upload_world false) "u1" Demo.a_paper
                         (Some Demo.a_file)) Demo.alice_db))
     = [Demo.uploaded]
  /\ bucket (fst (run (upload (Demo.upload_world false) "u1" Demo.a_paper
                         (Some Demo.a_file)) Demo.alice_db))
     = [("1700000000000.pdf", "%PDF")].
Proof.
  pose proof (upload_accepted (Demo.upload_world false) "u1" Demo.a_paper
                Demo.a_file Demo.alice_db eq_refl) as W.
  cbv zeta in W. destruct W as (_ & Hr & Hp & Hb & _).
  split; [exact Hr | split; [exact Hp | exact Hb]].
Defined.

(** The same upload once more at the same reading of the clock. *)
Lemma upload_same_clock_refused_witness :
  run (upload (Demo.upload_world false) "u1" Demo.a_paper (Some Demo.a_file))
    (fst (run (upload (Demo.upload_world false) "u1" Demo.a_paper
                 (Some Demo.a_file)) Demo.alice_db))
  = (fst (run (upload (Demo.upload_world false) "u1" Demo.a_paper
                 (Some Demo.a_file)) Demo.alice_db),
     res_status_send 500 "Error uploading file").
Proof.
  refine (upload_same_clock_refused (Demo.upload_world false)
            (Demo.upload_world false) "u1" "u1" Demo.a_paper Demo.a_paper
            Demo.a_file Demo.a_file Demo.alice_db _ _ _); reflexivity.
Defined.

(** The two papers of the library, both uploaded by Alice. *)
Lemma search_hits_have_uploader_witness :
  Forall (fun hit => exists u, snd hit = Some u /\ In u (users Demo.library_db)
                      /\ u_id u = p_uploader_id (fst hit))
    [(Demo.thermodynamics, Some Demo.alice); (Demo.algorithms, Some Demo.alice)].
Proof.
  refine (search_hits_have_uploader None Demo.library_db _ _ _).
  - intros p [<- | [<- | []]]; reflexivity.
  - reflexivity.
Defined.

(** Alice's upload is found by the query [algo]. *)
Lemma upload_then_search_witness :
  exists items record u,
    run (search false (Some "algo"))
      (fst (run (upload (Demo.upload_world false) "u1" Demo.a_paper
                   (Some Demo.a_file)) Demo.alice_db))
    = (fst (run (upload (Demo.upload_world false) "u1" Demo.a_paper
                   (Some Demo.a_file)) Demo.alice_db),
       res_json (JArr items))
    /\ In record items
    /\ prop "subject" record = Some (JStr "Algorithms")
    /\ prop "courseCode" record = Some (JStr "CSE2003")
    /\ prop "examYear" record = Some (JStr "2024")
    /\ prop "category" record = Some (JStr "Computer Science")
    /\ prop "uploader" record =
         Some (JObj [("firstName", JStr (u_first_name u));
                     ("lastName", JStr (u_last_name u));
                     ("profilePic", jstr_opt (u_profile_pic u))])
    /\ In u (users (fst (run (upload (Demo.upload_world false) "u1" Demo.a_paper
                                (Some Demo.a_file)) Demo.alice_db)))
    /\ u_id u = "u1".
Proof.
  refine (upload_then_search (Demo.upload_world false) "u1" Demo.a_paper
            Demo.a_file Demo.alice_db "algo" _ _).
  - reflexivity.
  - right. split; reflexivity.
Defined.

(** A newcomer signs up beside Alice, uploads a paper fifty seconds
    later and looks at the profile after another fifty. *)
Lemma signup_upload_profile_witness :
  exists record,
    run (Profile.profile None 200 false (Some "secret.u2"))
      (fst (upload_route None 150 (Some "secret.u2") (Demo.upload_world false)
              Demo.a_paper (Some Demo.a_file)
              (fst (run (Auth.signup Demo.signup_world
                           (Demo.signup_request "b@x.com")) Demo.alice_db))))
    = (fst (upload_route None 150 (Some "secret.u2") (Demo.upload_world false)
              Demo.a_paper (Some Demo.a_file)
              (fst (run (Auth.signup Demo.signup_world
                           (Demo.signup_request "b@x.com")) Demo.alice_db))),
       res_json record)
    /\ prop "email" record = Some (JStr "b@x.com")
    /\ prop "points" record = Some (JNum 50)
    /\ prop "level" record = Some (JStr "Silver").
Proof.
  refine (signup_upload_profile Demo.signup_world (Demo.signup_request "b@x.com")
            Demo.alice_db (Demo.upload_world false) Demo.a_paper Demo.a_file
            "secret.u2" 150 200 _ _ _ _ _ _ _ _).
  - exact demo_jwt_sound.
  - reflexivity.
  - reflexivity.
  - cbn. unfold one_hour. lia.
  - cbn. unfold one_hour. lia.
  - reflexivity.
  - reflexivity.
  - reflexivity.
Defined.

End UploadInstances.

(** ** Worked instances: what requests keep *)

Section KeptInstances.
Import Js Store Express Ledger Routes.
#[local] Existing Instance Demo.bcrypt.
#[local] Existing Instance Demo.jwt.
#[local] Existing Instance Demo.platform.

(** A code is sent to Alice, her password is reset, and the code still
    verifies. *)
Lemma otp_code_verifies_from_then_on_witness :
  snd (run (OtpRoutes.verify_otp false "a@x.com" (Otp.generate_otp (2 ^ 52)))
         (fst (run (OtpRoutes.reset_password Demo.reset_world "a@x.com" "new")
                 (fst (run (OtpRoutes.send_otp Demo.otp_world "a@x.com")
                         Demo.alice_db)))))
  = res_json (msg "OTP verified").
Proof.
  refine (otp_code_verifies_from_then_on Demo.otp_world "a@x.com" Demo.alice_db
            _ _ _).
  - reflexivity.
  - exact (later_step _ _ _ (later_now _)
             (serves_reset_password Demo.reset_world "a@x.com" "new" _)).
Defined.

(** The store with Alice, after a signup beside her. *)
Lemma requests_keep_schema_witness :
  schema_holds (fst (run (Auth.signup Demo.signup_world
                            (Demo.signup_request "b@x.com")) Demo.alice_db)).
Proof.
  refine (requests_keep_schema Demo.alice_db _ _ _).
  - unfold schema_holds, emails_unique, ids_unique, paper_ids_unique,
      uploaders_exist.
    cbn. split; [| split; [| split]].
    + constructor; [intros [] | constructor].
    + constructor; [intros [] | constructor].
    + constructor.
    + intros p [].
  - exact (later_step _ _ _ (later_now _)
             (serves_signup Demo.signup_world (Demo.signup_request "b@x.com") _)).
Defined.

(** The newcomer after one upload: one award, 50 points, Silver. *)
Lemma reachable_ledger_witness :
  exists k, 0 <= k
    /\ u_points Sample.newcomer = Some (50 * k)
    /\ u_level Sample.newcomer = Some (level_of_total (50 * k))
    /\ Profile.uploadsCount (u_points Sample.newcomer) = k.
Proof.
  refine (reachable_ledger Sample.newcomer_db Sample.newcomer _ _).
  - exact (later_step _ _ _
             (later_step _ _ _ (later_now _)
                (serves_signup Demo.signup_world (Demo.signup_request "b@x.com") _))
             (serves_upload None 150 (Some "secret.u2") (Demo.upload_world false)
                Demo.a_paper (Some Demo.a_file) _)).
  - left. reflexivity.
Defined.

(** Forty awards take Alice from nothing to Gold. *)
Lemma levels_by_awards_witness :
  exists u',
    select_user_by_id false "u1" (awards 40 "u1" Demo.alice_db) = Ok u'
    /\ u_points u' = Some 2000
    /\ u_level u' = Some "Gold".
Proof.
  refine (levels_by_awards 40 "u1" Demo.alice_db Demo.alice 0 _ _ _ _ _).
  - reflexivity.
  - lia.
  - reflexivity.
  - reflexivity.
  - unfold int4_max. cbn. lia.
Defined.

End KeptInstances.

(** ** Worked instances: the page *)

Section PageInstances.
Import Js Store Express Browser.
#[local] Existing Instance Demo.bcrypt.
#[local] Existing Instance Demo.jwt.
#[local] Existing Instance Demo.platform.


(** The text ALGO typed into the search box, with two papers on the
    page. *)
Lemma handleSearch_contains_witness :
  @handleSearch Sample.ascii_case "ALGO" Sample.browsing
  = [Sample.algorithms_paper]
  /\ @handleSearch Sample.ascii_case EmptyString Sample.browsing
     = [Sample.algorithms_paper; Sample.thermodynamics_paper]
  /\ (forall other, is_ascii other = true ->
        Pattern.lower_string other = Pattern.lower_string "ALGO" ->
        @handleSearch Sample.ascii_case other Sample.browsing
        = @handleSearch Sample.ascii_case "ALGO" Sample.browsing).
Proof.
  refine (@handleSearch_contains Sample.ascii_case "ALGO" Sample.browsing _ _ _).
  - intros s _. reflexivity.
  - reflexivity.
  - repeat constructor.
Defined.

(** The visitor uploads a paper, and once more at the same reading of
    the clock. *)
Lemma browser_upload_same_clock_witness :
  uploadSubmit false false 1700000000000 Sample.a_form Sample.a_selection
    (uploadSubmit false false 1700000000000 Sample.a_form Sample.a_selection
       Sample.visiting)
  = uploadSubmit false false 1700000000000 Sample.a_form Sample.a_selection
      Sample.visiting.
Proof.
  refine (browser_upload_same_clock false false false false 1700000000000
            Sample.a_form Sample.a_form Sample.a_selection Sample.a_selection
            Sample.visiting _).
  intros E. apply (f_equal (fun st => List.length (papers_store st))) in E.
  discriminate E.
Defined.

(** Two uploads with the same object path, the store answering them
    differently. *)
Lemma upload_paths_distinct_witness :
  Papers.up_date_now (Demo.upload_world false)
  = Papers.up_date_now (Demo.upload_world true).
Proof.
  refine (upload_paths_distinct (Demo.upload_world false) (Demo.upload_world true)
            Demo.a_file Demo.a_file _ _ _ _).
  - cbn. lia.
  - cbn. lia.
  - reflexivity.
  - reflexivity.
Defined.

(** A guess at Alice's password, with a token kept from before. *)
Lemma api_login_refused_witness :
  Api.login Demo.login_world Sample.profile_world "a@x.com" "guess"
    (Some "kept") Demo.alice_db
  = (Some "kept", Demo.alice_db, Api.Thrown (JStr "Invalid Credentials")).
Proof.
  refine (api_login_refused Demo.login_world Sample.profile_world "a@x.com"
            "guess" (Some "kept") Demo.alice_db _).
  intros u [<- | []] _. reflexivity.
Defined.

(** A newcomer signs up through the wrapper. *)
Lemma api_signup_signs_in_witness :
  exists record,
    Api.signup Demo.signup_world Sample.profile_world
      (Demo.signup_request "b@x.com") None Demo.alice_db
    = (Some "secret.u2",
       fst (run (Auth.signup Demo.signup_world (Demo.signup_request "b@x.com"))
              Demo.alice_db),
       Api.Returned record)
    /\ prop "id" record = Some (JStr "u2")
    /\ prop "email" record = Some (JStr "b@x.com")
    /\ prop "points" record = Some (JNum 0)
    /\ prop "level" record = Some (JStr "Silver").
Proof.
  refine (api_signup_signs_in Demo.signup_world Sample.profile_world
            (Demo.signup_request "b@x.com") None Demo.alice_db _ _ _ _ _ _).
  - exact demo_jwt_sound.
  - reflexivity.
  - cbn. discriminate.
  - reflexivity.
  - cbn. unfold one_hour. lia.
  - reflexivity.
Defined.

End PageInstances.
